(** * zstd-dict: dictionary-aware zstd codec, pooling and break-even analysis

    A shallow embedding of the Go packages [zstddict], [grpccodec] and
    [cmd/analyze].  The compression engine
    (github.com/klauspost/compress/zstd), the dictionary builder
    (github.com/klauspost/compress/dict) and compress/gzip are external
    packages: they enter as interfaces ([ZstdEngine], section variables),
    and every property of the repository's own code is proved for an
    arbitrary implementation of the interface. *)

From Stdlib Require Import ZArith List Lia Bool String.
Import ListNotations.
Open Scope Z_scope.

(** ** Go basics *)

(** [[]byte].  A nil slice and an empty slice both have length 0; where the
    source tests a slice against nil (the dictionary) it is an [option]. *)
Definition bytes := list Byte.byte.

(** Go's [int] and [int64] on a 64-bit platform: two's complement,
    arithmetic wraps around silently. *)
Module GoInt.

Definition min_int : Z := - 2 ^ 63.
Definition max_int : Z := 2 ^ 63 - 1.

Definition wrap (x : Z) : Z := (x + 2 ^ 63) mod 2 ^ 64 - 2 ^ 63.

Definition add (a b : Z) : Z := wrap (a + b).
Definition sub (a b : Z) : Z := wrap (a - b).

Definition in_range (x : Z) : Prop := min_int <= x <= max_int.

(** [len(s)] *)
Definition len {A : Type} (s : list A) : Z := Z.of_nat (List.length s).

End GoInt.

(** Closed comparisons of integers are settled by evaluation. *)
Ltac by_computation := apply Z.leb_le; vm_compute; reflexivity.
Ltac in_range_by_computation := split; by_computation.

(** Go's [error] values met in the sources. *)
Inductive error : Type :=
| errors_New (msg : string)      (* errors.New(msg) *)
| io_EOF                         (* io.EOF *)
| pkg_error (code : nat).        (* an error value of an external package *)

(** [err == io.EOF] *)
Definition is_EOF (err : option error) : bool :=
  match err with
  | Some io_EOF => true
  | _ => false
  end.

(** A call either runs to completion or panics. *)
Inductive exec (A : Type) : Type :=
| Done (a : A)
| Panic (msg : string).
Arguments Done {A} a.
Arguments Panic {A} msg.

Definition exec_bind {A B : Type} (m : exec A) (k : A -> exec B) : exec B :=
  match m with
  | Done a => k a
  | Panic msg => Panic msg
  end.

Notation "' pat <- m ;; k" :=
  (exec_bind m (fun x => match x with pat => k end))
    (at level 61, pat pattern, m at next level, right associativity).

(** ** The external engine *)

(** Encoder options passed to [zstd.NewWriter]. *)
Inductive EOption : Type :=
| WithEncoderDict (d : bytes)
| WithEncoderConcurrency (n : Z).


(** Decoder options passed to [zstd.NewReader]. *)
Inductive DOption : Type :=
| WithDecoderDicts (d : bytes).

(** What the sources use of package zstd.  Constructors return
    [(engine, nil)] or [(nil, err)]. *)
Class ZstdEngine : Type := {
  Encoder : Type;
  Decoder : Type;
  Writer : Type;                         (* io.Writer values *)
  Reader : Type;                         (* io.Reader values *)
  zstd_NewWriter : option Writer -> list EOption -> Encoder + error;
  zstd_NewReader : option Reader -> list DOption -> Decoder + error;
  EncodeAll : Encoder -> bytes -> bytes -> bytes;
  DecodeAll : Decoder -> bytes -> bytes -> bytes * option error;
  Encoder_Reset : Encoder -> Writer -> Encoder;
  (* Write(p) and Close() give the encoder after the call and what they return *)
  Encoder_Write : Encoder -> bytes -> Encoder * Z * option error;
  Encoder_Close : Encoder -> Encoder * option error;
  Decoder_Reset : Decoder -> Reader -> Decoder * option error;
  (* Read(p) gives the decoder after the call, the bytes stored in p, n, err *)
  Decoder_Read : Decoder -> bytes -> Decoder * bytes * Z * option error
}.

(** Values of type [any] that the pools hold: the nil interface, or a
    pointer (possibly nil) to an engine. *)
Inductive any `{ZstdEngine} : Type :=
| nil_any
| any_Encoder (p : option Encoder)
| any_Decoder (p : option Decoder).

Section SyncPool.
Context `{ZstdEngine}.

(** [sync.Pool]: a free list and a constructor.  [Get] takes an item of
    the list when there is one and calls [New] otherwise; the runtime may
    drop items at any time, so no statement below depends on what the
    list holds beyond what [Put] stored. *)
Definition Pool : Type := list any.

Definition Pool_Get (New : unit -> any) (p : Pool) : any * Pool :=
  match p with
  | x :: rest => (x, rest)
  | [] => (New tt, [])
  end.

Definition Pool_Put (x : any) (p : Pool) : Pool := x :: p.

(** [v.( *zstd.Encoder )]: the one-result form panics unless the dynamic
    type is [*zstd.Encoder]; a nil interface has no dynamic type. *)
Definition assert_Encoder (v : any) : exec (option Encoder) :=
  match v with
  | any_Encoder p => Done p
  | nil_any => Panic "interface conversion: interface {} is nil, not *zstd.Encoder"
  | any_Decoder _ => Panic "interface conversion: interface {} is *zstd.Decoder, not *zstd.Encoder"
  end.

Definition assert_Decoder (v : any) : exec (option Decoder) :=
  match v with
  | any_Decoder p => Done p
  | nil_any => Panic "interface conversion: interface {} is nil, not *zstd.Decoder"
  | any_Encoder _ => Panic "interface conversion: interface {} is *zstd.Encoder, not *zstd.Decoder"
  end.

End SyncPool.

(** ** Package zstddict: the one-shot codec *)

Module zstddict.
Section Compressor.
Context `{ZstdEngine}.

Record Compressor : Type := {
  dict : option bytes;
  encoderPool : Pool;
  decoderPool : Pool
}.

Definition set_encoderPool (c : Compressor) (p : Pool) : Compressor :=
  {| dict := dict c; encoderPool := p; decoderPool := decoderPool c |}.

Definition set_decoderPool (c : Compressor) (p : Pool) : Compressor :=
  {| dict := dict c; encoderPool := encoderPool c; decoderPool := p |}.

(** Options of [New]; [os.ReadFile] is a parameter. *)
Inductive Option : Type :=
| WithDictBytes (d : option bytes)
| WithDictFile (path : string).

Variable os_ReadFile : string -> bytes + error.

Definition apply_Option (opt : Option) (c : Compressor) : Compressor + error :=
  match opt with
  | WithDictBytes d =>
      inl {| dict := d; encoderPool := encoderPool c; decoderPool := decoderPool c |}
  | WithDictFile path =>
      match os_ReadFile path with
      | inr err => inr err
      | inl data =>
          inl {| dict := Some data; encoderPool := encoderPool c;
                 decoderPool := decoderPool c |}
      end
  end.

Fixpoint apply_Options (opts : list Option) (c : Compressor) : Compressor + error :=
  match opts with
  | [] => inl c
  | opt :: rest =>
      match apply_Option opt c with
      | inr err => inr err
      | inl c' => apply_Options rest c'
      end
  end.

(** The options the encoder pool's [New] passes to [zstd.NewWriter]. *)
Definition encoder_options (d : option bytes) : list EOption :=
  match d with
  | Some d => [WithEncoderDict d]
  | None => []
  end.

Definition decoder_options (d : option bytes) : list DOption :=
  match d with
  | Some d => [WithDecoderDicts d]
  | None => []
  end.

(** [encoderPool.New]: the closure reads [c.dict] when called. *)
Definition encoderPool_New (c : Compressor) (_ : unit) : any :=
  match zstd_NewWriter None (encoder_options (dict c)) with
  | inr _ => nil_any
  | inl enc => any_Encoder (Some enc)
  end.

Definition decoderPool_New (c : Compressor) (_ : unit) : any :=
  match zstd_NewReader None (decoder_options (dict c)) with
  | inr _ => nil_any
  | inl dec => any_Decoder (Some dec)
  end.

Definition New (opts : list Option) : Compressor + error :=
  match apply_Options opts {| dict := None; encoderPool := []; decoderPool := [] |} with
  | inr err => inr err
  | inl c => inl {| dict := dict c; encoderPool := []; decoderPool := [] |}
  end.

(** [Compress]: the deferred [Put] runs after [EncodeAll]. *)
Definition Compress (c : Compressor) (data : bytes)
  : exec ((bytes * option error) * Compressor) :=
  let '(v, pool) := Pool_Get (encoderPool_New c) (encoderPool c) in
  ' enc <- assert_Encoder v ;;
  match enc with
  | None =>
      Done (([], Some (errors_New "failed to get encoder from pool")),
            set_encoderPool c pool)
  | Some e =>
      let out := EncodeAll e data [] in
      Done ((out, None), set_encoderPool c (Pool_Put (any_Encoder (Some e)) pool))
  end.

Definition CompressTo (c : Compressor) (dst data : bytes)
  : exec ((bytes * option error) * Compressor) :=
  let '(v, pool) := Pool_Get (encoderPool_New c) (encoderPool c) in
  ' enc <- assert_Encoder v ;;
  match enc with
  | None =>
      Done (([], Some (errors_New "failed to get encoder from pool")),
            set_encoderPool c pool)
  | Some e =>
      let out := EncodeAll e data dst in
      Done ((out, None), set_encoderPool c (Pool_Put (any_Encoder (Some e)) pool))
  end.

Definition Decompress (c : Compressor) (data : bytes)
  : exec ((bytes * option error) * Compressor) :=
  let '(v, pool) := Pool_Get (decoderPool_New c) (decoderPool c) in
  ' dec <- assert_Decoder v ;;
  match dec with
  | None =>
      Done (([], Some (errors_New "failed to get decoder from pool")),
            set_decoderPool c pool)
  | Some d =>
      let out := DecodeAll d data [] in
      Done (out, set_decoderPool c (Pool_Put (any_Decoder (Some d)) pool))
  end.

Definition DecompressTo (c : Compressor) (dst data : bytes)
  : exec ((bytes * option error) * Compressor) :=
  let '(v, pool) := Pool_Get (decoderPool_New c) (decoderPool c) in
  ' dec <- assert_Decoder v ;;
  match dec with
  | None =>
      Done (([], Some (errors_New "failed to get decoder from pool")),
            set_decoderPool c pool)
  | Some d =>
      let out := DecodeAll d data dst in
      Done (out, set_decoderPool c (Pool_Put (any_Decoder (Some d)) pool))
  end.

Definition HasDict (c : Compressor) : bool :=
  match dict c with
  | Some _ => true
  | None => false
  end.

Definition DictSize (c : Compressor) : Z :=
  match dict c with
  | Some d => GoInt.len d
  | None => 0
  end.

(** *** Reachable pool contents *)

(** The only items the code ever [Put]s are engines that [New] built for
    this codec's dictionary. *)
Definition encoder_item_ok (d : option bytes) (v : any) : Prop :=
  exists e, v = any_Encoder (Some e) /\
            zstd_NewWriter None (encoder_options d) = inl e.

Definition decoder_item_ok (d : option bytes) (v : any) : Prop :=
  exists dec, v = any_Decoder (Some dec) /\
              zstd_NewReader None (decoder_options d) = inl dec.

Definition wf (c : Compressor) : Prop :=
  Forall (encoder_item_ok (dict c)) (encoderPool c) /\
  Forall (decoder_item_ok (dict c)) (decoderPool c).

(** [c] is in a reachable state and the external package builds the
    encoder [e] for its dictionary: every [Compress] of [c] encodes with
    [e]. *)
Definition encodes_with (c : Compressor) (e : Encoder) : Prop :=
  wf c /\ zstd_NewWriter None (encoder_options (dict c)) = inl e.

(** The engine's own contract: a frame written by an encoder decodes, under
    a decoder built for the same dictionary configuration, to the input. *)
Definition engine_roundtrip : Prop :=
  forall (d : option bytes) (e : Encoder) (dec : Decoder) (b : bytes),
    zstd_NewWriter None (encoder_options d) = inl e ->
    zstd_NewReader None (decoder_options d) = inl dec ->
    DecodeAll dec (EncodeAll e b []) [] = (b, None).

(** The value part of a call's result, the codec state left aside. *)
Definition result {A : Type} (r : exec (A * Compressor)) : exec A :=
  match r with
  | Done (a, _) => Done a
  | Panic msg => Panic msg
  end.

End Compressor.
End zstddict.

(** ** Package grpccodec: the named streaming codec *)

Module grpccodec.
Section Zstd.
Context `{ZstdEngine}.

Definition NameZstd : string := "zstd".
Definition NameZstdDict : string := "zstd-dict".

Record Zstd : Type := {
  name : string;
  dict : option bytes;
  encoderPool : Pool;
  decoderPool : Pool
}.

(** The options [initPools] passes to [zstd.NewWriter]. *)
Definition encoder_options (d : option bytes) : list EOption :=
  match d with
  | Some d => [WithEncoderDict d; WithEncoderConcurrency 1]
  | None => [WithEncoderConcurrency 1]
  end.

Definition decoder_options (d : option bytes) : list DOption :=
  match d with
  | Some d => [WithDecoderDicts d]
  | None => []
  end.

(** The options of the fallback branch of [Compress]. *)
Definition fallback_encoder_options (d : option bytes) : list EOption :=
  match d with
  | Some d => [WithEncoderDict d]
  | None => []
  end.

Definition encoderPool_New (z : Zstd) (_ : unit) : any :=
  match zstd_NewWriter None (encoder_options (dict z)) with
  | inr _ => nil_any
  | inl enc => any_Encoder (Some enc)
  end.

Definition decoderPool_New (z : Zstd) (_ : unit) : any :=
  match zstd_NewReader None (decoder_options (dict z)) with
  | inr _ => nil_any
  | inl dec => any_Decoder (Some dec)
  end.

Definition initPools (z : Zstd) : Zstd :=
  {| name := name z; dict := dict z; encoderPool := []; decoderPool := [] |}.

Definition NewZstd : Zstd :=
  initPools {| name := NameZstd; dict := None; encoderPool := []; decoderPool := [] |}.

Definition NewZstdDict (d : option bytes) : Zstd :=
  initPools {| name := NameZstdDict; dict := d; encoderPool := []; decoderPool := [] |}.

Definition Name (z : Zstd) : string := name z.

Definition set_encoderPool (z : Zstd) (p : Pool) : Zstd :=
  {| name := name z; dict := dict z; encoderPool := p; decoderPool := decoderPool z |}.

Definition set_decoderPool (z : Zstd) (p : Pool) : Zstd :=
  {| name := name z; dict := dict z; encoderPool := encoderPool z; decoderPool := p |}.

(** The [io.WriteCloser] that [Compress] returns: the engine itself on the
    fallback branch, a [pooledEncoder] otherwise (its [pool] field points
    to [z.encoderPool]). *)
Inductive WriteCloser : Type :=
| bare_Encoder (enc : Encoder)
| pooledEncoder (enc : Encoder).

Inductive ReadValue : Type :=
| bare_Decoder (dec : Decoder)
| pooledDecoder (dec : Decoder).

Definition Compress (z : Zstd) (w : Writer)
  : exec ((option WriteCloser * option error) * Zstd) :=
  let '(v, pool) := Pool_Get (encoderPool_New z) (encoderPool z) in
  ' enc <- assert_Encoder v ;;
  match enc with
  | None =>
      match zstd_NewWriter (Some w) (fallback_encoder_options (dict z)) with
      | inr err => Done ((None, Some err), set_encoderPool z pool)
      | inl e => Done ((Some (bare_Encoder e), None), set_encoderPool z pool)
      end
  | Some e =>
      Done ((Some (pooledEncoder (Encoder_Reset e w)), None), set_encoderPool z pool)
  end.

Definition Decompress (z : Zstd) (r : Reader)
  : exec ((option ReadValue * option error) * Zstd) :=
  let '(v, pool) := Pool_Get (decoderPool_New z) (decoderPool z) in
  ' dec <- assert_Decoder v ;;
  match dec with
  | None =>
      match zstd_NewReader (Some r) (decoder_options (dict z)) with
      | inr err => Done ((None, Some err), set_decoderPool z pool)
      | inl d => Done ((Some (bare_Decoder d), None), set_decoderPool z pool)
      end
  | Some d =>
      match Decoder_Reset d r with
      | (d', Some err) =>
          Done ((None, Some err),
                set_decoderPool z (Pool_Put (any_Decoder (Some d')) pool))
      | (d', None) =>
          Done ((Some (pooledDecoder d'), None), set_decoderPool z pool)
      end
  end.

(** [pooledEncoder.Write] and [pooledEncoder.Close]: [enc] is the wrapped
    engine, [pool] the pool the wrapper points to. *)
Definition pooledEncoder_Write (enc : Encoder) (data : bytes)
  : (Z * option error) * Encoder :=
  let '(enc', n, err) := Encoder_Write enc data in
  ((n, err), enc').

Definition pooledEncoder_Close (enc : Encoder) (pool : Pool)
  : option error * Encoder * Pool :=
  let '(enc', err) := Encoder_Close enc in
  (err, enc', Pool_Put (any_Encoder (Some enc')) pool).

(** [pooledDecoder.Read]: [dec] is the wrapped engine, [pool] the pool the
    wrapper points to.  The result is [(n, err)] with the bytes stored in
    the caller's buffer, the engine after the call and the pool after the
    call. *)
Definition pooledDecoder_Read (dec : Decoder) (pool : Pool) (data : bytes)
  : (Z * option error) * bytes * Decoder * Pool :=
  let '(dec', data', n, err) := Decoder_Read dec data in
  let pool' := if is_EOF err then Pool_Put (any_Decoder (Some dec')) pool else pool in
  ((n, err), data', dec', pool').

(** Reachable pool contents: [Close], [Read] and [Decompress] only ever
    [Put] the non-nil engine they hold (in whatever state the stream left
    it). *)
Definition live_encoder (v : any) : Prop := exists e, v = any_Encoder (Some e).
Definition live_decoder (v : any) : Prop := exists d, v = any_Decoder (Some d).

Definition live (z : Zstd) : Prop :=
  Forall live_encoder (encoderPool z) /\ Forall live_decoder (decoderPool z).

(** The value part of a call's result, the codec state left aside. *)
Definition result {A : Type} (r : exec (A * Zstd)) : exec A :=
  match r with
  | Done (a, _) => Done a
  | Panic msg => Panic msg
  end.

End Zstd.
End grpccodec.

(** ** Package zstddict, train.go: the training adapter *)

Module train.
Section TrainDict.

Record TrainDictOptions : Type := {
  MaxDictSize : Z;
  ID : Z;                (* uint32 *)
  Level : Z              (* zstd.EncoderLevel *)
}.

(** The fields of [dict.Options] that [TrainDict] sets. *)
Record dict_Options : Type := {
  dict_MaxDictSize : Z;
  dict_HashBytes : Z;
  dict_ZstdDictCompat : bool;
  dict_ZstdDictID : Z;
  dict_ZstdLevel : Z
}.

(** [dict.BuildZstdDict], the external trainer. *)
Variable BuildZstdDict : list bytes -> dict_Options -> bytes * option error.

Definition dictOpts_of (opts : option TrainDictOptions) : dict_Options :=
  let dictOpts :=
    {| dict_MaxDictSize := 0; dict_HashBytes := 6; dict_ZstdDictCompat := true;
       dict_ZstdDictID := 0; dict_ZstdLevel := 0 |} in
  let dictOpts :=
    match opts with
    | Some o =>
        {| dict_MaxDictSize :=
             if 0 <? MaxDictSize o then MaxDictSize o else dict_MaxDictSize dictOpts;
           dict_HashBytes := dict_HashBytes dictOpts;
           dict_ZstdDictCompat := dict_ZstdDictCompat dictOpts;
           dict_ZstdDictID := ID o;
           dict_ZstdLevel := Level o |}
    | None => dictOpts
    end in
  if dict_MaxDictSize dictOpts =? 0
  then {| dict_MaxDictSize := 32 * 1024;
          dict_HashBytes := dict_HashBytes dictOpts;
          dict_ZstdDictCompat := dict_ZstdDictCompat dictOpts;
          dict_ZstdDictID := dict_ZstdDictID dictOpts;
          dict_ZstdLevel := dict_ZstdLevel dictOpts |}
  else dictOpts.

Definition TrainDict (samples : list bytes) (opts : option TrainDictOptions)
  : bytes * option error :=
  if GoInt.len samples =? 0
  then ([], Some (errors_New "no samples provided for training"))
  else BuildZstdDict samples (dictOpts_of opts).

(** The [train] command of cmd/demo, from the point where the samples
    have been generated: fewer than 10 samples end the process
    ([log.Fatalf]) before the trainer is reached. *)
Inductive run (A : Type) : Type :=
| Fatal (msg : string)
| Continues (a : A).


End TrainDict.
End train.

(** ** cmd/analyze: savings ledger and break-even *)

Module analyze.
Section Analyzer.
Context `{ZstdEngine}.

(** [gzip.NewWriter(&buf); gw.Write(sample); gw.Close(); buf] *)
Variable gzip_compress : bytes -> bytes.

Local Abbreviation Compressor := zstddict.Compressor.

(** [out, _ := c.Compress(sample)]: the error is dropped, a panic is not. *)
Definition Compress_ (c : Compressor) (sample : bytes) : exec (bytes * Compressor) :=
  ' ((out, _), c') <- zstddict.Compress c sample ;; Done (out, c').

(** *** main.go: the running totals of [main] *)

Record totals : Type := {
  totalUncompressed : Z;
  totalGzip : Z;
  totalZstd : Z;
  totalZstdDict : Z
}.

Definition main_loop_body (t : totals) (compNone compDict : Compressor) (sample : bytes)
  : exec (totals * Compressor * Compressor) :=
  let totalUncompressed' := GoInt.add (totalUncompressed t) (GoInt.len sample) in
  let totalGzip' := GoInt.add (totalGzip t) (GoInt.len (gzip_compress sample)) in
  ' (compressed, compNone') <- Compress_ compNone sample ;;
  let totalZstd' := GoInt.add (totalZstd t) (GoInt.len compressed) in
  ' (compressedDict, compDict') <- Compress_ compDict sample ;;
  let totalZstdDict' := GoInt.add (totalZstdDict t) (GoInt.len compressedDict) in
  Done ({| totalUncompressed := totalUncompressed';
           totalGzip := totalGzip';
           totalZstd := totalZstd';
           totalZstdDict := totalZstdDict' |}, compNone', compDict').

Fixpoint main_loop (testSamples : list bytes) (t : totals) (compNone compDict : Compressor)
  : exec (totals * Compressor * Compressor) :=
  match testSamples with
  | [] => Done (t, compNone, compDict)
  | sample :: rest =>
      ' (t', compNone', compDict') <- main_loop_body t compNone compDict sample ;;
      main_loop rest t' compNone' compDict'
  end.

(** *** main.go: [calculateBreakeven] *)

(** One iteration up to the test: the new [cumulativeSavings]. *)
Definition calculateBreakeven_body (cumulativeSavings : Z)
           (compNone compDict : Compressor) (sample : bytes)
  : exec (Z * Compressor * Compressor) :=
  ' (plain, compNone') <- Compress_ compNone sample ;;
  ' (withDict, compDict') <- Compress_ compDict sample ;;
  let savings := GoInt.sub (GoInt.len plain) (GoInt.len withDict) in
  Done (GoInt.add cumulativeSavings savings, compNone', compDict').

(** The loop; the result is the value returned together with
    [cumulativeSavings] as it stands at the return. *)
Fixpoint calculateBreakeven_loop (dictCost : Z) (samples : list bytes)
         (i cumulativeSavings : Z) (compNone compDict : Compressor) : exec (Z * Z) :=
  match samples with
  | [] => Done (-1, cumulativeSavings)
  | sample :: rest =>
      ' (cumulativeSavings', compNone', compDict') <-
          calculateBreakeven_body cumulativeSavings compNone compDict sample ;;
      if cumulativeSavings' >=? dictCost
      then Done (GoInt.add i 1, cumulativeSavings')
      else calculateBreakeven_loop dictCost rest (GoInt.add i 1) cumulativeSavings'
                                   compNone' compDict'
  end.

Definition calculateBreakeven (dict : bytes) (samples : list bytes)
           (compNone compDict : Compressor) : exec Z :=
  let dictCost := GoInt.len dict in
  ' (r, _) <- calculateBreakeven_loop dictCost samples 0 0 compNone compDict ;;
  Done r.

(** *** The scenarios file: [analyzeScenario] and [calculateBreakevenPoint] *)

Record scenario_totals : Type := {
  totalOrig : Z;
  scenario_totalGzip : Z;     (* totalGzip *)
  scenario_totalZstd : Z;     (* totalZstd *)
  totalDict : Z
}.

Definition analyzeScenario_loop_body (t : scenario_totals)
           (compNone compDict : Compressor) (sample : bytes)
  : exec (scenario_totals * Compressor * Compressor) :=
  let totalOrig' := GoInt.add (totalOrig t) (GoInt.len sample) in
  let totalGzip' := GoInt.add (scenario_totalGzip t) (GoInt.len (gzip_compress sample)) in
  ' (compressed, compNone') <- Compress_ compNone sample ;;
  let totalZstd' := GoInt.add (scenario_totalZstd t) (GoInt.len compressed) in
  ' (compressedDict, compDict') <- Compress_ compDict sample ;;
  let totalDict' := GoInt.add (totalDict t) (GoInt.len compressedDict) in
  Done ({| totalOrig := totalOrig';
           scenario_totalGzip := totalGzip';
           scenario_totalZstd := totalZstd';
           totalDict := totalDict' |}, compNone', compDict').

Fixpoint analyzeScenario_loop (samples : list bytes) (t : scenario_totals)
         (compNone compDict : Compressor)
  : exec (scenario_totals * Compressor * Compressor) :=
  match samples with
  | [] => Done (t, compNone, compDict)
  | sample :: rest =>
      ' (t', compNone', compDict') <-
          analyzeScenario_loop_body t compNone compDict sample ;;
      analyzeScenario_loop rest t' compNone' compDict'
  end.

Fixpoint calculateBreakevenPoint_loop (dictCost : Z) (samples : list bytes)
         (i savings : Z) (compNone compDict : Compressor) : exec (Z * Z) :=
  match samples with
  | [] => Done (-1, savings)
  | sample :: rest =>
      ' (plain, compNone') <- Compress_ compNone sample ;;
      ' (withDict, compDict') <- Compress_ compDict sample ;;
      let savings' :=
        GoInt.add savings (GoInt.sub (GoInt.len plain) (GoInt.len withDict)) in
      if savings' >=? dictCost
      then Done (GoInt.add i 1, savings')
      else calculateBreakevenPoint_loop dictCost rest (GoInt.add i 1) savings'
                                        compNone' compDict'
  end.

Definition calculateBreakevenPoint (samples : list bytes) (dict : bytes)
           (compNone compDict : Compressor) : exec Z :=
  let dictCost := GoInt.len dict in
  ' (r, _) <- calculateBreakevenPoint_loop dictCost samples 0 0 compNone compDict ;;
  Done r.

(** *** What the analysis is meant to compute *)

(** Sizes of the frames a pair of engines gives a message. *)
Definition plainSize (eNone : Encoder) (msg : bytes) : Z :=
  GoInt.len (EncodeAll eNone msg []).

Definition dictSize (eDict : Encoder) (msg : bytes) : Z :=
  GoInt.len (EncodeAll eDict msg []).

(** Signed savings of one message. *)
Definition savings_of (eNone eDict : Encoder) (msg : bytes) : Z :=
  plainSize eNone msg - dictSize eDict msg.

(** [cumulativeSavings k]: the sum over the first [k] messages. *)
Fixpoint sumZ (l : list Z) : Z :=
  match l with
  | [] => 0
  | x :: rest => x + sumZ rest
  end.

Definition cumulativeSavings (eNone eDict : Encoder) (msgs : list bytes) (k : nat) : Z :=
  sumZ (map (savings_of eNone eDict) (firstn k msgs)).

(** The messages are few and small enough for [int]: the number of
    messages and the total of all frame sizes stay below 2^63. *)
Definition frames_size (eNone eDict : Encoder) (msg : bytes) : Z :=
  plainSize eNone msg + dictSize eDict msg.

Definition fits_int (eNone eDict : Encoder) (msgs : list bytes) : Prop :=
  GoInt.len msgs <= GoInt.max_int /\
  sumZ (map (frames_size eNone eDict) msgs) <= GoInt.max_int.

(** Adding the sizes of one more message overflows none of the totals. *)
Definition totals_fit (eNone eDict : Encoder) (t : totals) (sample : bytes) : Prop :=
  GoInt.in_range (totalUncompressed t + GoInt.len sample) /\
  GoInt.in_range (totalGzip t + GoInt.len (gzip_compress sample)) /\
  GoInt.in_range (totalZstd t + plainSize eNone sample) /\
  GoInt.in_range (totalZstdDict t + dictSize eDict sample).

Definition scenario_totals_fit (eNone eDict : Encoder) (t : scenario_totals)
           (sample : bytes) : Prop :=
  GoInt.in_range (totalOrig t + GoInt.len sample) /\
  GoInt.in_range (scenario_totalGzip t + GoInt.len (gzip_compress sample)) /\
  GoInt.in_range (scenario_totalZstd t + plainSize eNone sample) /\
  GoInt.in_range (totalDict t + dictSize eDict sample).

End Analyzer.
End analyze.

(** ** A reference engine

    An implementation of [ZstdEngine] small enough to run inside the
    logic: frames are stored, and a dictionary-bound encoder replaces
    leading repetitions of the dictionary content by a count.  It shows
    that the engine contract used below can be met, and gives the
    analysis concrete sizes to work on. *)

Module StoredEngine.
Import Byte.

Definition frame_magic : bytes := [x28; xb5; x2f; xfd].
Definition dict_magic : bytes := [x37; xa4; x30; xec].

Definition ErrMagicMismatch : error := pkg_error 1.
Definition ErrUnknownDictionary : error := pkg_error 2.
Definition ErrUnexpectedEOF : error := pkg_error 3.
Definition ErrBadConcurrency : error := pkg_error 4.

(** A dictionary is the magic, a non-zero identifier and the content. *)
Definition parse_dict (d : bytes) : option (byte * bytes) :=
  match d with
  | x37 :: xa4 :: x30 :: xec :: id :: content =>
      if Byte.eqb id x00 then None else Some (id, content)
  | _ => None
  end.

Record encoder : Type := {
  enc_dict : option (byte * bytes);
  enc_concurrency : option Z
}.

Record decoder : Type := {
  dec_dict : option (byte * bytes);
  dec_pending : bytes          (* decoded output not yet read *)
}.

Fixpoint apply_eoptions (opts : list EOption) (e : encoder) : encoder + error :=
  match opts with
  | [] => inl e
  | WithEncoderDict d :: rest =>
      match parse_dict d with
      | None => inr ErrMagicMismatch
      | Some pd =>
          apply_eoptions rest {| enc_dict := Some pd; enc_concurrency := enc_concurrency e |}
      end
  | WithEncoderConcurrency n :: rest =>
      if n <? 1 then inr ErrBadConcurrency
      else apply_eoptions rest {| enc_dict := enc_dict e; enc_concurrency := Some n |}
  end.

Fixpoint apply_doptions (opts : list DOption) (d : decoder) : decoder + error :=
  match opts with
  | [] => inl d
  | WithDecoderDicts b :: rest =>
      match parse_dict b with
      | None => inr ErrMagicMismatch
      | Some pd => apply_doptions rest {| dec_dict := Some pd; dec_pending := dec_pending d |}
      end
  end.

Fixpoint is_prefix (a b : bytes) : bool :=
  match a, b with
  | [], _ => true
  | x :: a', y :: b' => Byte.eqb x y && is_prefix a' b'
  | _ :: _, [] => false
  end.

(** How often [content] leads [data] (at most [fuel] times), and the rest. *)
Fixpoint strip_repetitions (fuel : nat) (content data : bytes) : nat * bytes :=
  match fuel with
  | O => (O, data)
  | S fuel' =>
      if is_prefix content data
      then let '(n, rest) := strip_repetitions fuel' content (skipn (List.length content) data) in
           (S n, rest)
      else (O, data)
  end.

Fixpoint repeat_content (n : nat) (content : bytes) : bytes :=
  match n with
  | O => []
  | S n' => content ++ repeat_content n' content
  end.

Definition byte_of_nat (n : nat) : byte :=
  match Byte.of_nat n with
  | Some b => b
  | None => x00
  end.

Definition encode_frame (e : encoder) (data : bytes) : bytes :=
  frame_magic ++
  match enc_dict e with
  | None => x00 :: data
  | Some (id, content) =>
      let '(n, rest) := strip_repetitions 255 content data in
      id :: byte_of_nat n :: rest
  end.

Definition decode_frame (dict : option (byte * bytes)) (frame : bytes) : bytes + error :=
  match frame with
  | x28 :: xb5 :: x2f :: xfd :: id :: body =>
      if Byte.eqb id x00 then inl body
      else
        match dict with
        | None => inr ErrUnknownDictionary
        | Some (id', content) =>
            if Byte.eqb id id'
            then match body with
                 | n :: rest => inl (repeat_content (Byte.to_nat n) content ++ rest)
                 | [] => inr ErrUnexpectedEOF
                 end
            else inr ErrUnknownDictionary
        end
  | _ => inr ErrMagicMismatch
  end.

Definition new_writer (w : option unit) (opts : list EOption) : encoder + error :=
  apply_eoptions opts {| enc_dict := None; enc_concurrency := None |}.

Definition new_reader (r : option bytes) (opts : list DOption) : decoder + error :=
  match apply_doptions opts {| dec_dict := None; dec_pending := [] |} with
  | inr err => inr err
  | inl d =>
      match r with
      | None => inl d
      | Some stream =>
          match decode_frame (dec_dict d) stream with
          | inr err => inr err
          | inl out => inl {| dec_dict := dec_dict d; dec_pending := out |}
          end
      end
  end.

Definition encode_all (e : encoder) (data dst : bytes) : bytes :=
  dst ++ encode_frame e data.

Definition decode_all (d : decoder) (frame dst : bytes) : bytes * option error :=
  match decode_frame (dec_dict d) frame with
  | inl out => (dst ++ out, None)
  | inr err => (dst, Some err)
  end.

Definition decoder_reset (d : decoder) (stream : bytes) : decoder * option error :=
  match decode_frame (dec_dict d) stream with
  | inl out => ({| dec_dict := dec_dict d; dec_pending := out |}, None)
  | inr err => ({| dec_dict := dec_dict d; dec_pending := [] |}, Some err)
  end.

Definition decoder_read (d : decoder) (p : bytes) : decoder * bytes * Z * option error :=
  match dec_pending d with
  | [] => (d, p, 0, Some io_EOF)
  | _ :: _ =>
      let n := Nat.min (List.length p) (List.length (dec_pending d)) in
      ({| dec_dict := dec_dict d; dec_pending := skipn n (dec_pending d) |},
       firstn n (dec_pending d) ++ skipn n p, Z.of_nat n, None)
  end.

Definition engine : ZstdEngine :=
  {| Encoder := encoder;
     Decoder := decoder;
     Writer := unit;
     Reader := bytes;
     zstd_NewWriter := new_writer;
     zstd_NewReader := new_reader;
     EncodeAll := encode_all;
     DecodeAll := decode_all;
     Encoder_Reset := fun e _ => e;
     Encoder_Write := fun e p => (e, GoInt.len p, None);
     Encoder_Close := fun e => (e, None);
     Decoder_Reset := decoder_reset;
     Decoder_Read := decoder_read |}.

(** A stand-in for gzip: ten header bytes, the data, eight trailer bytes. *)
Definition stored_gzip (b : bytes) : bytes :=
  repeat x1f 10 ++ b ++ repeat x00 8.

(** A trainer that accepts every non-empty corpus: the dictionary is the
    first sample under the dictionary header, cut to the maximum size. *)
Definition first_sample_trainer (samples : list bytes) (o : train.dict_Options)
  : bytes * option error :=
  (firstn (Z.to_nat (train.dict_MaxDictSize o))
          (dict_magic ++ x01 :: hd [] samples), None).

(** Concrete data: a dictionary of 9 bytes with content "list", a message
    the dictionary does not help and one it helps much. *)
Definition dictA : bytes := dict_magic ++ [x01; x6c; x69; x73; x74].
Definition dictB : bytes := dict_magic ++ [x02; x66; x69; x6c; x65].
Definition M1 : bytes := [x7a; x7a].
Definition M2 : bytes := [x6c; x69; x73; x74; x6c; x69; x73; x74; x6c; x69; x73; x74].

(** Codecs as [New] leaves them, the engines the package builds for them,
    and a dictionary codec whose pool already holds its encoder. *)
Definition compNone : @zstddict.Compressor engine :=
  @zstddict.Build_Compressor engine None [] [].
Definition compDict : @zstddict.Compressor engine :=
  @zstddict.Build_Compressor engine (Some dictA) [] [].
Definition eNone : encoder := {| enc_dict := None; enc_concurrency := None |}.
Definition eDict : encoder :=
  {| enc_dict := Some (x01, [x6c; x69; x73; x74]); enc_concurrency := None |}.
Definition dDict : decoder :=
  {| dec_dict := Some (x01, [x6c; x69; x73; x74]); dec_pending := [] |}.

End StoredEngine.

(** ** Package zstddict: the streaming constructors *)

Module zstddict_stream.
Section Stream.
Context `{ZstdEngine}.

(** [Compressor.Writer]: a streaming encoder on [w], built directly, the
    pools left aside. *)
Definition Compressor_Writer (c : zstddict.Compressor) (w : Writer) : Encoder + error :=
  match zstddict.dict c with
  | Some d => zstd_NewWriter (Some w) [WithEncoderDict d]
  | None => zstd_NewWriter (Some w) []
  end.

(** [Compressor.Reader] *)
Definition Compressor_Reader (c : zstddict.Compressor) (r : Reader) : Decoder + error :=
  match zstddict.dict c with
  | Some d => zstd_NewReader (Some r) [WithDecoderDicts d]
  | None => zstd_NewReader (Some r) []
  end.

End Stream.
End zstddict_stream.

(** ** Package grpccodec: registration *)

Module grpccodec_registry.
Section Registry.
Context `{ZstdEngine}.

(** The registry of google.golang.org/grpc/encoding: a map from compressor
    names; [RegisterCompressor] stores a compressor under its [Name], the
    last registration under a name stands. *)
Definition registry : Type := string -> option grpccodec.Zstd.

Definition encoding_RegisterCompressor (c : grpccodec.Zstd) (reg : registry) : registry :=
  fun n => if String.eqb n (grpccodec.Name c) then Some c else reg n.

Definition encoding_GetCompressor (reg : registry) (n : string) : option grpccodec.Zstd :=
  reg n.

(** The package's [init]. *)
Definition init (reg : registry) : registry :=
  encoding_RegisterCompressor grpccodec.NewZstd reg.

Definition Register (dict : option bytes) (reg : registry) : registry :=
  let reg := encoding_RegisterCompressor grpccodec.NewZstd reg in
  match dict with
  | Some _ => encoding_RegisterCompressor (grpccodec.NewZstdDict dict) reg
  | None => reg
  end.

(** Every compressor is stored under its own name. *)
Definition well_named (reg : registry) : Prop :=
  forall n c, encoding_GetCompressor reg n = Some c -> grpccodec.Name c = n.

End Registry.
End grpccodec_registry.

(** ** Package zstddict, train.go: the sample sources *)

Module train_sources.
Section Sources.
Variable BuildZstdDict : list bytes -> train.dict_Options -> bytes * option error.

(** [TrainDictFromReader].  [sampleFn] is a closure that is called again
    and again; [sampleFn k] is what its call number [k] (from 0) answers.
    The loop runs until an answer has [ok = false]; [fuel] bounds the
    number of calls, and [None] says the loop is still running. *)
Fixpoint TrainDictFromReader_loop (sampleFn : nat -> bytes * bool) (fuel call : nat)
         (samples : list bytes) : option (list bytes) :=
  match fuel with
  | O => None
  | S fuel' =>
      let '(sample, ok) := sampleFn call in
      if negb ok then Some samples
      else TrainDictFromReader_loop sampleFn fuel' (S call) (samples ++ [sample])
  end.

Definition TrainDictFromReader (sampleFn : nat -> bytes * bool)
           (opts : option train.TrainDictOptions) (fuel : nat)
  : option (bytes * option error) :=
  match TrainDictFromReader_loop sampleFn fuel 0 [] with
  | None => None
  | Some samples => Some (train.TrainDict BuildZstdDict samples opts)
  end.

(** [TrainDictFromFiles].  The callback never asks [filepath.WalkDir] to
    skip anything (the errors it passes on come from the file system and
    are none of WalkDir's skip sentinels), so the walk is the sequence of
    calls WalkDir makes for the directory, cut at the first call the
    callback answers with an error. *)
Inductive visit : Type :=
| visit_error (path : string) (err : error)        (* fn(path, d, err), err != nil *)
| visit_entry (path : string) (IsDir : bool).      (* fn(path, d, nil) *)

Variable WalkDir_visits : string -> list visit.
Variable os_ReadFile : string -> bytes + error.

Fixpoint TrainDictFromFiles_walk (visits : list visit) (samples : list bytes)
  : list bytes * option error :=
  match visits with
  | [] => (samples, None)
  | visit_error _ err :: _ => (samples, Some err)
  | visit_entry _ true :: rest => TrainDictFromFiles_walk rest samples
  | visit_entry path false :: rest =>
      match os_ReadFile path with
      | inr err => (samples, Some err)
      | inl data => TrainDictFromFiles_walk rest (samples ++ [data])
      end
  end.

Definition TrainDictFromFiles (dir : string) (opts : option train.TrainDictOptions)
  : bytes * option error :=
  let '(samples, err) := TrainDictFromFiles_walk (WalkDir_visits dir) [] in
  match err with
  | Some e => ([], Some e)
  | None => train.TrainDict BuildZstdDict samples opts
  end.

(** What a visit contributes: the error that stops the walk, or the
    sample it adds. *)
Definition visit_failure (v : visit) : option error :=
  match v with
  | visit_error _ err => Some err
  | visit_entry _ true => None
  | visit_entry path false =>
      match os_ReadFile path with
      | inr err => Some err
      | inl _ => None
      end
  end.

Definition visit_sample (v : visit) : list bytes :=
  match v with
  | visit_entry path false =>
      match os_ReadFile path with
      | inl data => [data]
      | inr _ => []
      end
  | _ => []
  end.

End Sources.
End train_sources.

(** ** cmd/analyze: the size distribution *)

Module distribution.
Section Distribution.
Context `{ZstdEngine}.

Record bucket : Type := {
  minSize : Z;
  maxSize : Z;
  count : Z;
  totalOrig : Z;
  totalZstd : Z;
  totalDict : Z
}.

Definition buckets : list bucket :=
  [ {| minSize := 0; maxSize := 1000;
       count := 0; totalOrig := 0; totalZstd := 0; totalDict := 0 |};
    {| minSize := 1000; maxSize := 5000;
       count := 0; totalOrig := 0; totalZstd := 0; totalDict := 0 |};
    {| minSize := 5000; maxSize := 10000;
       count := 0; totalOrig := 0; totalZstd := 0; totalDict := 0 |};
    {| minSize := 10000; maxSize := 50000;
       count := 0; totalOrig := 0; totalZstd := 0; totalDict := 0 |};
    {| minSize := 50000; maxSize := 1000000;
       count := 0; totalOrig := 0; totalZstd := 0; totalDict := 0 |} ].

(** [size >= buckets[i].minSize && size < buckets[i].maxSize] *)
Definition in_bucket (b : bucket) (size : Z) : bool :=
  (size >=? minSize b) && (size <? maxSize b).

Definition update (b : bucket) (size plainLen dictLen : Z) : bucket :=
  {| minSize := minSize b;
     maxSize := maxSize b;
     count := GoInt.add (count b) 1;
     totalOrig := GoInt.add (totalOrig b) size;
     totalZstd := GoInt.add (totalZstd b) plainLen;
     totalDict := GoInt.add (totalDict b) dictLen |}.

(** The inner loop: the first bucket whose range holds [size] is updated,
    then [break]. *)
Fixpoint add_sample (bs : list bucket) (size plainLen dictLen : Z) : list bucket :=
  match bs with
  | [] => []
  | b :: rest =>
      if in_bucket b size
      then update b size plainLen dictLen :: rest
      else b :: add_sample rest size plainLen dictLen
  end.

Fixpoint showSizeDistribution_loop (samples : list bytes) (bs : list bucket)
         (compNone compDict : zstddict.Compressor)
  : exec (list bucket * zstddict.Compressor * zstddict.Compressor) :=
  match samples with
  | [] => Done (bs, compNone, compDict)
  | sample :: rest =>
      let size := GoInt.len sample in
      ' (plain, compNone') <- analyze.Compress_ compNone sample ;;
      ' (withDict, compDict') <- analyze.Compress_ compDict sample ;;
      showSizeDistribution_loop rest
        (add_sample bs size (GoInt.len plain) (GoInt.len withDict))
        compNone' compDict'
  end.

(** [showSizeDistribution]: the buckets after the loop, and the rows that
    are printed (a bucket with [count == 0] is passed over). *)
Definition showSizeDistribution (samples : list bytes)
           (compNone compDict : zstddict.Compressor)
  : exec (list bucket * list bucket) :=
  ' (bs, _, _) <- showSizeDistribution_loop samples buckets compNone compDict ;;
  Done (bs, filter (fun b => negb (count b =? 0)) bs).

(** The messages a bucket is meant to count. *)
Definition members (b : bucket) (samples : list bytes) : list bytes :=
  filter (fun s => in_bucket b (GoInt.len s)) samples.

(** What one message does to one bucket, and what a run of messages does. *)
Definition bump (eNone eDict : Encoder) (sample : bytes) (b : bucket) : bucket :=
  if in_bucket b (GoInt.len sample)
  then update b (GoInt.len sample) (analyze.plainSize eNone sample)
              (analyze.dictSize eDict sample)
  else b.

Definition tally (eNone eDict : Encoder) (samples : list bytes) (b : bucket) : bucket :=
  fold_left (fun b s => bump eNone eDict s b) samples b.

(** Each bucket ends where, or before, the later ones begin. *)
Fixpoint ordered (bs : list bucket) : Prop :=
  match bs with
  | [] => True
  | b :: rest => Forall (fun b' => maxSize b <= minSize b') rest /\ ordered rest
  end.

(** The counters of a bucket have room for the messages still to come. *)
Definition has_room (eNone eDict : Encoder) (samples : list bytes) (b : bucket) : Prop :=
  0 <= count b /\ count b + GoInt.len samples <= GoInt.max_int /\
  0 <= totalOrig b /\
  totalOrig b + analyze.sumZ (map (@GoInt.len _) samples) <= GoInt.max_int /\
  0 <= totalZstd b /\
  totalZstd b + analyze.sumZ (map (analyze.plainSize eNone) samples) <= GoInt.max_int /\
  0 <= totalDict b /\
  totalDict b + analyze.sumZ (map (analyze.dictSize eDict) samples) <= GoInt.max_int.

End Distribution.
End distribution.

(** ** More of Go's integers and slices *)

Module GoArith.

(** [a * b] *)
Definition mul (a b : Z) : Z := GoInt.wrap (a * b).

(** [a / b]: the quotient truncated toward zero; a zero divisor panics. *)
Definition div (a b : Z) : exec Z :=
  if b =? 0 then Panic "runtime error: integer divide by zero"
  else Done (GoInt.wrap (Z.quot a b)).

(** A slice of byte slices: the elements up to [len] and the capacity of
    the array behind them.  The slices met here are grown by [append]
    only, so the array holds nil entries beyond [len]. *)
Record slice : Type := {
  elems : list bytes;
  capacity : Z
}.

(** [s[:high]]: allowed up to the capacity. *)
Definition slice_to (s : slice) (high : Z) : exec slice :=
  if (high <? 0) || (high >? capacity s)
  then Panic "runtime error: slice bounds out of range"
  else Done {| elems := firstn (Z.to_nat high)
                          (elems s ++
                           repeat [] (Z.to_nat (capacity s - GoInt.len (elems s))));
               capacity := capacity s |}.

(** [s[low:]]: the upper bound is [len(s)]. *)
Definition slice_from (s : slice) (low : Z) : exec slice :=
  if (low <? 0) || (low >? GoInt.len (elems s))
  then Panic "runtime error: slice bounds out of range"
  else Done {| elems := skipn (Z.to_nat low) (elems s);
               capacity := capacity s - low |}.

End GoArith.

(** ** cmd/analyze: the reports of [analyzeScenario] and [main] *)

Module report.
Section Report.
Context `{ZstdEngine}.
Variable gzip_compress : bytes -> bytes.
Variable BuildZstdDict : list bytes -> train.dict_Options -> bytes * option error.

(** How a run of a command ends. *)
Inductive process (A : Type) : Type :=
| Finished (a : A)
| Exited (code : Z)                 (* os.Exit(code) *)
| Panicked (msg : string).
Arguments Finished {A} a.
Arguments Exited {A} code.
Arguments Panicked {A} msg.

Definition run {A B : Type} (m : exec A) (k : A -> process B) : process B :=
  match m with
  | Done a => k a
  | Panic msg => Panicked msg
  end.

(** *** [analyzeScenario] *)

(** One line of the projection table: the volume printed, the factor,
    [projected] and [withDictCost]. *)
Record projection : Type := {
  vol : Z;
  factor : Z;
  projected : Z;
  withDictCost : Z
}.

(** The body of the loop over [volumes]. *)
Definition project (n totalZstd totalDict dictLen vol0 : Z) : exec projection :=
  let vol := if vol0 >? GoArith.mul n 10 then n else vol0 in
  ' factor0 <- GoArith.div vol n ;;
  let factor := if factor0 =? 0 then 1 else factor0 in
  let projected := GoArith.mul (GoInt.sub totalZstd totalDict) factor in
  let withDictCost := GoInt.sub projected dictLen in
  Done {| vol := vol; factor := factor; projected := projected;
          withDictCost := withDictCost |}.

Fixpoint project_all (n totalZstd totalDict dictLen : Z) (volumes : list Z)
  : exec (list projection) :=
  match volumes with
  | [] => Done []
  | v :: rest =>
      ' p <- project n totalZstd totalDict dictLen v ;;
      ' ps <- project_all n totalZstd totalDict dictLen rest ;;
      Done (p :: ps)
  end.

Definition volumes : list Z := [100; 1000; 10000; 100000].

(** The integers [analyzeScenario] prints (the percentages, computed in
    floating point, are left out). *)
Record scenario_report : Type := {
  messages : Z;
  avgSize : Z;
  scenario_sums : analyze.scenario_totals;
  dictCostIncluded : Z;
  betterPerMsg : Z;
  breakeven : Z;
  projections : list projection
}.

Definition analyzeScenario (samples : list bytes) (dict : bytes)
           (compNone compDict : zstddict.Compressor) : exec scenario_report :=
  ' (t, compNone, compDict) <-
      analyze.analyzeScenario_loop gzip_compress samples
        {| analyze.totalOrig := 0; analyze.scenario_totalGzip := 0;
           analyze.scenario_totalZstd := 0; analyze.totalDict := 0 |}
        compNone compDict ;;
  let n := GoInt.len samples in
  ' avgSize <- GoArith.div (analyze.totalOrig t) n ;;
  let dictCostIncluded := GoInt.add (analyze.totalDict t) (GoInt.len dict) in
  ' better <-
      GoArith.div (GoInt.sub (analyze.scenario_totalZstd t) (analyze.totalDict t)) n ;;
  ' breakeven <- analyze.calculateBreakevenPoint samples dict compNone compDict ;;
  ' ps <- project_all n (analyze.scenario_totalZstd t) (analyze.totalDict t)
                      (GoInt.len dict) volumes ;;
  Done {| messages := n; avgSize := avgSize; scenario_sums := t;
          dictCostIncluded := dictCostIncluded; betterPerMsg := better;
          breakeven := breakeven; projections := ps |}.

(** *** [main], from the samples on *)

(** The dictionary as [WithDictBytes] receives it; an empty result of the
    trainer is taken as nil. *)
Definition as_dict (d : bytes) : option bytes :=
  match d with
  | [] => None
  | _ :: _ => Some d
  end.

Record main_report : Type := {
  trainedOn : list bytes;
  dictionary : bytes;
  testSamples : list bytes;
  sums : analyze.totals;
  average : Z;
  main_breakeven : Z;
  avgSavingsVsGzip : Z;
  rows : list distribution.bucket
}.

Definition main_analysis (os_ReadFile : string -> bytes + error)
           (samples : GoArith.slice) (err : option error) (numRequests : Z)
  : process main_report :=
  match err with
  | Some _ => Exited 1
  | None =>
      if GoInt.len (GoArith.elems samples) <? 100 then Exited 1
      else
        run (GoArith.slice_to samples 200) (fun training =>
        match train.TrainDict BuildZstdDict (GoArith.elems training)
                (Some {| train.MaxDictSize := 16 * 1024; train.ID := 0;
                         train.Level := 0 |}) with
        | (_, Some _) => Exited 1
        | (dict, None) =>
            match zstddict.New os_ReadFile [],
                  zstddict.New os_ReadFile [zstddict.WithDictBytes (as_dict dict)] with
            | inl compNone, inl compDict =>
                run (GoArith.slice_from samples 200) (fun test =>
                run (if GoInt.len (GoArith.elems test) >? numRequests
                     then GoArith.slice_to test numRequests
                     else Done test) (fun test =>
                let testSamples := GoArith.elems test in
                run (analyze.main_loop gzip_compress testSamples
                       {| analyze.totalUncompressed := 0; analyze.totalGzip := 0;
                          analyze.totalZstd := 0; analyze.totalZstdDict := 0 |}
                       compNone compDict) (fun '(t, compNone, compDict) =>
                let n := GoInt.len testSamples in
                run (GoArith.div (analyze.totalUncompressed t) n) (fun average =>
                run (analyze.calculateBreakeven dict testSamples compNone compDict)
                    (fun breakeven =>
                run (GoArith.div
                       (GoInt.sub (analyze.totalGzip t) (analyze.totalZstdDict t)) n)
                    (fun avgSavings =>
                run (GoArith.div (analyze.totalGzip t) n) (fun _ =>
                run (distribution.showSizeDistribution testSamples compNone compDict)
                    (fun '(_, rows) =>
                Finished {| trainedOn := GoArith.elems training;
                            dictionary := dict;
                            testSamples := testSamples;
                            sums := t;
                            average := average;
                            main_breakeven := breakeven;
                            avgSavingsVsGzip := avgSavings;
                            rows := rows |}))))))))
            | _, _ => Panicked "nil Compressor"
            end
        end)
  end.

End Report.
End report.

(** ** Package server: the sample generators *)

Module server.
Section Samples.

(** [pb.FileInfo] and [pb.ListFilesResponse], with the fields the sources
    set. *)
Record FileInfo : Type := {
  Path : string;
  Name : string;
  Size : Z;
  Mode : Z;
  ModTime : Z;
  IsDir : bool
}.

Record ListFilesResponse : Type := {
  Root : string;
  Files : list FileInfo;
  TotalCount : Z
}.

(** [fs.DirEntry] as the callbacks use it: [Name()], [IsDir()] and
    [Info()], which gives size, mode and modification time or fails. *)
Record os_FileInfo : Type := {
  info_Size : Z;
  info_Mode : Z;
  info_ModTime_Unix : Z
}.

Record DirEntry : Type := {
  d_Name : string;
  d_IsDir : bool;
  d_Info : os_FileInfo + error
}.

(** The calls [filepath.WalkDir] makes for a directory while the callback
    answers nil: [fn(path, d, err)] with an error, or with an entry. *)
Inductive visit : Type :=
| visit_error (path : string) (err : error)
| visit_entry (path : string) (d : DirEntry).

(** What a callback answers: nil, or [fs.SkipAll]. *)
Inductive answer : Type :=
| Continue
| SkipAll.

Variable filepath_Abs : string -> string + error.
Variable filepath_Rel : string -> string -> string + error.
Variable WalkDir_visits : string -> list visit.
Variable proto_Marshal_FileInfo : FileInfo -> bytes + error.
Variable proto_Marshal_Response : ListFilesResponse -> bytes + error.

Definition marshalFileInfo (fi : FileInfo) : bytes + error := proto_Marshal_FileInfo fi.

Definition file_info (relPath : string) (d : DirEntry) (info : os_FileInfo) : FileInfo :=
  {| Path := relPath;
     Name := d_Name d;
     Size := info_Size info;
     Mode := info_Mode info;
     ModTime := info_ModTime_Unix info;
     IsDir := d_IsDir d |}.

(** *** [GenerateSamples] *)

(** The callback. *)
Definition GenerateSamples_fn (absDir : string) (maxSamples : Z) (v : visit)
           (samples : list bytes) : answer * list bytes :=
  match v with
  | visit_error _ _ => (Continue, samples)
  | visit_entry path d =>
      if GoInt.len samples >=? maxSamples then (SkipAll, samples)
      else
        match filepath_Rel absDir path with
        | inr _ => (Continue, samples)
        | inl relPath =>
            if String.eqb relPath "." then (Continue, samples)
            else
              match d_Info d with
              | inr _ => (Continue, samples)
              | inl info =>
                  match marshalFileInfo (file_info relPath d info) with
                  | inr _ => (Continue, samples)
                  | inl data => (Continue, samples ++ [data])
                  end
              end
        end
  end.

(** [filepath.WalkDir] with this callback: the visits in order, up to the
    first [SkipAll]. *)
Fixpoint GenerateSamples_walk (absDir : string) (maxSamples : Z) (visits : list visit)
         (samples : list bytes) : list bytes :=
  match visits with
  | [] => samples
  | v :: rest =>
      match GenerateSamples_fn absDir maxSamples v samples with
      | (SkipAll, samples') => samples'
      | (Continue, samples') => GenerateSamples_walk absDir maxSamples rest samples'
      end
  end.

Fixpoint GenerateSamples_dirs (dirs : list string) (maxSamples : Z) (samples : list bytes)
  : list bytes :=
  match dirs with
  | [] => samples
  | dir :: rest =>
      match filepath_Abs dir with
      | inr _ => GenerateSamples_dirs rest maxSamples samples
      | inl absDir =>
          GenerateSamples_dirs rest maxSamples
            (GenerateSamples_walk absDir maxSamples (WalkDir_visits absDir) samples)
      end
  end.

Definition GenerateSamples (dirs : list string) (maxSamples : Z)
  : list bytes * option error :=
  (GenerateSamples_dirs dirs maxSamples [], None).

(** *** [GenerateResponseSamples] *)

Definition response (absDir : string) (files : list FileInfo) : ListFilesResponse :=
  {| Root := absDir; Files := files; TotalCount := GoInt.len files |}.

(** The callback; its state is [files] and [samples]. *)
Definition GenerateResponseSamples_fn (absDir : string) (filesPerSample maxSamples : Z)
           (v : visit) (files : list FileInfo) (samples : list bytes)
  : answer * list FileInfo * list bytes :=
  match v with
  | visit_error _ _ => (Continue, files, samples)
  | visit_entry path d =>
      match filepath_Rel absDir path with
      | inr _ => (Continue, files, samples)
      | inl relPath =>
          if String.eqb relPath "." then (Continue, files, samples)
          else
            match d_Info d with
            | inr _ => (Continue, files, samples)
            | inl info =>
                let files := files ++ [file_info relPath d info] in
                let '(files, samples) :=
                  if GoInt.len files >=? filesPerSample
                  then
                    match proto_Marshal_Response (response absDir files) with
                    | inl data => ([], samples ++ [data])
                    | inr _ => ([], samples)
                    end
                  else (files, samples) in
                if GoInt.len samples >=? maxSamples
                then (SkipAll, files, samples)
                else (Continue, files, samples)
            end
      end
  end.

Fixpoint GenerateResponseSamples_walk (absDir : string) (filesPerSample maxSamples : Z)
         (visits : list visit) (files : list FileInfo) (samples : list bytes)
  : list FileInfo * list bytes :=
  match visits with
  | [] => (files, samples)
  | v :: rest =>
      match GenerateResponseSamples_fn absDir filesPerSample maxSamples v files samples with
      | (SkipAll, files', samples') => (files', samples')
      | (Continue, files', samples') =>
          GenerateResponseSamples_walk absDir filesPerSample maxSamples rest files' samples'
      end
  end.

Fixpoint GenerateResponseSamples_dirs (dirs : list string) (filesPerSample maxSamples : Z)
         (samples : list bytes) : list bytes :=
  match dirs with
  | [] => samples
  | dir :: rest =>
      if GoInt.len samples >=? maxSamples then samples
      else
        match filepath_Abs dir with
        | inr _ => GenerateResponseSamples_dirs rest filesPerSample maxSamples samples
        | inl absDir =>
            let '(files, samples) :=
              GenerateResponseSamples_walk absDir filesPerSample maxSamples
                (WalkDir_visits absDir) [] samples in
            let samples :=
              if (GoInt.len files >? 0) && (GoInt.len samples <? maxSamples)
              then
                match proto_Marshal_Response (response absDir files) with
                | inl data => samples ++ [data]
                | inr _ => samples
                end
              else samples in
            GenerateResponseSamples_dirs rest filesPerSample maxSamples samples
        end
  end.

Definition GenerateResponseSamples (dirs : list string) (filesPerSample maxSamples : Z)
  : list bytes * option error :=
  (GenerateResponseSamples_dirs dirs filesPerSample maxSamples [], None).

(** A sample that is the wire form of a response holding between one and
    [max(1, filesPerSample)] files, with [TotalCount] their number. *)
Definition response_sample (filesPerSample : Z) (sample : bytes) : Prop :=
  exists absDir files,
    proto_Marshal_Response (response absDir files) = inl sample /\
    1 <= GoInt.len files <= Z.max 1 filesPerSample /\
    TotalCount (response absDir files) = GoInt.len files.

End Samples.
End server.

(** ** server: [TrainFromDirectory] and [ListFiles] *)

Module server_training.
Section Training.
Variable os_Stat : string -> bool + error.      (* [info.IsDir()], or the error *)
Variable filepath_Abs : string -> string + error.
Variable filepath_Rel : string -> string -> string + error.
Variable WalkDir_visits : string -> list server.visit.
Variable proto_Marshal_Response : server.ListFilesResponse -> bytes + error.

(** [os.ErrInvalid] *)
Definition os_ErrInvalid : error := errors_New "invalid argument".

Definition TrainFromDirectory (root : string) : list bytes * option error :=
  match os_Stat root with
  | inr err => ([], Some err)
  | inl false => ([], Some os_ErrInvalid)
  | inl true =>
      server.GenerateResponseSamples filepath_Abs filepath_Rel WalkDir_visits
        proto_Marshal_Response [root] 50 200
  end.

End Training.
End server_training.

Module listing.
Section ListFiles.

Record ListFilesRequest : Type := {
  req_Path : string;
  req_MaxDepth : Z
}.

(** A call [fn(path, d, err)] of the callback by [filepath.WalkDir]: with
    an error ([d] may then be nil), or with an entry. *)
Inductive call : Type :=
| call_error (path : string) (d : option server.DirEntry) (err : error)
| call_entry (path : string) (d : server.DirEntry).

(** What the callback answers: nil, [fs.SkipDir], or an error. *)
Inductive reply : Type :=
| reply_nil
| reply_SkipDir
| reply_error (err : error).

(** What the closure has seen and collected: the number of calls so far
    and [files]. *)
Definition walk_state : Type := (nat * list server.FileInfo)%type.

Variable filepath_Abs : string -> string + error.
Variable filepath_Rel : string -> string -> string + error.
Variable filepath_SplitList : string -> list string.
Variable os_IsPermission : error -> bool.
Variable filepath_WalkDir :
  string -> (call -> walk_state -> reply * walk_state) -> walk_state ->
  walk_state * option error.

(** The callback.  [ctx_Err k] is what [ctx.Err()] gives during call
    number [k]: nil while the context is live. *)
Definition ListFiles_fn (absRoot : string) (maxDepth : Z) (ctx_Err : nat -> option error)
           (c : call) (st : walk_state) : reply * walk_state :=
  let '(k, files) := st in
  match c with
  | call_error _ d err =>
      if os_IsPermission err then
        match d with
        | Some d => if server.d_IsDir d then (reply_SkipDir, (S k, files))
                    else (reply_nil, (S k, files))
        | None => (reply_nil, (S k, files))
        end
      else (reply_error err, (S k, files))
  | call_entry path d =>
      match ctx_Err k with
      | Some err => (reply_error err, (S k, files))
      | None =>
          match filepath_Rel absRoot path with
          | inr err => (reply_error err, (S k, files))
          | inl relPath =>
              if String.eqb relPath "." then (reply_nil, (S k, files))
              else if (maxDepth >? 0) &&
                      (GoInt.len (filepath_SplitList relPath) >? maxDepth)
              then (if server.d_IsDir d then reply_SkipDir else reply_nil, (S k, files))
              else
                match server.d_Info d with
                | inr _ => (reply_nil, (S k, files))
                | inl info =>
                    (reply_nil, (S k, files ++ [server.file_info relPath d info]))
                end
          end
      end
  end.

Definition ListFiles (ctx_Err : nat -> option error) (req : ListFilesRequest)
  : option server.ListFilesResponse * option error :=
  let root := if String.eqb (req_Path req) "" then "."%string else req_Path req in
  match filepath_Abs root with
  | inr err => (None, Some err)
  | inl absRoot =>
      let maxDepth := req_MaxDepth req in
      let '(_, files, err) :=
        filepath_WalkDir absRoot (ListFiles_fn absRoot maxDepth ctx_Err) (0%nat, []) in
      match err with
      | Some err => (None, Some err)
      | None => (Some (server.response absRoot files), None)
      end
  end.

End ListFiles.
End listing.

(** ** Concrete surroundings for the reference engine *)

Module StoredWorld.
Import StoredEngine.

(** A file system with one file. *)
Definition read_file (path : string) : bytes + error :=
  if String.eqb path "a.dict" then inl dictA else inr (pkg_error 9).

(** A sample source that gives two samples and then stops. *)
Definition two_samples (call : nat) : bytes * bool :=
  (M2, Nat.ltb call 2).

(** 201 samples in an array of 256: 200 to train on and one to analyse. *)
Definition samples201 : GoArith.slice :=
  {| GoArith.elems := repeat M2 200 ++ [M1]; GoArith.capacity := 256 |}.

(** The dictionary the first-sample trainer makes of them, and the
    encoder the engine builds for it. *)
Definition dictM2 : bytes := dict_magic ++ Byte.x01 :: M2.
Definition eDictM2 : encoder :=
  {| enc_dict := Some (Byte.x01, M2); enc_concurrency := None |}.

(** A streaming decoder that has nothing left to give. *)
Definition drained : decoder := {| dec_dict := None; dec_pending := [] |}.

(** The walk of a directory that holds the one file. *)
Definition walk_one_file (dir : string) : list train_sources.visit :=
  [train_sources.visit_entry dir true; train_sources.visit_entry "a.dict" false].

(** A directory [/srv] that holds [a/b/c.txt] and nothing else, what
    [filepath.Rel] answers on its paths, and [filepath.SplitList] on Unix:
    the pieces between colons, and none for the empty string. *)
Definition a_directory (name : string) : server.DirEntry :=
  {| server.d_Name := name; server.d_IsDir := true;
     server.d_Info := inl {| server.info_Size := 4096; server.info_Mode := 2147484141;
                             server.info_ModTime_Unix := 0 |} |}.

Definition a_file (name : string) : server.DirEntry :=
  {| server.d_Name := name; server.d_IsDir := false;
     server.d_Info := inl {| server.info_Size := 12; server.info_Mode := 420;
                             server.info_ModTime_Unix := 0 |} |}.

Definition srv_calls : list listing.call :=
  [listing.call_entry "/srv" (a_directory "srv");
   listing.call_entry "/srv/a" (a_directory "a");
   listing.call_entry "/srv/a/b" (a_directory "b");
   listing.call_entry "/srv/a/b/c.txt" (a_file "c.txt")].

Definition srv_Abs (path : string) : string + error := inl path.

Definition srv_Rel (base target : string) : string + error :=
  if String.eqb target "/srv" then inl "."%string
  else if String.eqb target "/srv/a" then inl "a"%string
  else if String.eqb target "/srv/a/b" then inl "a/b"%string
  else if String.eqb target "/srv/a/b/c.txt" then inl "a/b/c.txt"%string
  else inr (pkg_error 3).

(* 58 is the colon *)
Fixpoint pieces (s : string) : list string :=
  match s with
  | EmptyString => [EmptyString]
  | String c rest =>
      if Ascii.eqb c (Ascii.ascii_of_nat 58) then EmptyString :: pieces rest
      else match pieces rest with
           | p :: ps => String c p :: ps
           | [] => [String c EmptyString]
           end
  end.

Definition unix_SplitList (path : string) : list string :=
  if String.eqb path "" then [] else pieces path.

(** The walk of [/srv]: every entry lies below the one before it, so an
    answer of [fs.SkipDir] leaves nothing more to visit. *)
Fixpoint walk_calls (calls : list listing.call)
         (fn : listing.call -> listing.walk_state -> listing.reply * listing.walk_state)
         (st : listing.walk_state) : listing.walk_state * option error :=
  match calls with
  | [] => (st, None)
  | c :: rest =>
      match fn c st with
      | (listing.reply_nil, st') => walk_calls rest fn st'
      | (listing.reply_SkipDir, st') => (st', None)
      | (listing.reply_error err, st') => (st', Some err)
      end
  end.

Definition srv_WalkDir (root : string) := walk_calls srv_calls.

(** A file system where only [/srv] is a directory. *)
Definition srv_Stat (path : string) : bool + error :=
  if String.eqb path "/srv" then inl true
  else if String.eqb path "/srv/a/b/c.txt" then inl false
  else inr (pkg_error 2).

(** An empty registry. *)
Definition no_compressors : @grpccodec_registry.registry engine := fun _ => None.

(** What [main] reports on the 201 samples with at most 100 requests. *)
Definition main_run : report.process report.main_report :=
  Eval vm_compute in
    @report.main_analysis engine stored_gzip first_sample_trainer read_file
      samples201 None 100.

End StoredWorld.

(** * Properties *)

(** ** Go integers *)

Lemma wrap_in_range (x : Z) : GoInt.in_range x -> GoInt.wrap x = x.
Proof.
  unfold GoInt.in_range, GoInt.min_int, GoInt.max_int, GoInt.wrap.
  intros Hx.
  rewrite Z.mod_small by lia.
  lia.
Qed.

Lemma len_nonneg {A : Type} (s : list A) : 0 <= GoInt.len s.
Proof. unfold GoInt.len. lia. Qed.

Lemma len_cons {A : Type} (x : A) (s : list A) : GoInt.len (x :: s) = GoInt.len s + 1.
Proof. unfold GoInt.len. cbn [List.length]. lia. Qed.

(** ** The one-shot codec and its pools *)

Section CompressorFacts.
Context `{ZstdEngine}.

Import zstddict.

Lemma New_wf (os_ReadFile : string -> bytes + error) (opts : list Option) (c : Compressor) :
  New os_ReadFile opts = inl c -> wf c.
Proof.
  unfold New. destruct (apply_Options os_ReadFile opts _); intros E; inversion E; subst.
  split; constructor.
Qed.

(** On reachable pools, [Compress] gives the frame of the engine that [New]
    builds for the dictionary, whatever the pool holds. *)
Lemma Compress_wf (c : Compressor) (data : bytes) (e : Encoder) :
  wf c ->
  zstd_NewWriter None (encoder_options (dict c)) = inl e ->
  exists c', Compress c data = Done ((EncodeAll e data [], None), c') /\
             wf c' /\ dict c' = dict c.
Proof.
  intros [Henc Hdec] He.
  unfold Compress, Pool_Get.
  destruct (encoderPool c) as [|v rest] eqn:Hpool.
  - unfold encoderPool_New. rewrite He. cbn.
    eexists; split; [reflexivity|]. split; [|reflexivity].
    split; cbn; [|assumption].
    constructor; [|constructor]. exists e; auto.
  - inversion Henc as [|? ? Hv Hrest]; subst.
    destruct Hv as (e0 & -> & He0).
    assert (e0 = e) by congruence; subst e0. cbn.
    eexists; split; [reflexivity|]. split; [|reflexivity].
    split; cbn; [|assumption].
    constructor; [exists e; auto|assumption].
Qed.

Lemma Decompress_wf (c : Compressor) (data : bytes) (d : Decoder) :
  wf c ->
  zstd_NewReader None (decoder_options (dict c)) = inl d ->
  exists c', Decompress c data = Done (DecodeAll d data [], c') /\
             wf c' /\ dict c' = dict c.
Proof.
  intros [Henc Hdec] Hd.
  unfold Decompress, Pool_Get.
  destruct (decoderPool c) as [|v rest] eqn:Hpool.
  - unfold decoderPool_New. rewrite Hd. cbn.
    eexists; split; [reflexivity|]. split; [|reflexivity].
    split; cbn; [assumption|].
    constructor; [|constructor]. exists d; auto.
  - inversion Hdec as [|? ? Hv Hrest]; subst.
    destruct Hv as (d0 & -> & Hd0).
    assert (d0 = d) by congruence; subst d0. cbn.
    eexists; split; [reflexivity|]. split; [|reflexivity].
    split; cbn; [assumption|].
    constructor; [exists d; auto|assumption].
Qed.

(** C1.  Round trip: for every buffer [b] (the empty one included) and
    every codec, without or with a dictionary, whose engines the external
    package builds and whose pools hold what the codec itself stored,
    [Compress] succeeds and [Decompress] of its output succeeds and
    returns exactly [b].  The engine's own round trip is its contract
    [engine_roundtrip]. *)
Theorem Compress_Decompress_roundtrip
        (c : Compressor) (b : bytes) (e : Encoder) (d : Decoder) :
  engine_roundtrip ->
  wf c ->
  zstd_NewWriter None (encoder_options (dict c)) = inl e ->
  zstd_NewReader None (decoder_options (dict c)) = inl d ->
  exists (z : bytes) (c1 c2 : Compressor),
    Compress c b = Done ((z, None), c1) /\
    Decompress c1 z = Done ((b, None), c2) /\
    wf c2.
Proof.
  intros Hrt Hwf He Hd.
  destruct (Compress_wf c b e Hwf He) as (c1 & HC & Hwf1 & Hd1).
  assert (Hd' : zstd_NewReader None (decoder_options (dict c1)) = inl d)
    by (rewrite Hd1; exact Hd).
  destruct (Decompress_wf c1 (EncodeAll e b []) d Hwf1 Hd') as (c2 & HD & Hwf2 & _).
  exists (EncodeAll e b []), c1, c2.
  split; [exact HC|]. split; [|exact Hwf2].
  rewrite HD. rewrite (Hrt (dict c) e d b He Hd). reflexivity.
Qed.

(** [Decompress] adds nothing to the engine's verdict: bytes and error are
    those of [DecodeAll]. *)
Lemma Decompress_forwards (c : Compressor) (data : bytes) (d : Decoder) :
  wf c ->
  zstd_NewReader None (decoder_options (dict c)) = inl d ->
  result (Decompress c data) = Done (DecodeAll d data []).
Proof.
  intros Hwf Hd.
  destruct (Decompress_wf c data d Hwf Hd) as (c' & -> & _). reflexivity.
Qed.

Lemma CompressTo_wf (c : Compressor) (dst data : bytes) (e : Encoder) :
  wf c ->
  zstd_NewWriter None (encoder_options (dict c)) = inl e ->
  exists c', CompressTo c dst data = Done ((EncodeAll e data dst, None), c') /\
             wf c' /\ dict c' = dict c.
Proof.
  intros [Henc Hdec] He.
  unfold CompressTo, Pool_Get.
  destruct (encoderPool c) as [|v rest] eqn:Hpool.
  - unfold encoderPool_New. rewrite He. cbn.
    eexists; split; [reflexivity|]. split; [|reflexivity].
    split; cbn; [|assumption].
    constructor; [|constructor]. exists e; auto.
  - inversion Henc as [|? ? Hv Hrest]; subst.
    destruct Hv as (e0 & -> & He0).
    assert (e0 = e) by congruence; subst e0. cbn.
    eexists; split; [reflexivity|]. split; [|reflexivity].
    split; cbn; [|assumption].
    constructor; [exists e; auto|assumption].
Qed.

Lemma DecompressTo_wf (c : Compressor) (dst data : bytes) (d : Decoder) :
  wf c ->
  zstd_NewReader None (decoder_options (dict c)) = inl d ->
  exists c', DecompressTo c dst data = Done (DecodeAll d data dst, c') /\
             wf c' /\ dict c' = dict c.
Proof.
  intros [Henc Hdec] Hd.
  unfold DecompressTo, Pool_Get.
  destruct (decoderPool c) as [|v rest] eqn:Hpool.
  - unfold decoderPool_New. rewrite Hd. cbn.
    eexists; split; [reflexivity|]. split; [|reflexivity].
    split; cbn; [assumption|].
    constructor; [|constructor]. exists d; auto.
  - inversion Hdec as [|? ? Hv Hrest]; subst.
    destruct Hv as (d0 & -> & Hd0).
    assert (d0 = d) by congruence; subst d0. cbn.
    eexists; split; [reflexivity|]. split; [|reflexivity].
    split; cbn; [assumption|].
    constructor; [exists d; auto|assumption].
Qed.

End CompressorFacts.

(** ** Pool misses *)

Section PoolFacts.
Context `{ZstdEngine}.



(** The pools of the streaming codec only ever hold live engines: they
    start empty, and every operation keeps them so. *)
Lemma NewZstdDict_live (d : option bytes) : grpccodec.live (grpccodec.NewZstdDict d).
Proof. split; constructor. Qed.

Lemma NewZstd_live : grpccodec.live grpccodec.NewZstd.
Proof. split; constructor. Qed.

Lemma grpc_Compress_live (z z' : grpccodec.Zstd) (w : Writer)
      (r : option grpccodec.WriteCloser * option error) :
  grpccodec.live z ->
  grpccodec.Compress z w = Done (r, z') ->
  grpccodec.live z'.
Proof.
  intros [He Hd]. unfold grpccodec.Compress, Pool_Get.
  destruct (grpccodec.encoderPool z) as [|v rest] eqn:Hpool.
  - destruct (grpccodec.encoderPool_New z tt) as [|[e|]|p]; cbn; try discriminate.
    + intros E; inversion E; subst. split; [constructor|exact Hd].
    + destruct (zstd_NewWriter (Some w) _); intros E; inversion E; subst;
        (split; [constructor|exact Hd]).
  - inversion He as [|? ? [e ->] Hrest]; subst. cbn.
    intros E; inversion E; subst. split; [exact Hrest|exact Hd].
Qed.

Lemma grpc_Decompress_live (z z' : grpccodec.Zstd) (r : Reader)
      (v : option grpccodec.ReadValue * option error) :
  grpccodec.live z ->
  grpccodec.Decompress z r = Done (v, z') ->
  grpccodec.live z'.
Proof.
  intros [He Hd]. unfold grpccodec.Decompress, Pool_Get.
  destruct (grpccodec.decoderPool z) as [|x rest] eqn:Hpool.
  - destruct (grpccodec.decoderPool_New z tt) as [|p|[d|]]; cbn; try discriminate.
    + destruct (Decoder_Reset d r) as [d' [err|]]; intros E; inversion E; subst.
      * split; [exact He|]. cbn. constructor; [exists d'; reflexivity|constructor].
      * split; [exact He|constructor].
    + destruct (zstd_NewReader (Some r) _); intros E; inversion E; subst;
        (split; [exact He|constructor]).
  - inversion Hd as [|? ? [d ->] Hrest]; subst. cbn.
    destruct (Decoder_Reset d r) as [d' [err|]]; intros E; inversion E; subst.
    + split; [exact He|]. cbn. constructor; [exists d'; reflexivity|exact Hrest].
    + split; [exact He|exact Hrest].
Qed.

Lemma pooledEncoder_Close_live (enc enc' : Encoder) (pool pool' : Pool)
      (err : option error) :
  Forall grpccodec.live_encoder pool ->
  grpccodec.pooledEncoder_Close enc pool = (err, enc', pool') ->
  Forall grpccodec.live_encoder pool'.
Proof.
  intros Hp. unfold grpccodec.pooledEncoder_Close.
  destruct (Encoder_Close enc) as [e1 err1]. intros E; inversion E; subst.
  constructor; [exists enc'; reflexivity|exact Hp].
Qed.

Lemma pooledDecoder_Read_live (dec : Decoder) (pool : Pool) (data : bytes) :
  Forall grpccodec.live_decoder pool ->
  Forall grpccodec.live_decoder (snd (grpccodec.pooledDecoder_Read dec pool data)).
Proof.
  intros Hp. unfold grpccodec.pooledDecoder_Read.
  destruct (Decoder_Read dec data) as [[[dec' data'] n] err]. cbn.
  destruct (is_EOF err); [|exact Hp].
  constructor; [exists dec'; reflexivity|exact Hp].
Qed.


(** ** Streaming decoders *)

(** C8.  [pooledDecoder.Read] puts the engine back into the pool exactly
    when the read reports [io.EOF]; on every other read the pool is left
    as it was. *)
Theorem pooledDecoder_Read_returns_on_EOF (dec : Decoder) (pool : Pool) (data : bytes) :
  match grpccodec.pooledDecoder_Read dec pool data with
  | ((n, err), data', dec', pool') =>
      (n, err) = (let '(_, _, n0, err0) := Decoder_Read dec data in (n0, err0)) /\
      (pool' = Pool_Put (any_Decoder (Some dec')) pool <-> err = Some io_EOF) /\
      (err <> Some io_EOF -> pool' = pool)
  end.
Proof.
  unfold grpccodec.pooledDecoder_Read.
  destruct (Decoder_Read dec data) as [[[dec' data'] n] err].
  split; [reflexivity|].
  assert (Hneq : forall (x : any) (l : list any), l <> x :: l).
  { intros x l E. apply (f_equal (@List.length _)) in E. cbn in E. lia. }
  destruct err as [[msg| |code]|]; cbn; unfold Pool_Put.
  - split; [split; intros E; [apply Hneq in E; contradiction|discriminate]|reflexivity].
  - split; [split; reflexivity|intros E; contradiction].
  - split; [split; intros E; [apply Hneq in E; contradiction|discriminate]|reflexivity].
  - split; [split; intros E; [apply Hneq in E; contradiction|discriminate]|reflexivity].
Qed.

(** ** Determinism and encoder concurrency *)


End PoolFacts.


(** ** The training adapter *)



(** ** The analysis *)

Lemma add_in_range (a b : Z) : GoInt.in_range (a + b) -> GoInt.add a b = a + b.
Proof. intros Hr. unfold GoInt.add. apply wrap_in_range. exact Hr. Qed.

Lemma sub_in_range (a b : Z) : GoInt.in_range (a - b) -> GoInt.sub a b = a - b.
Proof. intros Hr. unfold GoInt.sub. apply wrap_in_range. exact Hr. Qed.

Section AnalyzerFacts.
Context `{ZstdEngine}.
Variable gzip_compress : bytes -> bytes.
Variables eNone eDict : Encoder.

Import analyze.

Lemma Compress__encodes (c : zstddict.Compressor) (e : Encoder) (sample : bytes) :
  zstddict.encodes_with c e ->
  exists c', Compress_ c sample = Done (EncodeAll e sample [], c') /\
             zstddict.encodes_with c' e.
Proof.
  intros [Hwf He].
  destruct (Compress_wf c sample e Hwf He) as (c' & HC & Hwf' & Hd).
  exists c'. unfold Compress_. rewrite HC. cbn.
  split; [reflexivity|]. split; [exact Hwf'|]. rewrite Hd. exact He.
Qed.

(** One iteration of the break-even loop always runs to its end on
    working codecs. *)
Lemma calculateBreakeven_body_runs
      (cum : Z) (cN cD : zstddict.Compressor) (sample : bytes) :
  zstddict.encodes_with cN eNone ->
  zstddict.encodes_with cD eDict ->
  exists cN' cD',
    calculateBreakeven_body cum cN cD sample =
      Done (GoInt.add cum (GoInt.sub (plainSize eNone sample) (dictSize eDict sample)),
            cN', cD') /\
    zstddict.encodes_with cN' eNone /\ zstddict.encodes_with cD' eDict.
Proof.
  intros HN HD.
  destruct (Compress__encodes cN eNone sample HN) as (cN' & EN & HN').
  destruct (Compress__encodes cD eDict sample HD) as (cD' & ED & HD').
  exists cN', cD'. unfold calculateBreakeven_body. rewrite EN. cbn. rewrite ED. cbn.
  auto.
Qed.

Lemma calculateBreakeven_body_exact
      (cum : Z) (cN cD : zstddict.Compressor) (sample : bytes) :
  zstddict.encodes_with cN eNone ->
  zstddict.encodes_with cD eDict ->
  Z.abs cum + frames_size eNone eDict sample <= GoInt.max_int ->
  exists cN' cD',
    calculateBreakeven_body cum cN cD sample =
      Done (cum + savings_of eNone eDict sample, cN', cD') /\
    zstddict.encodes_with cN' eNone /\ zstddict.encodes_with cD' eDict.
Proof.
  intros HN HD Hfit.
  destruct (calculateBreakeven_body_runs cum cN cD sample HN HD)
    as (cN' & cD' & E & HN' & HD').
  exists cN', cD'. split; [|auto].
  rewrite E. unfold savings_of. unfold frames_size in Hfit.
  assert (Hp : 0 <= plainSize eNone sample) by apply len_nonneg.
  assert (Hd : 0 <= dictSize eDict sample) by apply len_nonneg.
  rewrite sub_in_range
    by (unfold GoInt.in_range, GoInt.min_int, GoInt.max_int in *; lia).
  rewrite add_in_range
    by (unfold GoInt.in_range, GoInt.min_int, GoInt.max_int in *; lia).
  reflexivity.
Qed.

(** The two loops are the same function. *)
Lemma calculateBreakevenPoint_loop_eq
      (dictCost : Z) (samples : list bytes) :
  forall (i savings : Z) (cN cD : zstddict.Compressor),
    calculateBreakevenPoint_loop dictCost samples i savings cN cD =
    calculateBreakeven_loop dictCost samples i savings cN cD.
Proof.
  induction samples as [|s rest IH]; intros i savings cN cD; [reflexivity|].
  cbn [calculateBreakevenPoint_loop calculateBreakeven_loop].
  unfold calculateBreakeven_body.
  destruct (Compress_ cN s) as [[plain cN']|msg]; cbn; [|reflexivity].
  destruct (Compress_ cD s) as [[withDict cD']|msg]; cbn; [|reflexivity].
  destruct (_ >=? dictCost); [reflexivity|apply IH].
Qed.

Lemma calculateBreakevenPoint_eq
      (dict : bytes) (samples : list bytes) (cN cD : zstddict.Compressor) :
  calculateBreakevenPoint samples dict cN cD = calculateBreakeven dict samples cN cD.
Proof.
  unfold calculateBreakevenPoint, calculateBreakeven.
  rewrite calculateBreakevenPoint_loop_eq. reflexivity.
Qed.

Lemma sumZ_frames_size_nonneg (msgs : list bytes) : 0 <= sumZ (map (frames_size eNone eDict) msgs).
Proof.
  induction msgs as [|m rest IH]; cbn; [lia|]. unfold frames_size at 1.
  assert (0 <= plainSize eNone m) by apply len_nonneg.
  assert (0 <= dictSize eDict m) by apply len_nonneg.
  lia.
Qed.

(** The loop, from any counter [i] and any running sum [cum]: it returns,
    and what it returns is the first point at which the running sum of
    signed savings reaches [dictCost]. *)
Lemma calculateBreakeven_loop_spec (dictCost : Z) (samples : list bytes) :
  forall (i cum : Z) (cN cD : zstddict.Compressor),
    zstddict.encodes_with cN eNone ->
    zstddict.encodes_with cD eDict ->
    0 <= i ->
    i + GoInt.len samples <= GoInt.max_int ->
    Z.abs cum + sumZ (map (frames_size eNone eDict) samples) <= GoInt.max_int ->
    exists r cumF,
      calculateBreakeven_loop dictCost samples i cum cN cD = Done (r, cumF) /\
      ((r = -1 /\ cumF = cum + sumZ (map (savings_of eNone eDict) samples) /\
        forall k, (1 <= k <= List.length samples)%nat ->
                  cum + sumZ (map (savings_of eNone eDict) (firstn k samples)) < dictCost)
       \/
       (exists k, (1 <= k <= List.length samples)%nat /\
                  r = i + Z.of_nat k /\
                  cumF = cum + sumZ (map (savings_of eNone eDict) (firstn k samples)) /\
                  dictCost <= cumF /\
                  forall j, (1 <= j < k)%nat ->
                            cum + sumZ (map (savings_of eNone eDict) (firstn j samples)) < dictCost)).
Proof.
  induction samples as [|s rest IH]; intros i cum cN cD HN HD Hi Hlen Hfit.
  - exists (-1), cum. split; [reflexivity|]. left.
    split; [reflexivity|]. split; [cbn; lia|]. cbn. intros k Hk. lia.
  - cbn [map sumZ] in Hfit. rewrite len_cons in Hlen.
    assert (Hrest := sumZ_frames_size_nonneg rest).
    assert (Hlrest : 0 <= GoInt.len rest) by apply len_nonneg.
    assert (Hp : 0 <= plainSize eNone s) by apply len_nonneg.
    assert (Hd : 0 <= dictSize eDict s) by apply len_nonneg.
    destruct (calculateBreakeven_body_exact cum cN cD s HN HD)
      as (cN' & cD' & E & HN' & HD'); [unfold frames_size in *; lia|].
    cbn [calculateBreakeven_loop]. rewrite E. cbn [exec_bind].
    assert (Hi1 : GoInt.add i 1 = i + 1).
    { apply add_in_range.
      unfold GoInt.in_range, GoInt.min_int, GoInt.max_int in *. lia. }
    rewrite Hi1.
    destruct (Z.geb_spec (cum + savings_of eNone eDict s) dictCost) as [Hge|Hlt].
    + exists (i + 1), (cum + savings_of eNone eDict s). split; [reflexivity|]. right.
      exists 1%nat. cbn [List.length firstn map sumZ].
      repeat split; lia.
    + destruct (IH (i + 1) (cum + savings_of eNone eDict s) cN' cD' HN' HD')
        as (r & cumF & EL & Hr);
        [lia|lia|unfold savings_of; unfold frames_size in Hfit at 1; lia|].
      exists r, cumF. split; [exact EL|].
      destruct Hr as [(Hr & Hc & Hall)|(k & Hk & Hr & Hc & Hge & Hall)].
      * left. split; [exact Hr|]. split; [cbn [map sumZ]; lia|].
        intros k Hk. destruct k as [|k]; [lia|].
        cbn [firstn map sumZ].
        destruct k as [|k]; [cbn; lia|].
        cbn [List.length] in Hk.
        specialize (Hall (S k)). lia.
      * right. exists (S k). cbn [List.length firstn map sumZ].
        split; [lia|]. split; [lia|]. split; [lia|]. split; [exact Hge|].
        intros j Hj. destruct j as [|j]; [lia|].
        cbn [firstn map sumZ].
        destruct j as [|j]; [cbn; lia|].
        specialize (Hall (S j)). lia.
Qed.

(** C3.  On messages that fit [int], [calculateBreakeven] and
    [calculateBreakevenPoint] return the smallest number [k] of leading
    messages (counted from 1) whose cumulative signed savings reach the
    dictionary's size, and -1 when no such [k] exists among the messages
    given. *)
Theorem calculateBreakeven_smallest_prefix
        (dict : bytes) (samples : list bytes) (cN cD : zstddict.Compressor) :
  zstddict.encodes_with cN eNone ->
  zstddict.encodes_with cD eDict ->
  fits_int eNone eDict samples ->
  exists r,
    calculateBreakeven dict samples cN cD = Done r /\
    calculateBreakevenPoint samples dict cN cD = Done r /\
    ((r = -1 /\
      forall k, (1 <= k <= List.length samples)%nat ->
                cumulativeSavings eNone eDict samples k < GoInt.len dict)
     \/
     (exists k, (1 <= k <= List.length samples)%nat /\
                r = Z.of_nat k /\
                GoInt.len dict <= cumulativeSavings eNone eDict samples k /\
                forall j, (1 <= j < k)%nat ->
                          cumulativeSavings eNone eDict samples j < GoInt.len dict)).
Proof.
  intros HN HD [Hlen Hsum].
  destruct (calculateBreakeven_loop_spec (GoInt.len dict) samples 0 0 cN cD HN HD)
    as (r & cumF & EL & Hr); [lia|lia|lia|].
  exists r. rewrite calculateBreakevenPoint_eq.
  unfold calculateBreakeven. rewrite EL. cbn [exec_bind].
  split; [reflexivity|]. split; [reflexivity|].
  unfold cumulativeSavings.
  destruct Hr as [(Hr & _ & Hall)|(k & Hk & Hr & Hc & Hge & Hall)].
  - left. split; [exact Hr|]. intros k Hk. specialize (Hall k Hk). lia.
  - right. exists k. split; [exact Hk|]. split; [lia|]. split; [lia|].
    intros j Hj. specialize (Hall j Hj). lia.
Qed.

(** C6.  The savings of a message are the plain frame size minus the
    dictionary frame size, signed, and that value is what the loop adds
    to the running sum: a message whose dictionary frame is the larger
    one lowers the sum by the difference. *)
Theorem savings_signed_never_clamped
        (dictCost i cum : Z) (sample : bytes) (rest : list bytes)
        (cN cD : zstddict.Compressor) :
  zstddict.encodes_with cN eNone ->
  zstddict.encodes_with cD eDict ->
  Z.abs cum + (plainSize eNone sample + dictSize eDict sample) <= GoInt.max_int ->
  let savings := plainSize eNone sample - dictSize eDict sample in
  exists cN' cD',
    calculateBreakeven_body cum cN cD sample = Done (cum + savings, cN', cD') /\
    calculateBreakevenPoint_loop dictCost (sample :: rest) i cum cN cD =
      (if cum + savings >=? dictCost
       then Done (GoInt.add i 1, cum + savings)
       else calculateBreakevenPoint_loop dictCost rest (GoInt.add i 1) (cum + savings)
                                         cN' cD') /\
    (plainSize eNone sample < dictSize eDict sample -> cum + savings < cum).
Proof.
  intros HN HD Hfit savings.
  destruct (calculateBreakeven_body_exact cum cN cD sample HN HD Hfit)
    as (cN' & cD' & E & _ & _).
  exists cN', cD'. split; [exact E|]. split; [|subst savings; lia].
  rewrite !calculateBreakevenPoint_loop_eq.
  cbn [calculateBreakeven_loop]. rewrite E. cbn [exec_bind].
  destruct (_ >=? dictCost); reflexivity.
Qed.

(** C7.  Processing one message lowers none of the four running totals,
    in [main] and in [analyzeScenario] alike, as long as the totals fit
    [int64]. *)
Theorem totals_non_decreasing
        (t : totals) (st : scenario_totals) (cN cD : zstddict.Compressor)
        (sample : bytes) :
  zstddict.encodes_with cN eNone ->
  zstddict.encodes_with cD eDict ->
  totals_fit gzip_compress eNone eDict t sample ->
  scenario_totals_fit gzip_compress eNone eDict st sample ->
  (exists t' cN' cD',
     main_loop_body gzip_compress t cN cD sample = Done (t', cN', cD') /\
     totalUncompressed t <= totalUncompressed t' /\
     totalGzip t <= totalGzip t' /\
     totalZstd t <= totalZstd t' /\
     totalZstdDict t <= totalZstdDict t') /\
  (exists st' cN' cD',
     analyzeScenario_loop_body gzip_compress st cN cD sample = Done (st', cN', cD') /\
     totalOrig st <= totalOrig st' /\
     scenario_totalGzip st <= scenario_totalGzip st' /\
     scenario_totalZstd st <= scenario_totalZstd st' /\
     totalDict st <= totalDict st').
Proof.
  intros HN HD (Hu & Hg & Hz & Hd) (Hu' & Hg' & Hz' & Hd').
  destruct (Compress__encodes cN eNone sample HN) as (cN' & EN & _).
  destruct (Compress__encodes cD eDict sample HD) as (cD' & ED & _).
  assert (H0 : 0 <= GoInt.len sample) by apply len_nonneg.
  assert (H1 : 0 <= GoInt.len (gzip_compress sample)) by apply len_nonneg.
  assert (H2 : 0 <= plainSize eNone sample) by apply len_nonneg.
  assert (H3 : 0 <= dictSize eDict sample) by apply len_nonneg.
  unfold plainSize, dictSize in *.
  split.
  - unfold main_loop_body. rewrite EN. cbn [exec_bind]. rewrite ED. cbn [exec_bind].
    eexists _, cN', cD'. split; [reflexivity|].
    cbn [totalUncompressed totalGzip totalZstd totalZstdDict].
    rewrite !add_in_range by assumption. lia.
  - unfold analyzeScenario_loop_body.
    rewrite EN. cbn [exec_bind]. rewrite ED. cbn [exec_bind].
    eexists _, cN', cD'. split; [reflexivity|].
    cbn [totalOrig scenario_totalGzip scenario_totalZstd totalDict].
    rewrite !add_in_range by assumption. lia.
Qed.

(** The value returned lies among the message counts, whatever the sizes. *)
Lemma calculateBreakeven_loop_range (dictCost : Z) (samples : list bytes) :
  forall (i cum : Z) (cN cD : zstddict.Compressor),
    zstddict.encodes_with cN eNone ->
    zstddict.encodes_with cD eDict ->
    0 <= i ->
    i + GoInt.len samples <= GoInt.max_int ->
    exists r cumF,
      calculateBreakeven_loop dictCost samples i cum cN cD = Done (r, cumF) /\
      (r = -1 \/ i + 1 <= r <= i + GoInt.len samples).
Proof.
  induction samples as [|s rest IH]; intros i cum cN cD HN HD Hi Hlen.
  - exists (-1), cum. split; [reflexivity|]. left; reflexivity.
  - rewrite len_cons in *.
    assert (Hlrest : 0 <= GoInt.len rest) by apply len_nonneg.
    destruct (calculateBreakeven_body_runs cum cN cD s HN HD)
      as (cN' & cD' & E & HN' & HD').
    cbn [calculateBreakeven_loop]. rewrite E. cbn [exec_bind].
    assert (Hi1 : GoInt.add i 1 = i + 1).
    { apply add_in_range.
      unfold GoInt.in_range, GoInt.min_int, GoInt.max_int in *. lia. }
    rewrite Hi1.
    destruct (_ >=? dictCost).
    + eexists _, _. split; [reflexivity|]. right. lia.
    + destruct (IH (i + 1) (GoInt.add cum
                 (GoInt.sub (plainSize eNone s) (dictSize eDict s))) cN' cD' HN' HD')
        as (r & cumF & EL & Hr); [lia|lia|].
      exists r, cumF. split; [exact EL|]. lia.
Qed.

(** C10.  The break-even functions never return 0: on working codecs the
    value is -1 or a message count between 1 and the number of messages.
    On no messages at all the value is -1 for every dictionary, the empty
    one included: the test against the dictionary size is made only
    after a message has been added. *)
Theorem calculateBreakeven_never_zero
        (dict : bytes) (samples : list bytes) (cN cD : zstddict.Compressor) :
  zstddict.encodes_with cN eNone ->
  zstddict.encodes_with cD eDict ->
  GoInt.len samples <= GoInt.max_int ->
  (exists r,
     calculateBreakeven dict samples cN cD = Done r /\
     calculateBreakevenPoint samples dict cN cD = Done r /\
     r <> 0 /\
     (r = -1 \/ 1 <= r <= GoInt.len samples)) /\
  calculateBreakeven dict [] cN cD = Done (-1) /\
  calculateBreakevenPoint [] dict cN cD = Done (-1) /\
  calculateBreakeven [] [] cN cD = Done (-1) /\
  calculateBreakevenPoint [] [] cN cD = Done (-1).
Proof.
  intros HN HD Hlen.
  split; [|repeat split; reflexivity].
  destruct (calculateBreakeven_loop_range (GoInt.len dict) samples 0 0 cN cD HN HD)
    as (r & cumF & EL & Hr); [lia|lia|].
  exists r. rewrite calculateBreakevenPoint_eq.
  unfold calculateBreakeven. rewrite EL. cbn [exec_bind].
  split; [reflexivity|]. split; [reflexivity|]. lia.
Qed.

End AnalyzerFacts.

(** ** The reference engine meets the engine contract *)

Section StoredEngineFacts.
Import StoredEngine.

Lemma is_prefix_split (a b : bytes) :
  is_prefix a b = true -> a ++ skipn (List.length a) b = b.
Proof.
  revert b. induction a as [|x a IH]; intros b Hp; [reflexivity|].
  destruct b as [|y b]; [discriminate|].
  cbn in Hp. apply andb_prop in Hp. destruct Hp as [Hxy Hp].
  apply Byte.byte_dec_bl in Hxy. subst y.
  cbn. rewrite (IH b Hp). reflexivity.
Qed.

Lemma strip_repetitions_sound (fuel : nat) (content : bytes) :
  forall (data : bytes) (n : nat) (rest : bytes),
    strip_repetitions fuel content data = (n, rest) ->
    repeat_content n content ++ rest = data /\ (n <= fuel)%nat.
Proof.
  induction fuel as [|fuel IH]; intros data n rest E; cbn in E.
  - inversion E; subst. split; [reflexivity|lia].
  - destruct (is_prefix content data) eqn:Hp.
    + destruct (strip_repetitions fuel content (skipn (List.length content) data))
        as [n' rest'] eqn:E'.
      inversion E; subst.
      destruct (IH _ _ _ E') as [Hd Hn].
      split; [|lia].
      cbn. rewrite <- app_assoc, Hd. apply is_prefix_split. exact Hp.
    + inversion E; subst. split; [reflexivity|lia].
Qed.

#[local] Arguments strip_repetitions : simpl never.
#[local] Arguments encode_frame : simpl never.
#[local] Arguments decode_frame : simpl never.

Lemma to_nat_byte_of_nat (n : nat) : (n <= 255)%nat -> Byte.to_nat (byte_of_nat n) = n.
Proof.
  intros Hn. unfold byte_of_nat.
  destruct (Byte.of_nat n) as [b|] eqn:E.
  - apply Byte.to_of_nat. exact E.
  - apply Byte.of_nat_None_iff in E. lia.
Qed.

Lemma byte_eqb_refl (b : Byte.byte) : Byte.eqb b b = true.
Proof. apply Byte.byte_dec_lb. reflexivity. Qed.

Lemma decode_encode_frame (dict : option (Byte.byte * bytes)) (b : bytes) :
  (forall id content, dict = Some (id, content) -> Byte.eqb id Byte.x00 = false) ->
  decode_frame dict (encode_frame {| enc_dict := dict; enc_concurrency := None |} b)
  = inl b.
Proof.
  intros Hid. unfold encode_frame. cbn [enc_dict frame_magic app].
  destruct dict as [[id content]|].
  - destruct (strip_repetitions 255 content b) as [n rest] eqn:E.
    destruct (strip_repetitions_sound _ _ _ _ _ E) as [Hd Hn].
    unfold decode_frame. rewrite (Hid id content eq_refl), byte_eqb_refl.
    rewrite to_nat_byte_of_nat by exact Hn. rewrite Hd. reflexivity.
  - reflexivity.
Qed.

Lemma parse_dict_id (d : bytes) (id : Byte.byte) (content : bytes) :
  parse_dict d = Some (id, content) -> Byte.eqb id Byte.x00 = false.
Proof.
  unfold parse_dict.
  repeat (match goal with
          | |- match ?x with _ => _ end = _ -> _ =>
              is_var x; destruct x; try discriminate
          end).
  destruct (Byte.eqb _ _) eqn:E0; [discriminate|].
  intros E; inversion E; subst. exact E0.
Qed.

(** The reference engine decodes what it encodes, under every dictionary
    it accepts and under none. *)
Lemma StoredEngine_roundtrip : @zstddict.engine_roundtrip StoredEngine.engine.
Proof.
  intros d e dec b He Hd. cbn in *.
  unfold new_writer, new_reader, encode_all, decode_all in *.
  destruct d as [d|]; cbn in He, Hd.
  - destruct (parse_dict d) as [[id content]|] eqn:Hp; [|discriminate].
    inversion He; inversion Hd; subst; clear He Hd.
    cbn [dec_dict app].
    rewrite decode_encode_frame; [reflexivity|].
    intros id' content' E. inversion E; subst.
    eapply parse_dict_id; eassumption.
  - inversion He; inversion Hd; subst; clear He Hd.
    cbn [dec_dict app].
    rewrite decode_encode_frame; [reflexivity|]. intros ? ? E; discriminate.
Qed.

End StoredEngineFacts.

(** ** The theorems at work on the reference engine *)

Lemma compNone_encodes :
  @zstddict.encodes_with StoredEngine.engine StoredEngine.compNone StoredEngine.eNone.
Proof. split; [split; constructor|reflexivity]. Qed.

Lemma compDict_encodes :
  @zstddict.encodes_with StoredEngine.engine StoredEngine.compDict StoredEngine.eDict.
Proof. split; [split; constructor|reflexivity]. Qed.

Lemma Compress_Decompress_roundtrip_witness :
  @zstddict.wf StoredEngine.engine StoredEngine.compDict /\
  exists z c1 c2,
    @zstddict.Compress StoredEngine.engine StoredEngine.compDict StoredEngine.M2
      = Done ((z, None), c1) /\
    @zstddict.Decompress StoredEngine.engine c1 z = Done ((StoredEngine.M2, None), c2) /\
    @zstddict.wf StoredEngine.engine c2.
Proof.
  assert (Hwf : @zstddict.wf StoredEngine.engine StoredEngine.compDict)
    by (split; constructor).
  split; [exact Hwf|].
  apply (@Compress_Decompress_roundtrip StoredEngine.engine StoredEngine.compDict
           StoredEngine.M2 StoredEngine.eDict StoredEngine.dDict).
  - exact StoredEngine_roundtrip.
  - exact Hwf.
  - reflexivity.
  - reflexivity.
Defined.



Lemma calculateBreakeven_smallest_prefix_witness :
  @analyze.fits_int StoredEngine.engine StoredEngine.eNone StoredEngine.eDict
    [StoredEngine.M1; StoredEngine.M2] /\
  exists r,
    @analyze.calculateBreakeven StoredEngine.engine StoredEngine.dictA
      [StoredEngine.M1; StoredEngine.M2] StoredEngine.compNone StoredEngine.compDict
    = Done r.
Proof.
  assert (Hfit : @analyze.fits_int StoredEngine.engine StoredEngine.eNone
                   StoredEngine.eDict [StoredEngine.M1; StoredEngine.M2])
    by in_range_by_computation.
  split; [exact Hfit|].
  destruct (@calculateBreakeven_smallest_prefix StoredEngine.engine
              StoredEngine.eNone StoredEngine.eDict StoredEngine.dictA
              [StoredEngine.M1; StoredEngine.M2] StoredEngine.compNone
              StoredEngine.compDict compNone_encodes compDict_encodes Hfit)
    as (r & Hr & _).
  exists r. exact Hr.
Defined.

Lemma savings_signed_never_clamped_witness :
  Z.abs 0 + (@analyze.plainSize StoredEngine.engine StoredEngine.eNone StoredEngine.M1 +
             @analyze.dictSize StoredEngine.engine StoredEngine.eDict StoredEngine.M1)
    <= GoInt.max_int /\
  exists cN' cD',
    @analyze.calculateBreakeven_body StoredEngine.engine 0 StoredEngine.compNone
      StoredEngine.compDict StoredEngine.M1 = Done (-1, cN', cD').
Proof.
  assert (Hfit : Z.abs 0 +
                 (@analyze.plainSize StoredEngine.engine StoredEngine.eNone StoredEngine.M1 +
                  @analyze.dictSize StoredEngine.engine StoredEngine.eDict StoredEngine.M1)
                 <= GoInt.max_int) by by_computation.
  split; [exact Hfit|].
  destruct (@savings_signed_never_clamped StoredEngine.engine
              StoredEngine.eNone StoredEngine.eDict 9 0 0 StoredEngine.M1
              [StoredEngine.M2] StoredEngine.compNone StoredEngine.compDict
              compNone_encodes compDict_encodes Hfit)
    as (cN' & cD' & Hbody & _).
  exists cN', cD'. exact Hbody.
Defined.

Lemma totals_non_decreasing_witness :
  let t0 := {| analyze.totalUncompressed := 0; analyze.totalGzip := 0;
               analyze.totalZstd := 0; analyze.totalZstdDict := 0 |} in
  let s0 := {| analyze.totalOrig := 0; analyze.scenario_totalGzip := 0;
               analyze.scenario_totalZstd := 0; analyze.totalDict := 0 |} in
  @analyze.totals_fit StoredEngine.engine StoredEngine.stored_gzip
    StoredEngine.eNone StoredEngine.eDict t0 StoredEngine.M2 /\
  @analyze.scenario_totals_fit StoredEngine.engine StoredEngine.stored_gzip
    StoredEngine.eNone StoredEngine.eDict s0 StoredEngine.M2 /\
  exists t' cN' cD',
    @analyze.main_loop_body StoredEngine.engine StoredEngine.stored_gzip t0
      StoredEngine.compNone StoredEngine.compDict StoredEngine.M2 = Done (t', cN', cD') /\
    0 <= analyze.totalUncompressed t'.
Proof.
  intros t0 s0.
  assert (Ht : @analyze.totals_fit StoredEngine.engine StoredEngine.stored_gzip
                 StoredEngine.eNone StoredEngine.eDict t0 StoredEngine.M2)
    by (repeat split; by_computation).
  assert (Hs : @analyze.scenario_totals_fit StoredEngine.engine StoredEngine.stored_gzip
                 StoredEngine.eNone StoredEngine.eDict s0 StoredEngine.M2)
    by (repeat split; by_computation).
  split; [exact Ht|]. split; [exact Hs|].
  destruct (@totals_non_decreasing StoredEngine.engine StoredEngine.stored_gzip
              StoredEngine.eNone StoredEngine.eDict t0 s0 StoredEngine.compNone
              StoredEngine.compDict StoredEngine.M2
              compNone_encodes compDict_encodes Ht Hs)
    as ((t' & cN' & cD' & Hbody & Hu & _) & _).
  exists t', cN', cD'. split; [exact Hbody|exact Hu].
Defined.

Lemma calculateBreakeven_never_zero_witness :
  GoInt.len [StoredEngine.M1; StoredEngine.M2] <= GoInt.max_int /\
  exists r,
    @analyze.calculateBreakeven StoredEngine.engine StoredEngine.dictA
      [StoredEngine.M1; StoredEngine.M2] StoredEngine.compNone StoredEngine.compDict
    = Done r /\ r <> 0.
Proof.
  assert (Hlen : GoInt.len [StoredEngine.M1; StoredEngine.M2] <= GoInt.max_int)
    by by_computation.
  split; [exact Hlen|].
  destruct (@calculateBreakeven_never_zero StoredEngine.engine
              StoredEngine.eNone StoredEngine.eDict StoredEngine.dictA
              [StoredEngine.M1; StoredEngine.M2] StoredEngine.compNone
              StoredEngine.compDict compNone_encodes compDict_encodes Hlen)
    as ((r & Hr & _ & Hnz & _) & _).
  exists r. split; [exact Hr|exact Hnz].
Defined.

(** The order of the messages decides the break-even point: the message
    the dictionary does not help first gives 2, last gives 1. *)
Example breakeven_order_M1_M2 :
  @analyze.calculateBreakeven StoredEngine.engine StoredEngine.dictA
    [StoredEngine.M1; StoredEngine.M2] StoredEngine.compNone StoredEngine.compDict
  = Done 2.
Proof. vm_compute. reflexivity. Qed.

Example breakeven_order_M2_M1 :
  @analyze.calculateBreakeven StoredEngine.engine StoredEngine.dictA
    [StoredEngine.M2; StoredEngine.M1] StoredEngine.compNone StoredEngine.compDict
  = Done 1.
Proof. vm_compute. reflexivity. Qed.

(** A message the dictionary does not help pulls the running sum below
    zero; with clamping the result on [M1; M1] against an empty dictionary
    would be 1. *)
Example breakeven_negative_savings_kept :
  @analyze.calculateBreakeven StoredEngine.engine []
    [StoredEngine.M1; StoredEngine.M1] StoredEngine.compNone StoredEngine.compDict
  = Done (-1).
Proof. vm_compute. reflexivity. Qed.

(** A frame written under one dictionary is refused by the reference
    engine bound to another; the codec hands the refusal on. *)
Example reference_engine_refuses_other_dictionary :
  @zstddict.result StoredEngine.engine _
    (@zstddict.Decompress StoredEngine.engine
       (@zstddict.Build_Compressor StoredEngine.engine (Some StoredEngine.dictB) [] [])
       (StoredEngine.encode_all StoredEngine.eDict StoredEngine.M2 []))
  = Done ([], Some StoredEngine.ErrUnknownDictionary).
Proof. vm_compute. reflexivity. Qed.

(** A pooled streaming decoder goes back to the pool on the read that
    meets the end of the data, not on the read before it. *)
Example pooledDecoder_Read_twice :
  let d0 := {| StoredEngine.dec_dict := None;
               StoredEngine.dec_pending := StoredEngine.M1 |} in
  let '(r1, _, d1, pool1) :=
    @grpccodec.pooledDecoder_Read StoredEngine.engine d0 [] [Byte.x00; Byte.x00] in
  let '(r2, _, d2, pool2) :=
    @grpccodec.pooledDecoder_Read StoredEngine.engine d1 pool1 [Byte.x00; Byte.x00] in
  r1 = (2, None) /\ pool1 = [] /\
  r2 = (0, Some io_EOF) /\ pool2 = [@any_Decoder StoredEngine.engine (Some d2)].
Proof. cbn. repeat split. Qed.

(** Bytes that are no dictionary: the engine refuses to build an encoder,
    the pool's [New] answers nil, and [Compress] panics at the type
    assertion; the error of the nil test behind it is never returned. *)
Example malformed_dictionary_panics :
  @zstddict.result StoredEngine.engine _
    (@zstddict.Compress StoredEngine.engine
       (@zstddict.Build_Compressor StoredEngine.engine (Some StoredEngine.M1) [] [])
       StoredEngine.M2)
  = Panic "interface conversion: interface {} is nil, not *zstd.Encoder".
Proof. vm_compute. reflexivity. Qed.

(** * Further properties of the code *)

(** ** zstddict: construction and the pools *)

Section NewFacts.
Context `{ZstdEngine}.
Variable os_ReadFile : string -> bytes + error.

Import zstddict.

Lemma apply_Options_app (a b : list Option) (c : Compressor) :
  apply_Options os_ReadFile (a ++ b) c =
  match apply_Options os_ReadFile a c with
  | inr err => inr err
  | inl c' => apply_Options os_ReadFile b c'
  end.
Proof.
  revert c. induction a as [|opt a IH]; intros c; [reflexivity|].
  cbn. destruct (apply_Option os_ReadFile opt c) as [c'|err]; [apply IH|reflexivity].
Qed.

Lemma apply_Options_pools (opts : list Option) :
  forall c c', apply_Options os_ReadFile opts c = inl c' ->
               encoderPool c' = encoderPool c /\ decoderPool c' = decoderPool c.
Proof.
  induction opts as [|opt opts IH]; intros c c' E; cbn in E.
  - inversion E; subst. split; reflexivity.
  - destruct opt as [d|path]; cbn in E.
    + apply IH in E. cbn in E. exact E.
    + destruct (os_ReadFile path) as [data|err]; [|discriminate].
      apply IH in E. cbn in E. exact E.
Qed.

(** X1.  [New] applies its options in order.  After options that
    succeed, a [WithDictBytes] decides the dictionary (nil removes an
    earlier one), a readable [WithDictFile] sets the file's bytes, and an
    unreadable [WithDictFile] makes [New] fail with the read error
    whatever options follow; the codec [New] returns has empty pools. *)
Theorem New_applies_options_in_order
        (pre post : list Option) (d : option bytes) (path : string) (c : Compressor) :
  New os_ReadFile pre = inl c ->
  encoderPool c = [] /\ decoderPool c = [] /\
  New os_ReadFile (pre ++ [WithDictBytes d]) =
    inl {| dict := d; encoderPool := []; decoderPool := [] |} /\
  (forall data, os_ReadFile path = inl data ->
     New os_ReadFile (pre ++ [WithDictFile path]) =
       inl {| dict := Some data; encoderPool := []; decoderPool := [] |}) /\
  (forall err, os_ReadFile path = inr err ->
     New os_ReadFile (pre ++ WithDictFile path :: post) = inr err).
Proof.
  unfold New. intros E.
  destruct (apply_Options os_ReadFile pre _) as [c0|err0] eqn:E0; [|discriminate].
  inversion E; subst; clear E. cbn [encoderPool decoderPool].
  split; [reflexivity|]. split; [reflexivity|].
  rewrite !apply_Options_app, E0.
  split; [reflexivity|]. split.
  - intros data Hr. cbn. rewrite Hr. reflexivity.
  - intros err Hr. cbn. rewrite Hr. reflexivity.
Qed.

End NewFacts.

Section MalformedDictionary.
Context `{ZstdEngine}.

Import zstddict.

(** X2.  [New] does not look at the dictionary bytes.  When the engine
    refuses them, [New] still succeeds and [HasDict] is true; the refusal
    shows at the first use: the streaming constructors [Writer] and
    [Reader] return the engine's error, while the one-shot calls panic at
    the type assertion on the nil value their pool hands out. *)
Theorem refused_dictionary_shows_at_first_use
        (os_ReadFile : string -> bytes + error) (d dst data : bytes)
        (w : Writer) (r : Reader) (e1 e2 e3 e4 : error) :
  zstd_NewWriter None [WithEncoderDict d] = inr e1 ->
  zstd_NewReader None [WithDecoderDicts d] = inr e2 ->
  zstd_NewWriter (Some w) [WithEncoderDict d] = inr e3 ->
  zstd_NewReader (Some r) [WithDecoderDicts d] = inr e4 ->
  exists c,
    New os_ReadFile [WithDictBytes (Some d)] = inl c /\
    HasDict c = true /\
    DictSize c = GoInt.len d /\
    zstddict_stream.Compressor_Writer c w = inr e3 /\
    zstddict_stream.Compressor_Reader c r = inr e4 /\
    result (Compress c data) =
      Panic "interface conversion: interface {} is nil, not *zstd.Encoder" /\
    result (CompressTo c dst data) =
      Panic "interface conversion: interface {} is nil, not *zstd.Encoder" /\
    result (Decompress c data) =
      Panic "interface conversion: interface {} is nil, not *zstd.Decoder" /\
    result (DecompressTo c dst data) =
      Panic "interface conversion: interface {} is nil, not *zstd.Decoder".
Proof.
  intros H1 H2 H3 H4.
  eexists. split; [reflexivity|].
  split; [reflexivity|]. split; [reflexivity|].
  unfold zstddict_stream.Compressor_Writer, zstddict_stream.Compressor_Reader.
  cbn [dict]. split; [exact H3|]. split; [exact H4|].
  unfold Compress, CompressTo, Decompress, DecompressTo, Pool_Get,
    encoderPool_New, decoderPool_New.
  cbn [dict encoderPool decoderPool encoder_options decoder_options].
  rewrite H1, H2. repeat split; reflexivity.
Qed.


End MalformedDictionary.

(** ** grpccodec: streams and registration *)

Section StreamFacts.
Context `{ZstdEngine}.

Import grpccodec.


(** X5.  [pooledDecoder.Read] puts the decoder into the pool on every
    read that reports [io.EOF], not only on the first: a second such read
    on the same wrapper leaves the one decoder in the pool twice. *)
Theorem pooledDecoder_Read_after_EOF_puts_again
        (dec dec1 dec2 : Decoder) (pool : Pool) (p1 p2 b1 b2 : bytes) (n1 n2 : Z) :
  Decoder_Read dec p1 = (dec1, b1, n1, Some io_EOF) ->
  Decoder_Read dec1 p2 = (dec2, b2, n2, Some io_EOF) ->
  let '(_, _, d1, pool1) := pooledDecoder_Read dec pool p1 in
  let '(_, _, d2, pool2) := pooledDecoder_Read d1 pool1 p2 in
  d1 = dec1 /\ d2 = dec2 /\
  pool2 = any_Decoder (Some dec2) :: any_Decoder (Some dec1) :: pool.
Proof.
  intros H1 H2. unfold pooledDecoder_Read.
  rewrite H1. cbn. rewrite H2. cbn. repeat split.
Qed.

End StreamFacts.

Section RegistryFacts.
Context `{ZstdEngine}.

Import grpccodec_registry.

Lemma NameZstd_neq_NameZstdDict :
  String.eqb grpccodec.NameZstdDict grpccodec.NameZstd = false.
Proof. reflexivity. Qed.

(** X6.  After [Register(dict)] the name "zstd" gives a fresh plain
    codec; the name "zstd-dict" gives a fresh codec bound to [dict] when
    [dict] is not nil and is left as it was otherwise (a dictionary codec
    registered earlier stays registered); every other name is left as it
    was.  Registering keeps every compressor under its own name, and
    registering the same dictionary twice is the same as once. *)
Theorem Register_lookup (dict : option bytes) (reg : registry) (n : string) :
  well_named reg ->
  encoding_GetCompressor (Register dict reg) n =
    (if String.eqb n "zstd" then Some grpccodec.NewZstd
     else if String.eqb n "zstd-dict"
          then match dict with
               | Some d => Some (grpccodec.NewZstdDict (Some d))
               | None => encoding_GetCompressor reg "zstd-dict"
               end
          else encoding_GetCompressor reg n) /\
  well_named (Register dict reg) /\
  encoding_GetCompressor (Register dict (Register dict reg)) n =
    encoding_GetCompressor (Register dict reg) n.
Proof.
  intros Hnamed.
  assert (Hlookup : forall (dict : option bytes) (reg : registry) (n : string),
    encoding_GetCompressor (Register dict reg) n =
    (if String.eqb n "zstd" then Some grpccodec.NewZstd
     else if String.eqb n "zstd-dict"
          then match dict with
               | Some d => Some (grpccodec.NewZstdDict (Some d))
               | None => encoding_GetCompressor reg "zstd-dict"
               end
          else encoding_GetCompressor reg n)).
  { clear. intros dict reg n.
    unfold Register, encoding_RegisterCompressor, encoding_GetCompressor.
    destruct dict as [d|]; cbn [grpccodec.Name grpccodec.name grpccodec.NewZstd
      grpccodec.NewZstdDict grpccodec.initPools];
      unfold grpccodec.NameZstd, grpccodec.NameZstdDict.
    - destruct (String.eqb_spec n "zstd-dict") as [->|Hn]; [reflexivity|].
      destruct (String.eqb n "zstd"); reflexivity.
    - destruct (String.eqb_spec n "zstd") as [->|Hn]; [reflexivity|].
      destruct (String.eqb_spec n "zstd-dict") as [->|Hd]; reflexivity. }
  split; [apply Hlookup|]. split.
  - intros m c. rewrite Hlookup.
    destruct (String.eqb_spec m "zstd") as [->|Hm].
    { intros E; inversion E; subst. reflexivity. }
    destruct (String.eqb_spec m "zstd-dict") as [->|Hd].
    { destruct dict as [d|].
      - intros E; inversion E; subst. reflexivity.
      - apply Hnamed. }
    apply Hnamed.
  - rewrite !Hlookup.
    destruct (String.eqb n "zstd"); [reflexivity|].
    destruct (String.eqb_spec n "zstd-dict") as [->|Hd]; [|reflexivity].
    destruct dict; reflexivity.
Qed.

End RegistryFacts.

(** ** train.go: where the samples come from *)

Section SourcesFacts.
Variable BuildZstdDict : list bytes -> train.dict_Options -> bytes * option error.

Import train_sources.

Lemma TrainDictFromReader_loop_stops (sampleFn : nat -> bytes * bool) (n : nat) :
  forall (fuel call : nat) (samples : list bytes),
    (forall k, (k < n)%nat -> snd (sampleFn (call + k)%nat) = true) ->
    snd (sampleFn (call + n)%nat) = false ->
    (n < fuel)%nat ->
    TrainDictFromReader_loop sampleFn fuel call samples =
      Some (samples ++ map (fun k => fst (sampleFn k)) (seq call n)).
Proof.
  induction n as [|n IH]; intros fuel call samples Hok Hstop Hfuel.
  - destruct fuel as [|fuel]; [lia|]. cbn.
    rewrite Nat.add_0_r in Hstop.
    destruct (sampleFn call) as [sample ok]. cbn in Hstop. subst ok. cbn.
    rewrite app_nil_r. reflexivity.
  - destruct fuel as [|fuel]; [lia|]. cbn [TrainDictFromReader_loop].
    assert (H0 := Hok 0%nat ltac:(lia)). rewrite Nat.add_0_r in H0.
    destruct (sampleFn call) as [sample ok] eqn:Hcall. cbn in H0. subst ok. cbn [negb].
    rewrite (IH fuel (S call) (samples ++ [sample])).
    + cbn [seq map]. rewrite Hcall. cbn [fst]. rewrite <- app_assoc. reflexivity.
    + intros k Hk. specialize (Hok (S k) ltac:(lia)).
      rewrite Nat.add_succ_r in Hok. exact Hok.
    + rewrite Nat.add_succ_r in Hstop. exact Hstop.
    + lia.
Qed.

Lemma TrainDictFromReader_loop_runs_on (sampleFn : nat -> bytes * bool) :
  (forall k, snd (sampleFn k) = true) ->
  forall (fuel call : nat) (samples : list bytes),
    TrainDictFromReader_loop sampleFn fuel call samples = None.
Proof.
  intros Hok. induction fuel as [|fuel IH]; intros call samples; [reflexivity|].
  cbn. specialize (Hok call). destruct (sampleFn call) as [sample ok].
  cbn in Hok. subst ok. cbn. apply IH.
Qed.

(** X7.  [TrainDictFromReader] trains on exactly the samples [sampleFn]
    gives before its first answer with [ok = false], in order; the bytes
    that come with that answer are dropped.  When the very first answer
    has [ok = false] the result is the "no samples" error and the trainer
    is not called; when [sampleFn] never answers false the function never
    returns. *)
Theorem TrainDictFromReader_collects_until_not_ok
        (sampleFn : nat -> bytes * bool) (opts : option train.TrainDictOptions)
        (n fuel : nat) :
  (forall k, (k < n)%nat -> snd (sampleFn k) = true) ->
  snd (sampleFn n) = false ->
  (n < fuel)%nat ->
  TrainDictFromReader BuildZstdDict sampleFn opts fuel =
    Some (train.TrainDict BuildZstdDict (map (fun k => fst (sampleFn k)) (seq 0 n)) opts) /\
  (n = 0%nat ->
   TrainDictFromReader BuildZstdDict sampleFn opts fuel =
     Some ([], Some (errors_New "no samples provided for training"))) /\
  (forall always_ok : nat -> bytes * bool,
     (forall k, snd (always_ok k) = true) ->
     forall fuel', TrainDictFromReader BuildZstdDict always_ok opts fuel' = None).
Proof.
  intros Hok Hstop Hfuel.
  assert (E : TrainDictFromReader BuildZstdDict sampleFn opts fuel =
              Some (train.TrainDict BuildZstdDict
                      (map (fun k => fst (sampleFn k)) (seq 0 n)) opts)).
  { unfold TrainDictFromReader.
    rewrite (TrainDictFromReader_loop_stops sampleFn n fuel 0 []); auto. }
  split; [exact E|]. split.
  - intros ->. rewrite E. reflexivity.
  - intros always_ok Hall fuel'. unfold TrainDictFromReader.
    rewrite TrainDictFromReader_loop_runs_on by exact Hall. reflexivity.
Qed.

Variable WalkDir_visits : string -> list visit.
Variable os_ReadFile : string -> bytes + error.

Lemma TrainDictFromFiles_walk_clean (visits : list visit) :
  forall samples,
    Forall (fun v => visit_failure os_ReadFile v = None) visits ->
    TrainDictFromFiles_walk os_ReadFile visits samples =
      (samples ++ flat_map (visit_sample os_ReadFile) visits, None).
Proof.
  induction visits as [|v rest IH]; intros samples Hclean.
  - cbn. rewrite app_nil_r. reflexivity.
  - inversion Hclean as [|? ? Hv Hrest]; subst.
    destruct v as [path err|path [|]]; cbn in Hv |- *.
    + discriminate.
    + apply IH. exact Hrest.
    + destruct (os_ReadFile path) as [data|err]; [|discriminate].
      rewrite IH by exact Hrest. rewrite <- app_assoc. reflexivity.
Qed.

Lemma TrainDictFromFiles_walk_stops (pre : list visit) :
  forall (v : visit) (post : list visit) (samples : list bytes) (err : error),
    Forall (fun v => visit_failure os_ReadFile v = None) pre ->
    visit_failure os_ReadFile v = Some err ->
    snd (TrainDictFromFiles_walk os_ReadFile (pre ++ v :: post) samples) = Some err.
Proof.
  induction pre as [|u pre IH]; intros v post samples err Hclean Hv.
  - cbn [app]. destruct v as [path e|path [|]]; cbn in Hv |- *.
    + exact Hv.
    + discriminate.
    + destruct (os_ReadFile path); [discriminate|exact Hv].
  - inversion Hclean as [|? ? Hu Hrest]; subst.
    destruct u as [path e|path [|]]; cbn in Hu |- *.
    + discriminate.
    + apply IH; assumption.
    + destruct (os_ReadFile path); [|discriminate]. apply IH; assumption.
Qed.

(** X8.  [TrainDictFromFiles] trains on the contents of the regular files
    of the walk, in walk order; directories give no sample.  The first
    error of the walk or of reading a file ends it: that error is
    returned and the trainer is not called, whatever files follow.  A
    walk that meets no regular file gives the "no samples" error. *)
Theorem TrainDictFromFiles_reads_files_or_stops
        (dir : string) (opts : option train.TrainDictOptions) :
  (Forall (fun v => visit_failure os_ReadFile v = None) (WalkDir_visits dir) ->
   TrainDictFromFiles BuildZstdDict WalkDir_visits os_ReadFile dir opts =
     train.TrainDict BuildZstdDict
       (flat_map (visit_sample os_ReadFile) (WalkDir_visits dir)) opts) /\
  (forall pre v post err,
     WalkDir_visits dir = pre ++ v :: post ->
     Forall (fun v => visit_failure os_ReadFile v = None) pre ->
     visit_failure os_ReadFile v = Some err ->
     TrainDictFromFiles BuildZstdDict WalkDir_visits os_ReadFile dir opts =
       ([], Some err)) /\
  (Forall (fun v => match v with
                    | visit_entry _ true => True
                    | _ => False
                    end) (WalkDir_visits dir) ->
   TrainDictFromFiles BuildZstdDict WalkDir_visits os_ReadFile dir opts =
     ([], Some (errors_New "no samples provided for training"))).
Proof.
  split; [|split].
  - intros Hclean. unfold TrainDictFromFiles.
    rewrite TrainDictFromFiles_walk_clean by exact Hclean. reflexivity.
  - intros pre v post err Hsplit Hclean Hv. unfold TrainDictFromFiles.
    rewrite Hsplit.
    pose proof (TrainDictFromFiles_walk_stops pre v post [] err Hclean Hv) as Hs.
    destruct (TrainDictFromFiles_walk os_ReadFile (pre ++ v :: post) [])
      as [samples e]. cbn in Hs. subst e. reflexivity.
  - intros Hdirs. unfold TrainDictFromFiles.
    rewrite TrainDictFromFiles_walk_clean.
    + replace (flat_map (visit_sample os_ReadFile) (WalkDir_visits dir)) with (@nil bytes).
      * reflexivity.
      * induction Hdirs as [|v rest Hv _ IH]; [reflexivity|].
        destruct v as [|path [|]]; try contradiction. cbn. exact IH.
    + eapply Forall_impl; [|exact Hdirs].
      intros v Hv. destruct v as [|path [|]]; try contradiction. reflexivity.
Qed.

End SourcesFacts.

(** ** cmd/analyze: the size distribution *)

Section DistributionFacts.
Context `{ZstdEngine}.
Variables eNone eDict : Encoder.

Import distribution.

Lemma in_bucket_bump (s : bytes) (b : bucket) (size : Z) :
  in_bucket (bump eNone eDict s b) size = in_bucket b size.
Proof. unfold bump. destruct (in_bucket b (GoInt.len s)); reflexivity. Qed.

Lemma add_sample_bump (s : bytes) (bs : list bucket) :
  ordered bs ->
  add_sample bs (GoInt.len s) (analyze.plainSize eNone s) (analyze.dictSize eDict s) =
  map (bump eNone eDict s) bs.
Proof.
  induction bs as [|b rest IH]; intros Hord; [reflexivity|].
  destruct Hord as [Hlater Hrest]. cbn [add_sample map].
  unfold bump at 1. destruct (in_bucket b (GoInt.len s)) eqn:Hin.
  - f_equal. clear IH Hrest.
    induction Hlater as [|b' rest' Hb' _ IH']; [reflexivity|].
    cbn [map]. rewrite <- IH'. f_equal.
    unfold bump, in_bucket in *.
    apply andb_prop in Hin. destruct Hin as [_ Hlt]. apply Z.ltb_lt in Hlt.
    destruct (Z.geb_spec (GoInt.len s) (minSize b')); [lia|reflexivity].
  - f_equal. apply IH. exact Hrest.
Qed.

Lemma ordered_bump (s : bytes) (bs : list bucket) :
  ordered bs -> ordered (map (bump eNone eDict s) bs).
Proof.
  assert (Hmin : forall b, minSize (bump eNone eDict s b) = minSize b).
  { intros b. unfold bump. destruct (in_bucket b (GoInt.len s)); reflexivity. }
  assert (Hmax : forall b, maxSize (bump eNone eDict s b) = maxSize b).
  { intros b. unfold bump. destruct (in_bucket b (GoInt.len s)); reflexivity. }
  induction bs as [|b rest IH]; intros Hord; [exact I|].
  destruct Hord as [Hlater Hrest]. cbn [map ordered]. split; [|apply IH; exact Hrest].
  rewrite Forall_map. eapply Forall_impl; [|exact Hlater].
  intros b' Hb'. cbn. rewrite Hmin, Hmax. exact Hb'.
Qed.

(** The loop treats every bucket on its own. *)
Lemma showSizeDistribution_loop_tally (samples : list bytes) :
  forall (bs : list bucket) (cN cD : zstddict.Compressor),
    zstddict.encodes_with cN eNone ->
    zstddict.encodes_with cD eDict ->
    ordered bs ->
    exists cN' cD',
      showSizeDistribution_loop samples bs cN cD =
        Done (map (tally eNone eDict samples) bs, cN', cD').
Proof.
  induction samples as [|s rest IH]; intros bs cN cD HN HD Hord.
  - exists cN, cD. cbn. rewrite map_id. reflexivity.
  - destruct (Compress__encodes cN eNone s HN) as (cN' & EN & HN').
    destruct (Compress__encodes cD eDict s HD) as (cD' & ED & HD').
    cbn [showSizeDistribution_loop]. rewrite EN. cbn [exec_bind]. rewrite ED.
    cbn [exec_bind].
    change (GoInt.len (EncodeAll eNone s [])) with (analyze.plainSize eNone s).
    change (GoInt.len (EncodeAll eDict s [])) with (analyze.dictSize eDict s).
    rewrite add_sample_bump by exact Hord.
    destruct (IH (map (bump eNone eDict s) bs) cN' cD' HN' HD'
                 (ordered_bump s bs Hord)) as (cN'' & cD'' & E).
    exists cN'', cD''. rewrite E. rewrite map_map. reflexivity.
Qed.

Lemma members_bump (s : bytes) (b : bucket) (samples : list bytes) :
  members (bump eNone eDict s b) samples = members b samples.
Proof.
  unfold members. apply filter_ext. intros a. apply in_bucket_bump.
Qed.

(** What a bucket holds after the loop, while its counters do not
    overflow. *)
Lemma tally_sums (samples : list bytes) :
  forall b : bucket,
    has_room eNone eDict samples b ->
    let b' := tally eNone eDict samples b in
    minSize b' = minSize b /\ maxSize b' = maxSize b /\
    count b' = count b + GoInt.len (members b samples) /\
    totalOrig b' = totalOrig b + analyze.sumZ (map (@GoInt.len _) (members b samples)) /\
    totalZstd b' =
      totalZstd b + analyze.sumZ (map (analyze.plainSize eNone) (members b samples)) /\
    totalDict b' =
      totalDict b + analyze.sumZ (map (analyze.dictSize eDict) (members b samples)).
Proof.
  induction samples as [|s rest IH]; intros b Hroom.
  - cbn. repeat split; lia.
  - destruct Hroom as (Hc0 & Hc & Ho0 & Ho & Hz0 & Hz & Hd0 & Hd).
    rewrite len_cons in Hc. cbn [map analyze.sumZ] in Ho, Hz, Hd.
    assert (Hl : 0 <= GoInt.len s) by apply len_nonneg.
    assert (Hp : 0 <= analyze.plainSize eNone s) by apply len_nonneg.
    assert (Hq : 0 <= analyze.dictSize eDict s) by apply len_nonneg.
    assert (Hlr : 0 <= GoInt.len rest) by apply len_nonneg.
    assert (Hsr : 0 <= analyze.sumZ (map (@GoInt.len _) rest)).
    { clear. induction rest as [|a r IHr]; cbn; [lia|].
      pose proof (len_nonneg a). lia. }
    assert (Hpr : 0 <= analyze.sumZ (map (analyze.plainSize eNone) rest)).
    { clear. induction rest as [|a r IHr]; cbn; [lia|].
      pose proof (len_nonneg (EncodeAll eNone a [])). unfold analyze.plainSize at 1. lia. }
    assert (Hqr : 0 <= analyze.sumZ (map (analyze.dictSize eDict) rest)).
    { clear. induction rest as [|a r IHr]; cbn; [lia|].
      pose proof (len_nonneg (EncodeAll eDict a [])). unfold analyze.dictSize at 1. lia. }
    cbn zeta. unfold tally. cbn [fold_left]. fold (tally eNone eDict rest (bump eNone eDict s b)).
    specialize (IH (bump eNone eDict s b)). cbn zeta in IH.
    rewrite members_bump in IH.
    assert (Hcons : members b (s :: rest) =
                    if in_bucket b (GoInt.len s) then s :: members b rest
                    else members b rest) by reflexivity.
    rewrite Hcons. clear Hcons.
    unfold bump in IH |- *.
    destruct (in_bucket b (GoInt.len s)) eqn:Hin.
    + assert (Hu : update b (GoInt.len s) (analyze.plainSize eNone s)
                          (analyze.dictSize eDict s) =
                   {| minSize := minSize b; maxSize := maxSize b;
                      count := count b + 1;
                      totalOrig := totalOrig b + GoInt.len s;
                      totalZstd := totalZstd b + analyze.plainSize eNone s;
                      totalDict := totalDict b + analyze.dictSize eDict s |}).
      { unfold update.
        rewrite !add_in_range
          by (unfold GoInt.in_range, GoInt.min_int, GoInt.max_int in *; lia).
        reflexivity. }
      rewrite Hu in IH |- *. cbn [minSize maxSize count totalOrig totalZstd totalDict] in IH.
      destruct IH as (E1 & E2 & E3 & E4 & E5 & E6).
      { unfold has_room. cbn [minSize maxSize count totalOrig totalZstd totalDict].
        repeat split; lia. }
      rewrite E1, E2, E3, E4, E5, E6. rewrite len_cons. cbn [map analyze.sumZ].
      repeat split; lia.
    + destruct IH as (E1 & E2 & E3 & E4 & E5 & E6).
      { unfold has_room. repeat split; lia. }
      rewrite E1, E2, E3, E4, E5, E6. repeat split; lia.
Qed.

Lemma members_of_buckets_partition (samples : list bytes) :
  analyze.sumZ (map (fun b => GoInt.len (members b samples)) buckets) =
  GoInt.len (filter (fun s => GoInt.len s <? 1000000) samples).
Proof.
  unfold buckets, members, in_bucket. cbn [map analyze.sumZ minSize maxSize].
  induction samples as [|s rest IH]; [reflexivity|].
  cbn [filter].
  assert (Hl : 0 <= GoInt.len s) by apply len_nonneg.
  repeat match goal with
         | |- context [?a >=? ?b] => destruct (Z.geb_spec a b); try lia
         | |- context [?a <? ?b] => destruct (Z.ltb_spec a b); try lia
         end;
    cbn [andb]; rewrite ?len_cons; lia.
Qed.

End DistributionFacts.

Section DistributionTheorem.
Context `{ZstdEngine}.
Variables eNone eDict : Encoder.

Import distribution.

(** X9.  [showSizeDistribution] counts every message of fewer than
    1,000,000 bytes in exactly the one bucket whose range holds its
    size, together with its size and the sizes of its two frames; a
    message of 1,000,000 bytes or more is counted in no bucket, so the
    bucket counts add up to the number of messages below that size.  The
    rows printed are the buckets with a non-zero count. *)
Theorem showSizeDistribution_counts
        (samples : list bytes) (cN cD : zstddict.Compressor) :
  zstddict.encodes_with cN eNone ->
  zstddict.encodes_with cD eDict ->
  GoInt.len samples <= GoInt.max_int ->
  analyze.sumZ (map (@GoInt.len _) samples) <= GoInt.max_int ->
  analyze.sumZ (map (analyze.plainSize eNone) samples) <= GoInt.max_int ->
  analyze.sumZ (map (analyze.dictSize eDict) samples) <= GoInt.max_int ->
  exists bs,
    showSizeDistribution samples cN cD =
      Done (bs, filter (fun b => negb (count b =? 0)) bs) /\
    Forall2 (fun b0 b =>
               minSize b = minSize b0 /\ maxSize b = maxSize b0 /\
               count b = GoInt.len (members b0 samples) /\
               totalOrig b = analyze.sumZ (map (@GoInt.len _) (members b0 samples)) /\
               totalZstd b =
                 analyze.sumZ (map (analyze.plainSize eNone) (members b0 samples)) /\
               totalDict b =
                 analyze.sumZ (map (analyze.dictSize eDict) (members b0 samples)))
            buckets bs /\
    analyze.sumZ (map count bs) =
      GoInt.len (filter (fun s => GoInt.len s <? 1000000) samples).
Proof.
  intros HN HD Hlen Hsize Hplain Hdict.
  assert (Hord : ordered buckets).
  { unfold buckets. cbn. repeat split; repeat constructor; cbn; lia. }
  destruct (showSizeDistribution_loop_tally eNone eDict samples buckets cN cD HN HD Hord)
    as (cN' & cD' & E).
  exists (map (tally eNone eDict samples) buckets).
  unfold showSizeDistribution. rewrite E. cbn [exec_bind].
  split; [reflexivity|].
  assert (Hall : Forall (fun b0 =>
             let b := tally eNone eDict samples b0 in
             minSize b = minSize b0 /\ maxSize b = maxSize b0 /\
             count b = GoInt.len (members b0 samples) /\
             totalOrig b = analyze.sumZ (map (@GoInt.len _) (members b0 samples)) /\
             totalZstd b =
               analyze.sumZ (map (analyze.plainSize eNone) (members b0 samples)) /\
             totalDict b =
               analyze.sumZ (map (analyze.dictSize eDict) (members b0 samples)))
          buckets).
  { assert (Hone : forall lo hi,
              let b0 := {| minSize := lo; maxSize := hi; count := 0;
                           totalOrig := 0; totalZstd := 0; totalDict := 0 |} in
              let b := tally eNone eDict samples b0 in
              minSize b = minSize b0 /\ maxSize b = maxSize b0 /\
              count b = GoInt.len (members b0 samples) /\
              totalOrig b = analyze.sumZ (map (@GoInt.len _) (members b0 samples)) /\
              totalZstd b =
                analyze.sumZ (map (analyze.plainSize eNone) (members b0 samples)) /\
              totalDict b =
                analyze.sumZ (map (analyze.dictSize eDict) (members b0 samples))).
    { intros lo hi b0 b.
      destruct (tally_sums eNone eDict samples b0) as (E1 & E2 & E3 & E4 & E5 & E6).
      - unfold has_room, b0. cbn [count totalOrig totalZstd totalDict].
        repeat split; lia.
      - fold b in E1, E2, E3, E4, E5, E6.
        unfold b0 in E3, E4, E5, E6 at 1.
        cbn [count totalOrig totalZstd totalDict] in E3, E4, E5, E6.
        repeat split; assumption. }
    unfold buckets.
    apply Forall_cons; [apply Hone|]. apply Forall_cons; [apply Hone|].
    apply Forall_cons; [apply Hone|]. apply Forall_cons; [apply Hone|].
    apply Forall_cons; [apply Hone|]. apply Forall_nil. }
  split.
  - clear E Hord. revert Hall. generalize buckets as l. intros l Hall.
    induction Hall as [|b0 rest Hb0 _ IH]; cbn [map]; constructor; assumption.
  - rewrite <- (members_of_buckets_partition samples). rewrite map_map.
    clear E Hord. revert Hall. generalize buckets as l. intros l Hall.
    induction Hall as [|b0 rest Hb0 _ IH]; [reflexivity|].
    cbn [map analyze.sumZ]. destruct Hb0 as (_ & _ & Hc & _). rewrite Hc, IH.
    reflexivity.
Qed.

End DistributionTheorem.

(** ** cmd/analyze: the reports *)

Lemma div_nonzero (a b : Z) :
  0 <= a <= GoInt.max_int -> 0 < b -> GoArith.div a b = Done (a / b).
Proof.
  intros Ha Hb. unfold GoArith.div.
  destruct (Z.eqb_spec b 0); [lia|].
  rewrite Z.quot_div_nonneg by lia.
  assert (0 <= a / b) by (apply Z.div_pos; lia).
  assert (a / b <= a) by (apply Z.div_le_upper_bound; nia).
  rewrite wrap_in_range; [reflexivity|].
  unfold GoInt.in_range, GoInt.min_int, GoInt.max_int in *. lia.
Qed.

Lemma div_by_zero (a : Z) :
  GoArith.div a 0 = Panic "runtime error: integer divide by zero".
Proof. reflexivity. Qed.

Lemma div_runs (a b : Z) : b <> 0 -> exists q, GoArith.div a b = Done q.
Proof.
  intros Hb. unfold GoArith.div. destruct (Z.eqb_spec b 0); [contradiction|].
  eexists; reflexivity.
Qed.

Section ReportFacts.
Context `{ZstdEngine}.
Variable gzip_compress : bytes -> bytes.
Variables eNone eDict : Encoder.

Import report.

Lemma main_loop_runs (samples : list bytes) :
  forall (t : analyze.totals) (cN cD : zstddict.Compressor),
    zstddict.encodes_with cN eNone ->
    zstddict.encodes_with cD eDict ->
    exists t' cN' cD',
      analyze.main_loop gzip_compress samples t cN cD = Done (t', cN', cD') /\
      zstddict.encodes_with cN' eNone /\ zstddict.encodes_with cD' eDict.
Proof.
  induction samples as [|s rest IH]; intros t cN cD HN HD.
  - exists t, cN, cD. auto.
  - destruct (Compress__encodes cN eNone s HN) as (cN' & EN & HN').
    destruct (Compress__encodes cD eDict s HD) as (cD' & ED & HD').
    cbn [analyze.main_loop]. unfold analyze.main_loop_body.
    rewrite EN. cbn [exec_bind]. rewrite ED. cbn [exec_bind].
    apply IH; assumption.
Qed.

Lemma analyzeScenario_loop_runs (samples : list bytes) :
  forall (t : analyze.scenario_totals) (cN cD : zstddict.Compressor),
    zstddict.encodes_with cN eNone ->
    zstddict.encodes_with cD eDict ->
    exists t' cN' cD',
      analyze.analyzeScenario_loop gzip_compress samples t cN cD = Done (t', cN', cD') /\
      zstddict.encodes_with cN' eNone /\ zstddict.encodes_with cD' eDict.
Proof.
  induction samples as [|s rest IH]; intros t cN cD HN HD.
  - exists t, cN, cD. auto.
  - destruct (Compress__encodes cN eNone s HN) as (cN' & EN & HN').
    destruct (Compress__encodes cD eDict s HD) as (cD' & ED & HD').
    cbn [analyze.analyzeScenario_loop]. unfold analyze.analyzeScenario_loop_body.
    rewrite EN. cbn [exec_bind]. rewrite ED. cbn [exec_bind].
    apply IH; assumption.
Qed.

(** The break-even loop runs to its end on working codecs, and what it
    returns does not depend on what their pools hold. *)
Lemma calculateBreakeven_loop_pools (dictCost : Z) (samples : list bytes) :
  forall (i cum : Z) (cN cD cN2 cD2 : zstddict.Compressor),
    zstddict.encodes_with cN eNone ->
    zstddict.encodes_with cD eDict ->
    zstddict.encodes_with cN2 eNone ->
    zstddict.encodes_with cD2 eDict ->
    exists r,
      analyze.calculateBreakeven_loop dictCost samples i cum cN cD = Done r /\
      analyze.calculateBreakeven_loop dictCost samples i cum cN2 cD2 = Done r.
Proof.
  induction samples as [|s rest IH]; intros i cum cN cD cN2 cD2 HN HD HN2 HD2.
  - eexists. split; reflexivity.
  - destruct (calculateBreakeven_body_runs eNone eDict cum cN cD s HN HD)
      as (cN' & cD' & E & HN' & HD').
    destruct (calculateBreakeven_body_runs eNone eDict cum cN2 cD2 s HN2 HD2)
      as (cN2' & cD2' & E2 & HN2' & HD2').
    cbn [analyze.calculateBreakeven_loop]. rewrite E, E2. cbn [exec_bind].
    destruct (_ >=? dictCost).
    + eexists. split; reflexivity.
    + apply IH; assumption.
Qed.

Lemma calculateBreakeven_pools (dict : bytes) (samples : list bytes)
      (cN cD cN2 cD2 : zstddict.Compressor) :
  zstddict.encodes_with cN eNone ->
  zstddict.encodes_with cD eDict ->
  zstddict.encodes_with cN2 eNone ->
  zstddict.encodes_with cD2 eDict ->
  exists r,
    analyze.calculateBreakeven dict samples cN cD = Done r /\
    analyze.calculateBreakeven dict samples cN2 cD2 = Done r.
Proof.
  intros HN HD HN2 HD2.
  destruct (calculateBreakeven_loop_pools (GoInt.len dict) samples 0 0
              cN cD cN2 cD2 HN HD HN2 HD2) as ([r cumF] & E & E2).
  exists r. unfold analyze.calculateBreakeven. rewrite E, E2. split; reflexivity.
Qed.

(** One line of the projection table. *)
Lemma project_factor (n totalZstd totalDict dictLen v : Z) :
  0 < n -> 10 * n <= GoInt.max_int -> 0 <= v <= GoInt.max_int ->
  exists p,
    project n totalZstd totalDict dictLen v = Done p /\
    1 <= factor p <= 10 /\
    (vol p = v \/ vol p = n) /\
    (v < n \/ 10 * n < v -> factor p = 1) /\
    (10 * n < v -> vol p = n) /\
    (n <= v <= 10 * n -> vol p = v /\ factor p = v / n) /\
    projected p = GoArith.mul (GoInt.sub totalZstd totalDict) (factor p) /\
    withDictCost p = GoInt.sub (projected p) dictLen.
Proof.
  intros Hn Hten Hv. unfold project.
  assert (Hmul : GoArith.mul n 10 = 10 * n).
  { unfold GoArith.mul. rewrite wrap_in_range; [lia|].
    unfold GoInt.in_range, GoInt.min_int, GoInt.max_int in *. lia. }
  rewrite Hmul.
  destruct (Z.gtb_spec v (10 * n)) as [Hbig|Hsmall].
  - rewrite div_nonzero
      by (unfold GoInt.max_int in *; lia).
    rewrite Z_div_same by lia. cbn [exec_bind].
    eexists. split; [reflexivity|].
    cbn [vol factor projected withDictCost]. change (1 =? 0) with false. cbv iota.
    repeat split; lia.
  - rewrite div_nonzero by lia. cbn [exec_bind].
    assert (Hq0 : 0 <= v / n) by (apply Z.div_pos; lia).
    assert (Hq10 : v / n <= 10) by (apply Z.div_le_upper_bound; lia).
    eexists. split; [reflexivity|].
    cbn [vol factor projected withDictCost].
    destruct (Z.eqb_spec (v / n) 0) as [Hz|Hnz].
    + assert (Hsmallv : n <= v -> False).
      { intros Hlo. assert (1 <= v / n) by (apply Z.div_le_lower_bound; lia). lia. }
      repeat split; try lia.
    + assert (Hlarge : v < n -> False).
      { intros Hlt. rewrite Z.div_small in Hnz by lia. contradiction. }
      repeat split; try lia.
Qed.

Lemma project_all_factors (n totalZstd totalDict dictLen : Z) (vs : list Z) :
  0 < n -> 10 * n <= GoInt.max_int ->
  Forall (fun v => 0 <= v <= GoInt.max_int) vs ->
  exists ps,
    project_all n totalZstd totalDict dictLen vs = Done ps /\
    Forall2 (fun v p =>
               1 <= factor p <= 10 /\
               (vol p = v \/ vol p = n) /\
               (v < n \/ 10 * n < v -> factor p = 1) /\
               (10 * n < v -> vol p = n) /\
               (n <= v <= 10 * n -> vol p = v /\ factor p = v / n) /\
               projected p = GoArith.mul (GoInt.sub totalZstd totalDict) (factor p) /\
               withDictCost p = GoInt.sub (projected p) dictLen) vs ps.
Proof.
  intros Hn Hten Hvs. induction Hvs as [|v rest Hv _ IH].
  - exists []. split; [reflexivity|constructor].
  - destruct (project_factor n totalZstd totalDict dictLen v Hn Hten Hv) as (p & E & Hp).
    destruct IH as (ps & Eps & Hps).
    exists (p :: ps). cbn [project_all]. rewrite E. cbn [exec_bind]. rewrite Eps.
    split; [reflexivity|]. constructor; assumption.
Qed.

(** X10.  [analyzeScenario] on no messages panics with a division by
    zero when it averages.  On at least one message and working codecs
    it runs to its end; the break-even figure it reports is that of
    [calculateBreakevenPoint] on the same messages, and each line of its
    projection table uses a factor between 1 and 10: the requested
    volume divided by the number of messages when the volume lies between
    one and ten times that number, and 1 otherwise (a volume above ten
    times the number of messages is printed as that number; below it, the
    savings of all the messages are printed under the smaller volume). *)
Theorem analyzeScenario_report
        (samples : list bytes) (dict : bytes) (cN cD : zstddict.Compressor) :
  zstddict.encodes_with cN eNone ->
  zstddict.encodes_with cD eDict ->
  samples <> [] ->
  10 * GoInt.len samples <= GoInt.max_int ->
  analyzeScenario gzip_compress [] dict cN cD =
    Panic "runtime error: integer divide by zero" /\
  exists r r0,
    analyzeScenario gzip_compress samples dict cN cD = Done r /\
    messages r = GoInt.len samples /\
    analyze.calculateBreakevenPoint samples dict cN cD = Done r0 /\
    breakeven r = r0 /\
    Forall2 (fun v p =>
               1 <= factor p <= 10 /\
               (vol p = v \/ vol p = GoInt.len samples) /\
               (v < GoInt.len samples \/ 10 * GoInt.len samples < v -> factor p = 1) /\
               (10 * GoInt.len samples < v -> vol p = GoInt.len samples) /\
               (GoInt.len samples <= v <= 10 * GoInt.len samples ->
                vol p = v /\ factor p = v / GoInt.len samples) /\
               projected p =
                 GoArith.mul (GoInt.sub (analyze.scenario_totalZstd (scenario_sums r))
                                        (analyze.totalDict (scenario_sums r)))
                             (factor p) /\
               withDictCost p = GoInt.sub (projected p) (GoInt.len dict))
            volumes (projections r).
Proof.
  intros HN HD Hne Hten.
  split; [reflexivity|].
  assert (Hn : 0 < GoInt.len samples).
  { destruct samples; [contradiction|]. rewrite len_cons.
    pose proof (len_nonneg samples). lia. }
  destruct (analyzeScenario_loop_runs samples
              {| analyze.totalOrig := 0; analyze.scenario_totalGzip := 0;
                 analyze.scenario_totalZstd := 0; analyze.totalDict := 0 |}
              cN cD HN HD) as (t & cN' & cD' & EL & HN' & HD').
  destruct (div_runs (analyze.totalOrig t) (GoInt.len samples)) as (avg & Eavg); [lia|].
  destruct (div_runs (GoInt.sub (analyze.scenario_totalZstd t) (analyze.totalDict t))
                     (GoInt.len samples)) as (better & Ebetter); [lia|].
  destruct (calculateBreakeven_pools dict samples cN' cD' cN cD HN' HD' HN HD)
    as (r0 & Eb' & Eb).
  destruct (project_all_factors (GoInt.len samples) (analyze.scenario_totalZstd t)
              (analyze.totalDict t) (GoInt.len dict) volumes Hn Hten)
    as (ps & Eps & Hps).
  { unfold volumes, GoInt.max_int. repeat constructor; lia. }
  eexists _, r0. unfold analyzeScenario.
  rewrite EL. cbn [exec_bind]. rewrite Eavg. cbn [exec_bind].
  rewrite Ebetter. cbn [exec_bind].
  rewrite calculateBreakevenPoint_eq, Eb'. cbn [exec_bind].
  rewrite Eps. cbn [exec_bind].
  split; [reflexivity|].
  cbn [messages breakeven projections scenario_sums].
  split; [reflexivity|]. split; [rewrite calculateBreakevenPoint_eq; exact Eb|].
  split; [reflexivity|]. exact Hps.
Qed.

End ReportFacts.

Lemma slice_from_Done (s t : GoArith.slice) (low : Z) :
  GoArith.slice_from s low = Done t ->
  0 <= low <= GoInt.len (GoArith.elems s) /\
  GoArith.elems t = skipn (Z.to_nat low) (GoArith.elems s).
Proof.
  unfold GoArith.slice_from.
  destruct (Z.ltb_spec low 0); [discriminate|].
  destruct (Z.gtb_spec low (GoInt.len (GoArith.elems s))); [discriminate|].
  cbn. intros E; inversion E; subst. cbn. split; [lia|reflexivity].
Qed.

Lemma slice_to_Done (s t : GoArith.slice) (high : Z) :
  GoArith.slice_to s high = Done t ->
  0 <= high <= GoArith.capacity s /\
  (high <= GoInt.len (GoArith.elems s) ->
   GoArith.elems t = firstn (Z.to_nat high) (GoArith.elems s)).
Proof.
  unfold GoArith.slice_to.
  destruct (Z.ltb_spec high 0); [discriminate|].
  destruct (Z.gtb_spec high (GoArith.capacity s)); [discriminate|].
  cbn. intros E; inversion E; subst. cbn. split; [lia|].
  intros Hlen. rewrite firstn_app.
  replace (Z.to_nat high - List.length (GoArith.elems s))%nat with 0%nat
    by (unfold GoInt.len in Hlen; lia).
  cbn. apply app_nil_r.
Qed.

Lemma slice_to_runs (s : GoArith.slice) (high : Z) :
  0 <= high <= GoArith.capacity s ->
  exists t, GoArith.slice_to s high = Done t /\
            GoArith.capacity t = GoArith.capacity s /\
            (high <= GoInt.len (GoArith.elems s) ->
             GoArith.elems t = firstn (Z.to_nat high) (GoArith.elems s)).
Proof.
  intros Hh. unfold GoArith.slice_to.
  destruct (Z.ltb_spec high 0); [lia|].
  destruct (Z.gtb_spec high (GoArith.capacity s)); [lia|].
  cbn. eexists. split; [reflexivity|]. cbn. split; [reflexivity|].
  intros Hlen. rewrite firstn_app.
  replace (Z.to_nat high - List.length (GoArith.elems s))%nat with 0%nat
    by (unfold GoInt.len in Hlen; lia).
  cbn. apply app_nil_r.
Qed.

Lemma div_Done (a b q : Z) : GoArith.div a b = Done q -> b <> 0.
Proof.
  unfold GoArith.div. destruct (Z.eqb_spec b 0); [discriminate|]. auto.
Qed.

Lemma len_firstn {A : Type} (n : Z) (l : list A) :
  0 <= n -> GoInt.len (firstn (Z.to_nat n) l) = Z.min n (GoInt.len l).
Proof. intros Hn. unfold GoInt.len. rewrite length_firstn. lia. Qed.

Lemma len_skipn {A : Type} (n : Z) (l : list A) :
  0 <= n <= GoInt.len l -> GoInt.len (skipn (Z.to_nat n) l) = GoInt.len l - n.
Proof. intros Hn. unfold GoInt.len in *. rewrite length_skipn. lia. Qed.

Section MainFacts.
Context `{ZstdEngine}.
Variable gzip_compress : bytes -> bytes.
Variable BuildZstdDict : list bytes -> train.dict_Options -> bytes * option error.
Variable os_ReadFile : string -> bytes + error.

Import report.

(** X11.  The guard of [main] (at least 100 samples) is not what lets it
    finish.  Whenever [main] runs to its end there were more than 200
    samples and the request count [n] was at least 1, and the messages it
    analysed are the first [n] of those after the 200 it trained on; with
    200 samples or fewer, or [n] below 1, the run ends in [os.Exit] or in
    a panic (a slice out of range, or the division by zero of the
    average). *)
Theorem main_finishes_only_beyond_200_samples
        (samples : GoArith.slice) (err : option error) (numRequests : Z)
        (r : main_report) :
  main_analysis gzip_compress BuildZstdDict os_ReadFile samples err numRequests
    = Finished _ r ->
  err = None /\
  200 < GoInt.len (GoArith.elems samples) /\
  1 <= numRequests /\
  testSamples r = firstn (Z.to_nat numRequests) (skipn 200 (GoArith.elems samples)) /\
  GoInt.len (testSamples r) =
    Z.min numRequests (GoInt.len (GoArith.elems samples) - 200).
Proof.
  unfold main_analysis. intros E.
  destruct err as [e|]; [discriminate|].
  destruct (GoInt.len (GoArith.elems samples) <? 100); [discriminate|].
  destruct (GoArith.slice_to samples 200) as [training|msg] eqn:Etr; [|discriminate].
  cbn [run] in E.
  destruct (train.TrainDict _ _ _) as [dict [e|]]; [discriminate|].
  cbn [zstddict.New zstddict.apply_Options zstddict.apply_Option zstddict.dict] in E.
  destruct (GoArith.slice_from samples 200) as [test|msg] eqn:Etest; [|discriminate].
  cbn [run] in E.
  apply slice_from_Done in Etest. destruct Etest as [Hlow Htest].
  change (Z.to_nat 200) with 200%nat in Htest.
  assert (Hlt : GoInt.len (GoArith.elems test) =
                GoInt.len (GoArith.elems samples) - 200).
  { rewrite Htest. apply (len_skipn 200). exact Hlow. }
  destruct (Z.gtb_spec (GoInt.len (GoArith.elems test)) numRequests) as [Hcut|Hall].
  - destruct (GoArith.slice_to test numRequests) as [test'|msg] eqn:Ecut; [|discriminate].
    cbn [run] in E.
    apply slice_to_Done in Ecut. destruct Ecut as [Hn Hcutelems].
    specialize (Hcutelems ltac:(lia)).
    destruct (analyze.main_loop _ _ _ _ _) as [[[t cN'] cD']|msg]; [|discriminate].
    cbn [run] in E.
    destruct (GoArith.div (analyze.totalUncompressed t) _) as [avg|msg] eqn:Ediv;
      [|discriminate].
    apply div_Done in Ediv. cbn [run] in E.
    destruct (analyze.calculateBreakeven _ _ _ _) as [b|msg]; [|discriminate].
    cbn [run] in E.
    destruct (GoArith.div (GoInt.sub _ _) _) as [sv|msg]; [|discriminate].
    cbn [run] in E.
    destruct (GoArith.div (analyze.totalGzip t) _) as [g|msg]; [|discriminate].
    cbn [run] in E.
    destruct (distribution.showSizeDistribution _ _ _) as [[bs rows]|msg]; [|discriminate].
    cbn [run] in E. inversion E; subst r; clear E. cbn [testSamples].
    rewrite Hcutelems, Htest in *.
    rewrite len_firstn in * by lia.
    rewrite (len_skipn 200) in * by exact Hlow.
    repeat split; try lia.
  - cbn [run] in E.
    destruct (analyze.main_loop _ _ _ _ _) as [[[t cN'] cD']|msg]; [|discriminate].
    cbn [run] in E.
    destruct (GoArith.div (analyze.totalUncompressed t) _) as [avg|msg] eqn:Ediv;
      [|discriminate].
    apply div_Done in Ediv. cbn [run] in E.
    destruct (analyze.calculateBreakeven _ _ _ _) as [b|msg]; [|discriminate].
    cbn [run] in E.
    destruct (GoArith.div (GoInt.sub _ _) _) as [sv|msg]; [|discriminate].
    cbn [run] in E.
    destruct (GoArith.div (analyze.totalGzip t) _) as [g|msg]; [|discriminate].
    cbn [run] in E.
    destruct (distribution.showSizeDistribution _ _ _) as [[bs rows]|msg]; [|discriminate].
    cbn [run] in E. inversion E; subst r; clear E. cbn [testSamples].
    assert (Hfirst : firstn (Z.to_nat numRequests) (GoArith.elems test) =
                     GoArith.elems test).
    { apply firstn_all2. unfold GoInt.len in *. lia. }
    rewrite <- Htest, Hfirst.
    repeat split; try lia.
Qed.

End MainFacts.

Section MainRuns.
Context `{ZstdEngine}.
Variable gzip_compress : bytes -> bytes.
Variable BuildZstdDict : list bytes -> train.dict_Options -> bytes * option error.
Variable os_ReadFile : string -> bytes + error.
Variables eNone eDict : Encoder.

Import report.

Lemma showSizeDistribution_runs (samples : list bytes) (cN cD : zstddict.Compressor) :
  zstddict.encodes_with cN eNone ->
  zstddict.encodes_with cD eDict ->
  exists res, distribution.showSizeDistribution samples cN cD = Done res.
Proof.
  intros HN HD.
  assert (Hord : distribution.ordered distribution.buckets).
  { unfold distribution.buckets. cbn. repeat split; repeat constructor; cbn; lia. }
  destruct (showSizeDistribution_loop_tally eNone eDict samples distribution.buckets
              cN cD HN HD Hord) as (cN' & cD' & E).
  unfold distribution.showSizeDistribution. rewrite E. cbn. eexists; reflexivity.
Qed.

(** X12.  With more than 200 samples, a request count of at least 1, a
    trainer that returns a dictionary for the first 200 samples and an
    engine that builds encoders without and with that dictionary, [main]
    runs to its end: it trains on exactly the first 200 samples, analyses
    the first [n] of the remaining ones, and the break-even figure it
    prints is that of [calculateBreakeven] on those messages. *)
Theorem main_finishes_with_enough_samples
        (samples : GoArith.slice) (numRequests : Z) (dict : bytes) :
  200 < GoInt.len (GoArith.elems samples) ->
  GoInt.len (GoArith.elems samples) <= GoArith.capacity samples ->
  1 <= numRequests ->
  train.TrainDict BuildZstdDict (firstn 200 (GoArith.elems samples))
    (Some {| train.MaxDictSize := 16 * 1024; train.ID := 0; train.Level := 0 |})
    = (dict, None) ->
  dict <> [] ->
  zstd_NewWriter None [] = inl eNone ->
  zstd_NewWriter None [WithEncoderDict dict] = inl eDict ->
  exists r b,
    main_analysis gzip_compress BuildZstdDict os_ReadFile samples None numRequests
      = Finished _ r /\
    trainedOn r = firstn 200 (GoArith.elems samples) /\
    dictionary r = dict /\
    testSamples r = firstn (Z.to_nat numRequests) (skipn 200 (GoArith.elems samples)) /\
    analyze.calculateBreakeven dict (testSamples r)
      {| zstddict.dict := None; zstddict.encoderPool := []; zstddict.decoderPool := [] |}
      {| zstddict.dict := Some dict; zstddict.encoderPool := [];
         zstddict.decoderPool := [] |} = Done b /\
    main_breakeven r = b.
Proof.
  intros Hlen Hcap Hn Htrain Hdict HeN HeD.
  set (cN0 := {| zstddict.dict := None; zstddict.encoderPool := [];
                 zstddict.decoderPool := [] |}).
  set (cD0 := {| zstddict.dict := Some dict; zstddict.encoderPool := [];
                 zstddict.decoderPool := [] |}).
  assert (HN : zstddict.encodes_with cN0 eNone).
  { split; [split; constructor|exact HeN]. }
  assert (HD : zstddict.encodes_with cD0 eDict).
  { split; [split; constructor|exact HeD]. }
  unfold main_analysis.
  destruct (Z.ltb_spec (GoInt.len (GoArith.elems samples)) 100); [lia|].
  destruct (slice_to_runs samples 200) as (training & Etr & _ & Htr); [lia|].
  specialize (Htr ltac:(lia)). change (Z.to_nat 200) with 200%nat in Htr.
  rewrite Etr. cbn [run]. rewrite Htr, Htrain.
  assert (Has : as_dict dict = Some dict) by (destruct dict; [contradiction|reflexivity]).
  rewrite Has.
  cbn [zstddict.New zstddict.apply_Options zstddict.apply_Option zstddict.dict].
  fold cN0. fold cD0.
  unfold GoArith.slice_from.
  destruct (Z.ltb_spec 200 0); [lia|].
  destruct (Z.gtb_spec 200 (GoInt.len (GoArith.elems samples))); [lia|].
  cbn [orb run GoArith.elems GoArith.capacity].
  change (Z.to_nat 200) with 200%nat.
  set (rest := skipn 200 (GoArith.elems samples)).
  assert (Hrest : GoInt.len rest = GoInt.len (GoArith.elems samples) - 200).
  { apply (len_skipn 200). lia. }
  assert (Hcut : exists test,
            (if GoInt.len rest >? numRequests
             then GoArith.slice_to {| GoArith.elems := rest;
                                      GoArith.capacity := GoArith.capacity samples - 200 |}
                                   numRequests
             else Done {| GoArith.elems := rest;
                          GoArith.capacity := GoArith.capacity samples - 200 |})
            = Done test /\
            GoArith.elems test = firstn (Z.to_nat numRequests) rest /\
            GoArith.elems test <> []).
  { destruct (Z.gtb_spec (GoInt.len rest) numRequests) as [Hgt|Hle].
    - destruct (slice_to_runs {| GoArith.elems := rest;
                                 GoArith.capacity := GoArith.capacity samples - 200 |}
                              numRequests) as (test & Et & _ & Hel).
      { cbn [GoArith.capacity]. lia. }
      cbn [GoArith.elems] in Hel. specialize (Hel ltac:(lia)).
      exists test. split; [exact Et|]. split; [exact Hel|].
      intros Hnil. apply (f_equal (@GoInt.len _)) in Hnil. rewrite Hel in Hnil.
      rewrite len_firstn in Hnil by lia.
      change (GoInt.len (@nil bytes)) with 0 in Hnil. lia.
    - eexists. split; [reflexivity|]. cbn [GoArith.elems]. split.
      + symmetry. apply firstn_all2. unfold GoInt.len in *. lia.
      + intros Hnil. rewrite Hnil in Hrest.
        change (GoInt.len (@nil bytes)) with 0 in Hrest. lia. }
  destruct Hcut as (test & Ecut & Hel & Hne). rewrite Ecut. cbn [run].
  destruct (main_loop_runs gzip_compress eNone eDict (GoArith.elems test)
              {| analyze.totalUncompressed := 0; analyze.totalGzip := 0;
                 analyze.totalZstd := 0; analyze.totalZstdDict := 0 |}
              cN0 cD0 HN HD) as (t & cN' & cD' & EL & HN' & HD').
  rewrite EL. cbn [run].
  assert (Hpos : GoInt.len (GoArith.elems test) <> 0).
  { destruct (GoArith.elems test); [contradiction|]. rewrite len_cons.
    pose proof (len_nonneg l). lia. }
  destruct (div_runs (analyze.totalUncompressed t) _ Hpos) as (avg & Eavg).
  rewrite Eavg. cbn [run].
  destruct (calculateBreakeven_pools eNone eDict dict (GoArith.elems test)
              cN' cD' cN0 cD0 HN' HD' HN HD) as (b & Eb' & Eb).
  rewrite Eb'. cbn [run].
  destruct (div_runs (GoInt.sub (analyze.totalGzip t) (analyze.totalZstdDict t)) _ Hpos)
    as (sv & Esv).
  rewrite Esv. cbn [run].
  destruct (div_runs (analyze.totalGzip t) _ Hpos) as (g & Eg).
  rewrite Eg. cbn [run].
  destruct (showSizeDistribution_runs (GoArith.elems test) cN' cD' HN' HD')
    as ([bs rows] & Es).
  rewrite Es. cbn [run].
  eexists _, b. split; [reflexivity|].
  cbn [trainedOn dictionary testSamples main_breakeven].
  rewrite Hel. rewrite Hel in Eb. repeat split; try reflexivity. exact Eb.
Qed.

End MainRuns.

(** ** server: the sample generators *)

Lemma len_app_one {A : Type} (l : list A) (x : A) : GoInt.len (l ++ [x]) = GoInt.len l + 1.
Proof. unfold GoInt.len. rewrite length_app. cbn. lia. Qed.

Section ServerFacts.
Variable filepath_Abs : string -> string + error.
Variable filepath_Rel : string -> string -> string + error.
Variable WalkDir_visits : string -> list server.visit.
Variable proto_Marshal_FileInfo : server.FileInfo -> bytes + error.
Variable proto_Marshal_Response : server.ListFilesResponse -> bytes + error.

Import server.

Lemma GenerateSamples_fn_bound (absDir : string) (maxSamples : Z) (v : visit)
      (samples : list bytes) :
  GoInt.len samples <= Z.max 0 maxSamples ->
  GoInt.len (snd (GenerateSamples_fn filepath_Rel proto_Marshal_FileInfo
                    absDir maxSamples v samples)) <= Z.max 0 maxSamples.
Proof.
  intros Hb. unfold GenerateSamples_fn.
  destruct v as [path err|path d]; [exact Hb|].
  destruct (Z.geb_spec (GoInt.len samples) maxSamples) as [Hfull|Hroom]; [exact Hb|].
  destruct (filepath_Rel absDir path) as [relPath|e]; [|exact Hb].
  destruct (String.eqb relPath "."); [exact Hb|].
  destruct (d_Info d) as [info|e]; [|exact Hb].
  destruct (marshalFileInfo _ _) as [data|e]; [|exact Hb].
  cbn [snd]. rewrite len_app_one. lia.
Qed.

Lemma GenerateSamples_walk_bound (absDir : string) (maxSamples : Z) (visits : list visit) :
  forall samples,
    GoInt.len samples <= Z.max 0 maxSamples ->
    GoInt.len (GenerateSamples_walk filepath_Rel proto_Marshal_FileInfo
                 absDir maxSamples visits samples) <= Z.max 0 maxSamples.
Proof.
  induction visits as [|v rest IH]; intros samples Hb; [exact Hb|].
  cbn [GenerateSamples_walk].
  pose proof (GenerateSamples_fn_bound absDir maxSamples v samples Hb) as Hfn.
  destruct (GenerateSamples_fn _ _ _ _ _ _) as [[|] samples']; cbn [snd] in Hfn.
  - apply IH. exact Hfn.
  - exact Hfn.
Qed.

(** X13.  [GenerateSamples] never returns more than [maxSamples] samples
    (none when [maxSamples] is not positive), however many directories
    and files it walks, and it never returns an error: directories that
    cannot be resolved and files that cannot be read or encoded are
    passed over. *)
Theorem GenerateSamples_at_most_maxSamples (dirs : list string) (maxSamples : Z) :
  let '(samples, err) :=
    GenerateSamples filepath_Abs filepath_Rel WalkDir_visits proto_Marshal_FileInfo
                    dirs maxSamples in
  GoInt.len samples <= Z.max 0 maxSamples /\
  (maxSamples <= 0 -> samples = []) /\
  err = None.
Proof.
  unfold GenerateSamples.
  assert (Hb : forall dirs samples,
             GoInt.len samples <= Z.max 0 maxSamples ->
             GoInt.len (GenerateSamples_dirs filepath_Abs filepath_Rel WalkDir_visits
                          proto_Marshal_FileInfo dirs maxSamples samples)
             <= Z.max 0 maxSamples).
  { clear dirs. induction dirs as [|dir rest IH]; intros samples Hs; [exact Hs|].
    cbn [GenerateSamples_dirs].
    destruct (filepath_Abs dir) as [absDir|e]; [|apply IH; exact Hs].
    apply IH. apply GenerateSamples_walk_bound. exact Hs. }
  specialize (Hb dirs []). cbn beta in Hb.
  assert (H0 : GoInt.len (@nil bytes) <= Z.max 0 maxSamples)
    by (change (GoInt.len (@nil bytes)) with 0; lia).
  specialize (Hb H0).
  split; [exact Hb|]. split; [|reflexivity].
  intros Hneg.
  destruct (GenerateSamples_dirs _ _ _ _ _ _ _) as [|s l]; [reflexivity|].
  rewrite len_cons in Hb. pose proof (len_nonneg l). lia.
Qed.

Lemma GenerateResponseSamples_fn_keeps (absDir : string) (filesPerSample maxSamples : Z)
      (v : visit) (files : list FileInfo) (samples : list bytes) :
  GoInt.len files < Z.max 1 filesPerSample ->
  GoInt.len samples < maxSamples ->
  Forall (response_sample proto_Marshal_Response filesPerSample) samples ->
  match GenerateResponseSamples_fn filepath_Rel proto_Marshal_Response
          absDir filesPerSample maxSamples v files samples with
  | (a, files', samples') =>
      Forall (response_sample proto_Marshal_Response filesPerSample) samples' /\
      GoInt.len files' < Z.max 1 filesPerSample /\
      GoInt.len samples' <= maxSamples /\
      (a = Continue -> GoInt.len samples' < maxSamples)
  end.
Proof.
  intros Hf Hs HP. unfold GenerateResponseSamples_fn.
  assert (Hkeep : Forall (response_sample proto_Marshal_Response filesPerSample) samples /\
                  GoInt.len files < Z.max 1 filesPerSample /\
                  GoInt.len samples <= maxSamples /\
                  (Continue = Continue -> GoInt.len samples < maxSamples))
    by (repeat split; auto; lia).
  destruct v as [path err|path d]; [exact Hkeep|].
  destruct (filepath_Rel absDir path) as [relPath|e]; [|exact Hkeep].
  destruct (String.eqb relPath "."); [exact Hkeep|].
  destruct (d_Info d) as [info|e]; [|exact Hkeep].
  pose proof (len_nonneg files) as Hf0.
  pose proof (len_app_one files (file_info relPath d info)) as Hlen1.
  destruct (Z.geb_spec (GoInt.len (files ++ [file_info relPath d info])) filesPerSample)
    as [Hflush|Hkeepfiles].
  - destruct (proto_Marshal_Response (response absDir _)) as [data|e] eqn:Em.
    + assert (HP' : Forall (response_sample proto_Marshal_Response filesPerSample)
                           (samples ++ [data])).
      { apply Forall_app. split; [exact HP|]. constructor; [|constructor].
        exists absDir, (files ++ [file_info relPath d info]).
        split; [exact Em|]. split; [lia|reflexivity]. }
      rewrite len_app_one.
      destruct (Z.geb_spec (GoInt.len samples + 1) maxSamples);
        rewrite ?(len_app_one samples);
        (split; [exact HP'|]);
        (split; [change (GoInt.len (@nil FileInfo)) with 0; lia|]); (split; [lia|]);
        intros E; try discriminate; lia.
    + destruct (Z.geb_spec (GoInt.len samples) maxSamples);
        (split; [exact HP|]);
        (split; [change (GoInt.len (@nil FileInfo)) with 0; lia|]); (split; [lia|]);
        intros E; try discriminate; lia.
  - destruct (Z.geb_spec (GoInt.len samples) maxSamples);
      (split; [exact HP|]); (split; [lia|]); (split; [lia|]);
      intros E; try discriminate; lia.
Qed.

Lemma GenerateResponseSamples_walk_keeps (absDir : string) (filesPerSample maxSamples : Z)
      (visits : list visit) :
  forall (files : list FileInfo) (samples : list bytes),
    GoInt.len files < Z.max 1 filesPerSample ->
    GoInt.len samples < maxSamples ->
    Forall (response_sample proto_Marshal_Response filesPerSample) samples ->
    match GenerateResponseSamples_walk filepath_Rel proto_Marshal_Response
            absDir filesPerSample maxSamples visits files samples with
    | (files', samples') =>
        Forall (response_sample proto_Marshal_Response filesPerSample) samples' /\
        GoInt.len files' < Z.max 1 filesPerSample /\
        GoInt.len samples' <= maxSamples
    end.
Proof.
  induction visits as [|v rest IH]; intros files samples Hf Hs HP.
  - cbn. repeat split; auto; lia.
  - cbn [GenerateResponseSamples_walk].
    pose proof (GenerateResponseSamples_fn_keeps absDir filesPerSample maxSamples
                  v files samples Hf Hs HP) as Hfn.
    destruct (GenerateResponseSamples_fn _ _ _ _ _ _ _ _) as [[a files'] samples'].
    destruct Hfn as (HP' & Hf' & Hs' & Hcont).
    destruct a.
    + apply IH; auto.
    + repeat split; assumption.
Qed.

Lemma GenerateResponseSamples_dirs_keeps (filesPerSample maxSamples : Z) :
  forall (dirs : list string) (samples : list bytes),
    GoInt.len samples <= Z.max 0 maxSamples ->
    Forall (response_sample proto_Marshal_Response filesPerSample) samples ->
    let out := GenerateResponseSamples_dirs filepath_Abs filepath_Rel
                 WalkDir_visits proto_Marshal_Response
                 dirs filesPerSample maxSamples samples in
    GoInt.len out <= Z.max 0 maxSamples /\
    Forall (response_sample proto_Marshal_Response filesPerSample) out.
Proof.
  induction dirs as [|dir rest IH]; intros samples Hs HP.
  - cbn. split; assumption.
  - cbn [GenerateResponseSamples_dirs].
    destruct (Z.geb_spec (GoInt.len samples) maxSamples) as [Hfull|Hroom].
    + cbn zeta. split; assumption.
    + destruct (filepath_Abs dir) as [absDir|e]; [|apply IH; assumption].
      pose proof (GenerateResponseSamples_walk_keeps absDir filesPerSample maxSamples
                    (WalkDir_visits absDir) [] samples) as Hw.
      destruct (GenerateResponseSamples_walk _ _ _ _ _ _ _ _) as [files samples'].
      destruct Hw as (HP' & Hf' & Hs');
        [change (GoInt.len (@nil FileInfo)) with 0; lia|exact Hroom|exact HP|].
      apply IH.
      * destruct (Z.gtb_spec (GoInt.len files) 0) as [Hsome|Hnone]; cbn [andb]; [|lia].
        destruct (Z.ltb_spec (GoInt.len samples') maxSamples) as [Hlt|Hge]; [|lia].
        destruct (proto_Marshal_Response _); [rewrite len_app_one|]; lia.
      * destruct (Z.gtb_spec (GoInt.len files) 0) as [Hsome|Hnone]; cbn [andb];
          [|exact HP'].
        destruct (Z.ltb_spec (GoInt.len samples') maxSamples) as [Hlt|Hge];
          [|exact HP'].
        destruct (proto_Marshal_Response (response absDir files)) as [data|e] eqn:Em;
          [|exact HP'].
        apply Forall_app. split; [exact HP'|]. constructor; [|constructor].
        exists absDir, files. split; [exact Em|]. split; [lia|reflexivity].
Qed.

(** X14.  [GenerateResponseSamples] never returns more than [maxSamples]
    samples and never an error.  Every sample it returns is the wire form
    of a response that holds at least one file and at most
    [max(1, filesPerSample)] files, with [TotalCount] set to their
    number; files whose response cannot be encoded are dropped with
    it. *)
Theorem GenerateResponseSamples_groups_files
        (dirs : list string) (filesPerSample maxSamples : Z) :
  let '(samples, err) :=
    GenerateResponseSamples filepath_Abs filepath_Rel WalkDir_visits
                            proto_Marshal_Response dirs filesPerSample maxSamples in
  GoInt.len samples <= Z.max 0 maxSamples /\
  Forall (response_sample proto_Marshal_Response filesPerSample) samples /\
  err = None.
Proof.
  unfold GenerateResponseSamples.
  destruct (GenerateResponseSamples_dirs_keeps filesPerSample maxSamples dirs [])
    as [Hlen HP]; [change (GoInt.len (@nil bytes)) with 0; lia|constructor|].
  split; [exact Hlen|]. split; [exact HP|reflexivity].
Qed.

Section TrainingFacts.
Variable os_Stat : string -> bool + error.

(** X16.  [TrainFromDirectory] fails with the error of [os.Stat] when the
    root cannot be examined and with [os.ErrInvalid] when it is not a
    directory, returning no samples; for a directory it never fails, and
    it returns at most 200 samples, each the wire form of a response
    holding between 1 and 50 files. *)
Theorem TrainFromDirectory_samples (root : string) :
  let '(samples, err) :=
    server_training.TrainFromDirectory os_Stat filepath_Abs filepath_Rel WalkDir_visits
      proto_Marshal_Response root in
  (forall e, os_Stat root = inr e -> samples = [] /\ err = Some e) /\
  (os_Stat root = inl false ->
   samples = [] /\ err = Some server_training.os_ErrInvalid) /\
  (os_Stat root = inl true -> err = None) /\
  GoInt.len samples <= 200 /\
  Forall (fun sample =>
            exists absDir files,
              proto_Marshal_Response (response absDir files) = inl sample /\
              1 <= GoInt.len files <= 50 /\
              TotalCount (response absDir files) = GoInt.len files) samples.
Proof.
  unfold server_training.TrainFromDirectory.
  destruct (os_Stat root) as [[|]|e].
  - unfold GenerateResponseSamples.
    destruct (GenerateResponseSamples_dirs_keeps 50 200 [root] [])
      as [Hlen HP]; [change (GoInt.len (@nil bytes)) with 0; lia|constructor|].
    split; [intros e He; discriminate He|].
    split; [intros He; discriminate He|].
    split; [reflexivity|].
    split; [lia|].
    eapply Forall_impl; [|exact HP].
    intros sample (absDir & files & Em & Hn & Ht).
    exists absDir, files. split; [exact Em|]. split; [lia|exact Ht].
  - split; [intros e He; discriminate He|].
    split; [intros _; split; reflexivity|].
    split; [intros He; discriminate He|].
    split; [change (GoInt.len (@nil bytes)) with 0; lia|constructor].
  - split; [intros e' He; inversion He; subst; split; reflexivity|].
    split; [intros He; discriminate He|].
    split; [intros He; discriminate He|].
    split; [change (GoInt.len (@nil bytes)) with 0; lia|constructor].
Qed.

End TrainingFacts.

End ServerFacts.

(** ** cmd/analyze: the totals and the break-even point together *)

Section TotalsFacts.
Context `{ZstdEngine}.
Variable gzip_compress : bytes -> bytes.
Variables eNone eDict : Encoder.

Lemma sumZ_len_nonneg {A : Type} (f : A -> bytes) (l : list A) :
  0 <= analyze.sumZ (map (fun a => GoInt.len (f a)) l).
Proof.
  induction l as [|a l IH]; cbn; [lia|]. pose proof (len_nonneg (f a)). lia.
Qed.

(** The totals of [main]'s loop are sums of sizes, while they fit. *)
Lemma main_loop_sums (samples : list bytes) :
  forall (t : analyze.totals) (cN cD : zstddict.Compressor),
    zstddict.encodes_with cN eNone ->
    zstddict.encodes_with cD eDict ->
    0 <= analyze.totalUncompressed t ->
    analyze.totalUncompressed t +
      analyze.sumZ (map (fun s : bytes => GoInt.len s) samples) <= GoInt.max_int ->
    0 <= analyze.totalGzip t ->
    analyze.totalGzip t +
      analyze.sumZ (map (fun s => GoInt.len (gzip_compress s)) samples) <= GoInt.max_int ->
    0 <= analyze.totalZstd t ->
    analyze.totalZstd t +
      analyze.sumZ (map (analyze.plainSize eNone) samples) <= GoInt.max_int ->
    0 <= analyze.totalZstdDict t ->
    analyze.totalZstdDict t +
      analyze.sumZ (map (analyze.dictSize eDict) samples) <= GoInt.max_int ->
    exists t' cN' cD',
      analyze.main_loop gzip_compress samples t cN cD = Done (t', cN', cD') /\
      analyze.totalUncompressed t' =
        analyze.totalUncompressed t + analyze.sumZ (map (fun s : bytes => GoInt.len s) samples) /\
      analyze.totalGzip t' =
        analyze.totalGzip t +
        analyze.sumZ (map (fun s => GoInt.len (gzip_compress s)) samples) /\
      analyze.totalZstd t' =
        analyze.totalZstd t + analyze.sumZ (map (analyze.plainSize eNone) samples) /\
      analyze.totalZstdDict t' =
        analyze.totalZstdDict t + analyze.sumZ (map (analyze.dictSize eDict) samples).
Proof.
  induction samples as [|s rest IH]; intros t cN cD HN HD Hu0 Hu Hg0 Hg Hz0 Hz Hd0 Hd.
  - exists t, cN, cD. cbn. repeat split; lia.
  - cbn [map analyze.sumZ] in Hu, Hg, Hz, Hd.
    pose proof (len_nonneg s) as Hs.
    pose proof (len_nonneg (gzip_compress s)) as Hgs.
    pose proof (len_nonneg (EncodeAll eNone s [])) as Hps.
    pose proof (len_nonneg (EncodeAll eDict s [])) as Hds.
    assert (Hr1 : 0 <= analyze.sumZ (map (fun s : bytes => GoInt.len s) rest))
      by apply (sumZ_len_nonneg (fun s : bytes => s)).
    pose proof (sumZ_len_nonneg gzip_compress rest) as Hr2.
    pose proof (sumZ_len_nonneg (fun s => EncodeAll eNone s []) rest) as Hr3.
    pose proof (sumZ_len_nonneg (fun s => EncodeAll eDict s []) rest) as Hr4.
    unfold analyze.plainSize, analyze.dictSize in *.
    destruct (Compress__encodes cN eNone s HN) as (cN' & EN & HN').
    destruct (Compress__encodes cD eDict s HD) as (cD' & ED & HD').
    cbn [analyze.main_loop]. unfold analyze.main_loop_body.
    rewrite EN. cbn [exec_bind]. rewrite ED. cbn [exec_bind].
    rewrite !add_in_range
      by (unfold GoInt.in_range, GoInt.min_int, GoInt.max_int in *; lia).
    destruct (IH {| analyze.totalUncompressed := analyze.totalUncompressed t + GoInt.len s;
                    analyze.totalGzip := analyze.totalGzip t + GoInt.len (gzip_compress s);
                    analyze.totalZstd :=
                      analyze.totalZstd t + GoInt.len (EncodeAll eNone s []);
                    analyze.totalZstdDict :=
                      analyze.totalZstdDict t + GoInt.len (EncodeAll eDict s []) |}
                 cN' cD' HN' HD')
      as (t' & cN'' & cD'' & E & E1 & E2 & E3 & E4);
      cbn [analyze.totalUncompressed analyze.totalGzip analyze.totalZstd
           analyze.totalZstdDict]; try lia.
    exists t', cN'', cD''. split; [exact E|].
    cbn [analyze.totalUncompressed analyze.totalGzip analyze.totalZstd
         analyze.totalZstdDict] in E1, E2, E3, E4.
    cbn [map analyze.sumZ]. repeat split; lia.
Qed.

Lemma cumulativeSavings_all (samples : list bytes) :
  analyze.cumulativeSavings eNone eDict samples (List.length samples) =
  analyze.sumZ (map (analyze.plainSize eNone) samples) -
  analyze.sumZ (map (analyze.dictSize eDict) samples).
Proof.
  unfold analyze.cumulativeSavings. rewrite firstn_all.
  induction samples as [|s rest IH]; cbn [map analyze.sumZ]; [reflexivity|].
  rewrite IH. unfold analyze.savings_of. lia.
Qed.

(** X15.  The figures of [main] agree with one another.  After the loop
    the four totals are the sums of the message sizes and of the sizes
    of their gzip, plain and dictionary frames; the plain total minus
    the dictionary total is the cumulative savings of all the messages;
    and when that difference reaches the dictionary's size on at least
    one message, [calculateBreakeven] reports a message count, not -1. *)
Theorem main_totals_agree_with_breakeven
        (dict : bytes) (samples : list bytes) (cN cD : zstddict.Compressor) :
  zstddict.encodes_with cN eNone ->
  zstddict.encodes_with cD eDict ->
  analyze.fits_int eNone eDict samples ->
  analyze.sumZ (map (fun s : bytes => GoInt.len s) samples) <= GoInt.max_int ->
  analyze.sumZ (map (fun s => GoInt.len (gzip_compress s)) samples) <= GoInt.max_int ->
  exists t cN' cD' r,
    analyze.main_loop gzip_compress samples
      {| analyze.totalUncompressed := 0; analyze.totalGzip := 0;
         analyze.totalZstd := 0; analyze.totalZstdDict := 0 |} cN cD
      = Done (t, cN', cD') /\
    analyze.totalUncompressed t = analyze.sumZ (map (fun s : bytes => GoInt.len s) samples) /\
    analyze.totalGzip t =
      analyze.sumZ (map (fun s => GoInt.len (gzip_compress s)) samples) /\
    analyze.totalZstd t = analyze.sumZ (map (analyze.plainSize eNone) samples) /\
    analyze.totalZstdDict t = analyze.sumZ (map (analyze.dictSize eDict) samples) /\
    analyze.totalZstd t - analyze.totalZstdDict t =
      analyze.cumulativeSavings eNone eDict samples (List.length samples) /\
    analyze.calculateBreakeven dict samples cN' cD' = Done r /\
    (samples <> [] ->
     GoInt.len dict <= analyze.totalZstd t - analyze.totalZstdDict t ->
     1 <= r <= GoInt.len samples).
Proof.
  intros HN HD Hfit Hu Hg.
  pose proof Hfit as [Hlen Hcost].
  assert (Hp0 : 0 <= analyze.sumZ (map (analyze.plainSize eNone) samples))
    by apply (sumZ_len_nonneg (fun s => EncodeAll eNone s [])).
  assert (Hd0 : 0 <= analyze.sumZ (map (analyze.dictSize eDict) samples))
    by apply (sumZ_len_nonneg (fun s => EncodeAll eDict s [])).
  assert (Hsplit : analyze.sumZ (map (analyze.frames_size eNone eDict) samples) =
                   analyze.sumZ (map (analyze.plainSize eNone) samples) +
                   analyze.sumZ (map (analyze.dictSize eDict) samples)).
  { clear. induction samples as [|s rest IH]; cbn [map analyze.sumZ]; [reflexivity|].
    rewrite IH. unfold analyze.frames_size. lia. }
  destruct (main_loop_sums samples
              {| analyze.totalUncompressed := 0; analyze.totalGzip := 0;
                 analyze.totalZstd := 0; analyze.totalZstdDict := 0 |} cN cD HN HD)
    as (t & cN' & cD' & E & E1 & E2 & E3 & E4);
    cbn [analyze.totalUncompressed analyze.totalGzip analyze.totalZstd
         analyze.totalZstdDict]; try lia.
  cbn [analyze.totalUncompressed analyze.totalGzip analyze.totalZstd
       analyze.totalZstdDict] in E1, E2, E3, E4.
  assert (HN' : zstddict.encodes_with cN' eNone /\ zstddict.encodes_with cD' eDict).
  { destruct (main_loop_runs gzip_compress eNone eDict samples
                {| analyze.totalUncompressed := 0; analyze.totalGzip := 0;
                   analyze.totalZstd := 0; analyze.totalZstdDict := 0 |} cN cD HN HD)
      as (t2 & cN2 & cD2 & E' & H1 & H2).
    rewrite E in E'. inversion E'; subst. split; assumption. }
  destruct HN' as [HN' HD'].
  destruct (calculateBreakeven_loop_spec eNone eDict (GoInt.len dict) samples 0 0
              cN' cD' HN' HD') as (r & cumF & EL & Hr); [lia|lia|lia|].
  exists t, cN', cD', r. split; [exact E|].
  split; [lia|]. split; [lia|]. split; [lia|]. split; [lia|].
  split; [rewrite cumulativeSavings_all; lia|].
  unfold analyze.calculateBreakeven. rewrite EL. cbn [exec_bind].
  split; [reflexivity|].
  intros Hne Hpaid.
  destruct Hr as [(Hr & _ & Hall)|(k & Hk & Hr & _)].
  - exfalso.
    assert (Hpos : (1 <= List.length samples)%nat).
    { destruct samples; [contradiction|]. cbn. lia. }
    specialize (Hall (List.length samples) ltac:(lia)).
    pose proof (cumulativeSavings_all samples) as Hcum.
    unfold analyze.cumulativeSavings in Hcum. lia.
  - unfold GoInt.len. lia.
Qed.

End TotalsFacts.

(** ** server: the depth limit of [ListFiles] *)

Section ListFilesFacts.
Variable filepath_Abs : string -> string + error.
Variable filepath_Rel : string -> string -> string + error.
Variable filepath_SplitList : string -> list string.
Variable os_IsPermission : error -> bool.
Variable filepath_WalkDir :
  string -> (listing.call -> listing.walk_state -> listing.reply * listing.walk_state) ->
  listing.walk_state -> listing.walk_state * option error.

Import listing.

(** Without a list separator in the relative path the limit changes
    nothing in the callback. *)
Lemma ListFiles_fn_limit_idle (absRoot : string) (maxDepth : Z)
      (ctx_Err : nat -> option error) (c : call) (st : walk_state) :
  (forall path rel,
     filepath_Rel absRoot path = inl rel -> GoInt.len (filepath_SplitList rel) <= 1) ->
  ListFiles_fn filepath_Rel filepath_SplitList os_IsPermission absRoot maxDepth ctx_Err c st =
  ListFiles_fn filepath_Rel filepath_SplitList os_IsPermission absRoot 0 ctx_Err c st.
Proof.
  intros Hone. destruct st as [k files]. destruct c as [path d err|path d]; [reflexivity|].
  cbn [ListFiles_fn].
  destruct (ctx_Err k); [reflexivity|].
  destruct (filepath_Rel absRoot path) as [rel|e] eqn:Erel; [|reflexivity].
  specialize (Hone path rel Erel).
  destruct (String.eqb rel "."); [reflexivity|].
  assert (Hidle : (maxDepth >? 0) && (GoInt.len (filepath_SplitList rel) >? maxDepth)
                  = false).
  { destruct (Z.gtb_spec maxDepth 0) as [Hpos|Hnot]; [|reflexivity].
    destruct (Z.gtb_spec (GoInt.len (filepath_SplitList rel)) maxDepth); [lia|reflexivity]. }
  rewrite Hidle. reflexivity.
Qed.

(** X17.  The depth limit of [ListFiles] counts the pieces that
    [filepath.SplitList] makes of the relative path (the parts between
    list separators), not its directories.  An entry whose relative path
    has more pieces than a positive [MaxDepth] is left out, and skipped
    with what lies below it when it is a directory; but where no relative
    path splits into more than one piece, the answer of [ListFiles] is
    the same for every [MaxDepth] as for none: however deep an entry
    lies, it is listed. *)
Theorem ListFiles_depth_limit_counts_list_pieces :
  (forall root f g st,
     (forall c st', f c st' = g c st') ->
     filepath_WalkDir root f st = filepath_WalkDir root g st) ->
  (forall absRoot maxDepth ctx_Err path d rel k files,
     ctx_Err k = None ->
     filepath_Rel absRoot path = inl rel ->
     rel <> "."%string ->
     0 < maxDepth < GoInt.len (filepath_SplitList rel) ->
     ListFiles_fn filepath_Rel filepath_SplitList os_IsPermission absRoot maxDepth ctx_Err
       (call_entry path d) (k, files) =
     (if server.d_IsDir d then reply_SkipDir else reply_nil, (S k, files))) /\
  ((forall absRoot path rel,
      filepath_Rel absRoot path = inl rel ->
      GoInt.len (filepath_SplitList rel) <= 1) ->
   forall ctx_Err path maxDepth,
     ListFiles filepath_Abs filepath_Rel filepath_SplitList os_IsPermission
       filepath_WalkDir ctx_Err {| req_Path := path; req_MaxDepth := maxDepth |} =
     ListFiles filepath_Abs filepath_Rel filepath_SplitList os_IsPermission
       filepath_WalkDir ctx_Err {| req_Path := path; req_MaxDepth := 0 |}).
Proof.
  intros Hext. split.
  - intros absRoot maxDepth ctx_Err path d rel k files Hctx Erel Hdot Hdeep.
    cbn [ListFiles_fn]. rewrite Hctx, Erel.
    destruct (String.eqb_spec rel ".") as [E|_]; [contradiction|].
    destruct (Z.gtb_spec maxDepth 0) as [_|Hnot]; [|lia].
    destruct (Z.gtb_spec (GoInt.len (filepath_SplitList rel)) maxDepth) as [_|Hnot];
      [|lia].
    reflexivity.
  - intros Hone ctx_Err path maxDepth. unfold ListFiles. cbn [req_Path req_MaxDepth].
    destruct (filepath_Abs _) as [absRoot|e]; [|reflexivity].
    rewrite (Hext absRoot
               (ListFiles_fn filepath_Rel filepath_SplitList os_IsPermission absRoot
                  maxDepth ctx_Err)
               (ListFiles_fn filepath_Rel filepath_SplitList os_IsPermission absRoot
                  0 ctx_Err)).
    + reflexivity.
    + intros c st'. apply ListFiles_fn_limit_idle. exact (Hone absRoot).
Qed.

End ListFilesFacts.

(** ** The further properties at work on the reference engine *)

Lemma New_applies_options_in_order_witness :
  @zstddict.New StoredEngine.engine StoredWorld.read_file
    [zstddict.WithDictBytes (Some StoredEngine.dictB)]
    = inl (@zstddict.Build_Compressor StoredEngine.engine (Some StoredEngine.dictB) [] []) /\
  @zstddict.New StoredEngine.engine StoredWorld.read_file
    ([zstddict.WithDictBytes (Some StoredEngine.dictB)] ++
     zstddict.WithDictFile "missing.dict" :: [zstddict.WithDictBytes None])
    = inr (pkg_error 9).
Proof.
  assert (E : @zstddict.New StoredEngine.engine StoredWorld.read_file
                [zstddict.WithDictBytes (Some StoredEngine.dictB)]
              = inl (@zstddict.Build_Compressor StoredEngine.engine
                       (Some StoredEngine.dictB) [] [])) by reflexivity.
  split; [exact E|].
  apply (proj2 (proj2 (proj2 (proj2
    (@New_applies_options_in_order StoredEngine.engine StoredWorld.read_file
       [zstddict.WithDictBytes (Some StoredEngine.dictB)]
       [zstddict.WithDictBytes None] None "missing.dict" _ E))))).
  reflexivity.
Defined.

Lemma refused_dictionary_shows_at_first_use_witness :
  @zstd_NewWriter StoredEngine.engine None [WithEncoderDict StoredEngine.M1]
    = inr StoredEngine.ErrMagicMismatch /\
  exists c,
    @zstddict.New StoredEngine.engine StoredWorld.read_file
      [zstddict.WithDictBytes (Some StoredEngine.M1)] = inl c /\
    @zstddict.HasDict StoredEngine.engine c = true.
Proof.
  split; [reflexivity|].
  destruct (@refused_dictionary_shows_at_first_use StoredEngine.engine
              StoredWorld.read_file StoredEngine.M1 [] StoredEngine.M2 tt StoredEngine.M2
              StoredEngine.ErrMagicMismatch StoredEngine.ErrMagicMismatch
              StoredEngine.ErrMagicMismatch StoredEngine.ErrMagicMismatch
              eq_refl eq_refl eq_refl eq_refl)
    as (c & HNew & Hhas & _).
  exists c. split; [exact HNew|exact Hhas].
Defined.



Lemma pooledDecoder_Read_after_EOF_puts_again_witness :
  @Decoder_Read StoredEngine.engine StoredWorld.drained [Byte.x00]
    = (StoredWorld.drained, [Byte.x00], 0, Some io_EOF) /\
  let '(_, _, d1, pool1) :=
    @grpccodec.pooledDecoder_Read StoredEngine.engine StoredWorld.drained []
      [Byte.x00] in
  let '(_, _, d2, pool2) :=
    @grpccodec.pooledDecoder_Read StoredEngine.engine d1 pool1 [Byte.x00] in
  d1 = StoredWorld.drained /\ d2 = StoredWorld.drained /\
  pool2 = [@any_Decoder StoredEngine.engine (Some StoredWorld.drained);
           @any_Decoder StoredEngine.engine (Some StoredWorld.drained)].
Proof.
  split; [reflexivity|].
  exact (@pooledDecoder_Read_after_EOF_puts_again StoredEngine.engine
           StoredWorld.drained StoredWorld.drained StoredWorld.drained []
           [Byte.x00] [Byte.x00] [Byte.x00] [Byte.x00] 0 0 eq_refl eq_refl).
Defined.

Lemma Register_lookup_witness :
  @grpccodec_registry.well_named StoredEngine.engine StoredWorld.no_compressors /\
  @grpccodec_registry.well_named StoredEngine.engine
    (@grpccodec_registry.Register StoredEngine.engine (Some StoredEngine.dictA)
       StoredWorld.no_compressors).
Proof.
  assert (Hnone : @grpccodec_registry.well_named StoredEngine.engine
                    StoredWorld.no_compressors)
    by (intros n c E; discriminate E).
  split; [exact Hnone|].
  exact (proj1 (proj2 (@Register_lookup StoredEngine.engine (Some StoredEngine.dictA)
                         StoredWorld.no_compressors "zstd" Hnone))).
Defined.

Lemma TrainDictFromReader_collects_until_not_ok_witness :
  snd (StoredWorld.two_samples 2) = false /\
  train_sources.TrainDictFromReader StoredEngine.first_sample_trainer
    StoredWorld.two_samples None 5 =
  Some (train.TrainDict StoredEngine.first_sample_trainer
          [StoredEngine.M2; StoredEngine.M2] None).
Proof.
  split; [reflexivity|].
  apply (proj1 (TrainDictFromReader_collects_until_not_ok
                  StoredEngine.first_sample_trainer StoredWorld.two_samples None 2 5
                  ltac:(intros k Hk; destruct k as [|[|k]]; [reflexivity|reflexivity|lia])
                  eq_refl ltac:(lia))).
Defined.

Lemma showSizeDistribution_counts_witness :
  GoInt.len [StoredEngine.M1; StoredEngine.M2] <= GoInt.max_int /\
  exists bs,
    @distribution.showSizeDistribution StoredEngine.engine
      [StoredEngine.M1; StoredEngine.M2] StoredEngine.compNone StoredEngine.compDict
    = Done (bs, filter (fun b => negb (distribution.count b =? 0)) bs).
Proof.
  assert (Hlen : GoInt.len [StoredEngine.M1; StoredEngine.M2] <= GoInt.max_int)
    by by_computation.
  split; [exact Hlen|].
  destruct (@showSizeDistribution_counts StoredEngine.engine
              StoredEngine.eNone StoredEngine.eDict
              [StoredEngine.M1; StoredEngine.M2] StoredEngine.compNone
              StoredEngine.compDict compNone_encodes compDict_encodes Hlen
              ltac:(by_computation) ltac:(by_computation) ltac:(by_computation))
    as (bs & E & _).
  exists bs. exact E.
Defined.

Lemma analyzeScenario_report_witness :
  10 * GoInt.len [StoredEngine.M1; StoredEngine.M2] <= GoInt.max_int /\
  exists r,
    @report.analyzeScenario StoredEngine.engine StoredEngine.stored_gzip
      [StoredEngine.M1; StoredEngine.M2] StoredEngine.dictA
      StoredEngine.compNone StoredEngine.compDict = Done r /\
    report.messages r = 2.
Proof.
  assert (Hten : 10 * GoInt.len [StoredEngine.M1; StoredEngine.M2] <= GoInt.max_int)
    by by_computation.
  split; [exact Hten|].
  destruct (@analyzeScenario_report StoredEngine.engine StoredEngine.stored_gzip
              StoredEngine.eNone StoredEngine.eDict
              [StoredEngine.M1; StoredEngine.M2] StoredEngine.dictA
              StoredEngine.compNone StoredEngine.compDict
              compNone_encodes compDict_encodes ltac:(discriminate) Hten)
    as (_ & r & r0 & E & Hm & _).
  exists r. split; [exact E|exact Hm].
Defined.

Lemma main_finishes_only_beyond_200_samples_witness :
  @report.main_analysis StoredEngine.engine StoredEngine.stored_gzip
    StoredEngine.first_sample_trainer StoredWorld.read_file
    StoredWorld.samples201 None 100 = StoredWorld.main_run /\
  200 < GoInt.len (GoArith.elems StoredWorld.samples201).
Proof.
  assert (E : @report.main_analysis StoredEngine.engine StoredEngine.stored_gzip
                StoredEngine.first_sample_trainer StoredWorld.read_file
                StoredWorld.samples201 None 100 = StoredWorld.main_run)
    by (vm_compute; reflexivity).
  split; [exact E|].
  exact (proj1 (proj2 (@main_finishes_only_beyond_200_samples StoredEngine.engine
                         StoredEngine.stored_gzip StoredEngine.first_sample_trainer
                         StoredWorld.read_file StoredWorld.samples201 None 100 _ E))).
Defined.

Lemma main_finishes_with_enough_samples_witness :
  200 < GoInt.len (GoArith.elems StoredWorld.samples201) /\
  exists r,
    @report.main_analysis StoredEngine.engine StoredEngine.stored_gzip
      StoredEngine.first_sample_trainer StoredWorld.read_file
      StoredWorld.samples201 None 100 = report.Finished _ r /\
    report.testSamples r = [StoredEngine.M1].
Proof.
  assert (Hlen : 200 < GoInt.len (GoArith.elems StoredWorld.samples201))
    by (apply Z.ltb_lt; vm_compute; reflexivity).
  split; [exact Hlen|].
  destruct (@main_finishes_with_enough_samples StoredEngine.engine
              StoredEngine.stored_gzip StoredEngine.first_sample_trainer
              StoredWorld.read_file StoredEngine.eNone StoredWorld.eDictM2
              StoredWorld.samples201 100 StoredWorld.dictM2 Hlen
              ltac:(by_computation) ltac:(lia) ltac:(vm_compute; reflexivity)
              ltac:(discriminate) eq_refl eq_refl)
    as (r & b & E & _ & _ & Htest & _).
  exists r. split; [exact E|]. rewrite Htest. reflexivity.
Defined.

Lemma main_totals_agree_with_breakeven_witness :
  @analyze.fits_int StoredEngine.engine StoredEngine.eNone StoredEngine.eDict
    [StoredEngine.M1; StoredEngine.M2] /\
  exists t cN' cD',
    @analyze.main_loop StoredEngine.engine StoredEngine.stored_gzip
      [StoredEngine.M1; StoredEngine.M2]
      {| analyze.totalUncompressed := 0; analyze.totalGzip := 0;
         analyze.totalZstd := 0; analyze.totalZstdDict := 0 |}
      StoredEngine.compNone StoredEngine.compDict = Done (t, cN', cD') /\
    analyze.totalZstd t - analyze.totalZstdDict t =
      @analyze.cumulativeSavings StoredEngine.engine StoredEngine.eNone
        StoredEngine.eDict [StoredEngine.M1; StoredEngine.M2] 2.
Proof.
  assert (Hfit : @analyze.fits_int StoredEngine.engine StoredEngine.eNone
                   StoredEngine.eDict [StoredEngine.M1; StoredEngine.M2])
    by in_range_by_computation.
  split; [exact Hfit|].
  destruct (@main_totals_agree_with_breakeven StoredEngine.engine
              StoredEngine.stored_gzip StoredEngine.eNone StoredEngine.eDict
              StoredEngine.dictA [StoredEngine.M1; StoredEngine.M2]
              StoredEngine.compNone StoredEngine.compDict
              compNone_encodes compDict_encodes Hfit
              ltac:(by_computation) ltac:(by_computation))
    as (t & cN' & cD' & r & E & _ & _ & _ & _ & Hdiff & _).
  exists t, cN', cD'. split; [exact E|exact Hdiff].
Defined.

Lemma TrainDictFromFiles_reads_files_or_stops_witness :
  Forall (fun v => train_sources.visit_failure StoredWorld.read_file v = None)
         (StoredWorld.walk_one_file "samples") /\
  train_sources.TrainDictFromFiles StoredEngine.first_sample_trainer
    StoredWorld.walk_one_file StoredWorld.read_file "samples" None =
  train.TrainDict StoredEngine.first_sample_trainer [StoredEngine.dictA] None.
Proof.
  assert (Hclean : Forall (fun v => train_sources.visit_failure StoredWorld.read_file v
                                    = None)
                          (StoredWorld.walk_one_file "samples"))
    by (repeat constructor).
  split; [exact Hclean|].
  exact (proj1 (TrainDictFromFiles_reads_files_or_stops
                  StoredEngine.first_sample_trainer StoredWorld.walk_one_file
                  StoredWorld.read_file "samples" None) Hclean).
Defined.

Lemma walk_calls_ext (calls : list listing.call) :
  forall (f g : listing.call -> listing.walk_state -> listing.reply * listing.walk_state)
         (st : listing.walk_state),
    (forall c st', f c st' = g c st') ->
    StoredWorld.walk_calls calls f st = StoredWorld.walk_calls calls g st.
Proof.
  induction calls as [|c rest IH]; intros f g st Hfg; [reflexivity|].
  cbn [StoredWorld.walk_calls]. rewrite Hfg.
  destruct (g c st) as [[| |err] st']; [apply IH; exact Hfg|reflexivity|reflexivity].
Qed.

Lemma srv_paths_have_one_piece (absRoot path rel : string) :
  StoredWorld.srv_Rel absRoot path = inl rel ->
  GoInt.len (StoredWorld.unix_SplitList rel) <= 1.
Proof.
  unfold StoredWorld.srv_Rel. intros E.
  repeat match type of E with
         | (if ?b then _ else _) = _ =>
             destruct b; [inversion E; subst; by_computation|]
         end.
  discriminate E.
Qed.

Lemma ListFiles_depth_limit_counts_list_pieces_witness :
  (forall absRoot path rel,
     StoredWorld.srv_Rel absRoot path = inl rel ->
     GoInt.len (StoredWorld.unix_SplitList rel) <= 1) /\
  listing.ListFiles StoredWorld.srv_Abs StoredWorld.srv_Rel StoredWorld.unix_SplitList
    (fun _ => false) StoredWorld.srv_WalkDir (fun _ => None)
    {| listing.req_Path := "/srv"; listing.req_MaxDepth := 1 |} =
  listing.ListFiles StoredWorld.srv_Abs StoredWorld.srv_Rel StoredWorld.unix_SplitList
    (fun _ => false) StoredWorld.srv_WalkDir (fun _ => None)
    {| listing.req_Path := "/srv"; listing.req_MaxDepth := 0 |}.
Proof.
  split; [exact srv_paths_have_one_piece|].
  apply (proj2 (ListFiles_depth_limit_counts_list_pieces
                  StoredWorld.srv_Abs StoredWorld.srv_Rel StoredWorld.unix_SplitList
                  (fun _ => false) StoredWorld.srv_WalkDir
                  (fun root f g st Hfg => walk_calls_ext StoredWorld.srv_calls f g st Hfg))
               srv_paths_have_one_piece).
Defined.

(** With a depth limit of 1 the file three directories down is listed. *)
Example ListFiles_lists_below_the_limit :
  option_map (fun r => map server.Path (server.Files r))
    (fst (listing.ListFiles StoredWorld.srv_Abs StoredWorld.srv_Rel
            StoredWorld.unix_SplitList (fun _ => false) StoredWorld.srv_WalkDir
            (fun _ => None)
            {| listing.req_Path := "/srv"; listing.req_MaxDepth := 1 |}))
  = Some ["a"; "a/b"; "a/b/c.txt"]%string.
Proof. vm_compute. reflexivity. Qed.
